(** * Vendor payment API: the purchase-order / payment ledger

    A shallow embedding of the ledger core of the NestJS services
    [PurchaseOrdersService] (src/purchase-orders/purchase-orders.service.ts)
    and [PaymentsService] (src/payments/payments.service.ts), with the
    properties the specification states about them.

    Modelling conventions.
    - A JavaScript [number] holding money or a percentage is an exact
      rational ([Q]); [Number(x.toFixed(2))] is [toFixed2], rounding to the
      nearest hundredth with ties away from zero.  Equalities between
      amounts are therefore stated with [==] ([Qeq]).  The code rounds the
      double it has computed, which at or next to half a cent can fall on
      the other side of the exact value: what is said of an amount the
      code has rounded is said with [Spec.rounded] (two decimals, less than
      a hundredth from the exact value) or with bounds, not with the value
      of [toFixed2].
    - The [quantity] of a request is a number; an item row keeps it in an
      [int] column, as an integer ([Z]).
    - A [Date] is its [valueOf()], milliseconds since the epoch ([Z]).  The
      process has a time zone: [setDate] moves the local clock by whole
      days, and a [date] column keeps the local calendar day (here the
      midnight UTC of that day) and arrives in an entity as the string
      'YYYY-MM-DD'.
    - A [decimal] column arrives in an entity as a string with the driver
      app.module.ts configures and as a number in the unit tests; which of
      the two is part of the environment of a call.
    - The tables [vendors], [purchase_orders] and [payments] are finite maps
      from the primary key to the row; the eager [items] relation of a
      purchase order is the list of its item rows.
    - An [async] method is a computation in the monad [M]: it reads and
      writes the database, may throw, and returns.  Writes issued through
      [queryRunner.manager] are buffered until [commitTransaction]; writes
      issued through an injected repository reach the database at once.
    - The database can reject an awaited call of [PaymentsService.create]
      and [void] once the transaction is open: inside the [try] block, at
      the rollback of the [catch] block, at the reload of the [return]
      statement and at the release of the [finally] block.  Which calls it
      rejects is part of the environment [Env] of a call, with the clock
      and the generated uuids.  The calls of [PurchaseOrdersService] are
      taken to go through.
    - A [unique: true] column rejects a second row with the same value.
    - The rows of a table are the live ones: [remove], which soft-deletes a
      row, is not part of the embedding.
    - Audit columns ([createdBy], [updatedBy], [createdAt], [deletedAt]) and
      the optional text columns of items and payments play no part in the
      ledger and are left out. *)

From Stdlib Require Import QArith Qround Qabs Lqa ZArith Lia String Ascii DecimalString List.
From stdpp Require Import gmap strings.

Local Open Scope Z_scope.

(** ** Numbers *)

Module Num.

Local Open Scope Q_scope.

(** [Number(x.toFixed(2))] on an exact value: [toFixed] works on the
    absolute value, takes the integer [n] with [n / 100] closest to it (the
    larger one on a tie) and puts the sign back.  The code applies it to a
    double: for 1 x 0.25 at 18% the tax 0.045 is a double just below, and
    the code stores 0.04 where [toFixed2] gives 0.05.  On a value with two
    decimals the two agree. *)
Definition toFixed2 (x : Q) : Q :=
  if Qlt_le_dec x 0
  then - (inject_Z (Qfloor (100 * - x + (1 # 2))) / 100)
  else inject_Z (Qfloor (100 * x + (1 # 2))) / 100.

(** [Math.max(0, x)] *)
Definition max0 (x : Q) : Q := if Qlt_le_dec 0 x then x else 0.

(** [a || 0] on an optional number: [undefined] and [0] both give [0]. *)
Definition orZero (a : option Q) : Q := default 0 a.

(** What an [int] column keeps of a number: MySQL rounds it to the nearest
    integer, a half away from zero. *)
Definition intColumn (x : Q) : Z :=
  if Qlt_le_dec x 0 then (- Qfloor (- x + (1 # 2)))%Z else Qfloor (x + (1 # 2)).

(** A value with at most two decimal places, as a [decimal(15,2)] column
    stores it and as [@IsNumber({ maxDecimalPlaces: 2 })] lets through. *)
Definition two_decimals (x : Q) : Prop := exists n : Z, x == inject_Z n / 100.

(** Linear arithmetic over [Q] with the divisions by [100] of the code. *)
Ltac qlra :=
  unfold Qdiv in *; change (/ 100) with (1 # 100) in *; lra.

End Num.

(** ** Enumerations (src/common/enums/index.ts) *)

Inductive VendorStatus := ACTIVE | INACTIVE.
Inductive PaymentTerms := NET_15 | NET_30 | NET_45 | NET_60 | IMMEDIATE | ADVANCE.
Inductive PurchaseOrderStatus :=
  PENDING | APPROVED | PARTIALLY_PAID | PAID | OVERDUE | CANCELLED.
Inductive PaymentMethod := BANK_TRANSFER | CASH | CHEQUE | UPI | NEFT | RTGS.
Inductive PaymentStatus := COMPLETED | VOIDED.

#[export] Instance VendorStatus_eq_dec : EqDecision VendorStatus.
Proof. solve_decision. Defined.
#[export] Instance PurchaseOrderStatus_eq_dec : EqDecision PurchaseOrderStatus.
Proof. solve_decision. Defined.
#[export] Instance PaymentStatus_eq_dec : EqDecision PaymentStatus.
Proof. solve_decision. Defined.

(** [Date.prototype.valueOf()] *)
Definition Date := Z.
Definition msPerDay : Z := 86400000.

(** ** Entities and request objects *)

(** src/vendors/entities/vendor.entity.ts: the primary key and the two
    columns [PurchaseOrdersService.create] reads, [status] and
    [paymentTerms]. *)
Module Vendor.
Record t := mk {
  id : string;
  status : VendorStatus;
  paymentTerms : PaymentTerms
}.
End Vendor.

(** src/purchase-orders/entities/purchase-order-item.entity.ts; [quantity] is
    an [int] column, the other numbers are [decimal] columns. *)
Module PurchaseOrderItem.
Record t := mk {
  id : string;
  description : string;
  quantity : Z;
  unitPrice : Q;
  totalPrice : Q;
  taxRate : Q;
  discountPercent : Q
}.
End PurchaseOrderItem.

(** src/purchase-orders/entities/purchase-order.entity.ts *)
Module PurchaseOrder.
Record t := mk {
  id : string;
  poNumber : string;
  vendorId : string;
  poDate : Date;
  dueDate : Date;
  totalAmount : Q;
  paidAmount : Q;
  outstandingAmount : Q;
  subtotal : Q;
  status : PurchaseOrderStatus;
  notes : option string;
  referenceNumber : option string;
  shippingAddress : option string;
  billingAddress : option string;
  taxAmount : Q;
  discountAmount : Q;
  items : list PurchaseOrderItem.t
}.

Definition set_status (s : PurchaseOrderStatus) (po : t) : t :=
  mk (id po) (poNumber po) (vendorId po) (poDate po) (dueDate po)
     (totalAmount po) (paidAmount po) (outstandingAmount po) (subtotal po)
     s (notes po) (referenceNumber po) (shippingAddress po)
     (billingAddress po) (taxAmount po) (discountAmount po) (items po).

Definition set_items (l : list PurchaseOrderItem.t) (po : t) : t :=
  mk (id po) (poNumber po) (vendorId po) (poDate po) (dueDate po)
     (totalAmount po) (paidAmount po) (outstandingAmount po) (subtotal po)
     (status po) (notes po) (referenceNumber po) (shippingAddress po)
     (billingAddress po) (taxAmount po) (discountAmount po) l.

(** [paidAmount], [outstandingAmount] and [status] assigned together, as
    [updatePaymentAmounts] and [reversePaymentAmount] do. *)
Definition set_payment (paid outstanding : Q) (s : PurchaseOrderStatus)
    (po : t) : t :=
  mk (id po) (poNumber po) (vendorId po) (poDate po) (dueDate po)
     (totalAmount po) paid outstanding (subtotal po)
     s (notes po) (referenceNumber po) (shippingAddress po)
     (billingAddress po) (taxAmount po) (discountAmount po) (items po).

(** The column set of the [poRepository.update] in [recalculateTotals]. *)
Definition set_totals (sub tax disc total outstanding : Q) (po : t) : t :=
  mk (id po) (poNumber po) (vendorId po) (poDate po) (dueDate po)
     total (paidAmount po) outstanding sub
     (status po) (notes po) (referenceNumber po) (shippingAddress po)
     (billingAddress po) tax disc (items po).
End PurchaseOrder.

(** src/payments/entities/payment.entity.ts *)
Module Payment.
Record t := mk {
  id : string;
  paymentReference : string;
  purchaseOrderId : string;
  paymentDate : Date;
  amountPaid : Q;
  paymentMethod : PaymentMethod;
  status : PaymentStatus;
  notes : option string;
  voidedAt : option Date;
  voidReason : option string
}.

(** The three assignments at the head of the [try] block of [void]. *)
Definition set_voided (at_ : Date) (reason : string) (p : t) : t :=
  mk (id p) (paymentReference p) (purchaseOrderId p) (paymentDate p)
     (amountPaid p) (paymentMethod p) VOIDED (notes p) (Some at_)
     (Some reason).
End Payment.

(** src/purchase-orders/dto/create-purchase-order.dto.ts *)
Module CreatePurchaseOrderItemDto.
Record t := mk {
  description : string;
  quantity : Q;
  unitPrice : Q;
  taxRate : option Q;
  discountPercent : option Q
}.
End CreatePurchaseOrderItemDto.

Module CreatePurchaseOrderDto.
Record t := mk {
  vendorId : string;
  poDate : option Date;
  items : list CreatePurchaseOrderItemDto.t;
  notes : option string;
  referenceNumber : option string;
  shippingAddress : option string;
  billingAddress : option string;
  taxAmount : option Q;
  discountAmount : option Q
}.
End CreatePurchaseOrderDto.

(** src/purchase-orders/dto/update-purchase-order.dto.ts:
    [PartialType(OmitType(CreatePurchaseOrderDto, ['vendorId', 'items']))]
    extended with [status] and [dueDate].  A key is present in the request
    object exactly when its field is [Some]. *)
Module UpdatePurchaseOrderDto.
Record t := mk {
  poDate : option Date;
  notes : option string;
  referenceNumber : option string;
  shippingAddress : option string;
  billingAddress : option string;
  taxAmount : option Q;
  discountAmount : option Q;
  status : option PurchaseOrderStatus;
  dueDate : option Date
}.

Definition empty : t := mk None None None None None None None None None.
End UpdatePurchaseOrderDto.

Module UpdatePurchaseOrderItemDto.
Record t := mk {
  description : option string;
  quantity : option Q;
  unitPrice : option Q;
  taxRate : option Q;
  discountPercent : option Q
}.
End UpdatePurchaseOrderItemDto.

(** src/payments/dto/create-payment.dto.ts and void-payment.dto.ts *)
Module CreatePaymentDto.
Record t := mk {
  purchaseOrderId : string;
  amountPaid : Q;
  paymentDate : option Date;
  paymentMethod : PaymentMethod;
  notes : option string
}.
End CreatePaymentDto.

Module VoidPaymentDto.
Record t := mk { voidReason : string }.
End VoidPaymentDto.

(** ** The database and the effects of a service method *)

Record Db := mkDb {
  vendors : gmap string Vendor.t;
  purchase_orders : gmap string PurchaseOrder.t;
  payments : gmap string Payment.t
}.

(** A write issued through [queryRunner.manager]. *)
Inductive Write :=
| SavePurchaseOrder (po : PurchaseOrder.t)
| SavePayment (p : Payment.t).

Definition apply_write (d : Db) (w : Write) : Db :=
  match w with
  | SavePurchaseOrder po =>
      mkDb (vendors d) (<[PurchaseOrder.id po := po]> (purchase_orders d))
           (payments d)
  | SavePayment p =>
      mkDb (vendors d) (purchase_orders d)
           (<[Payment.id p := p]> (payments d))
  end.

(** The committed database, and the writes of the open transaction of the
    query runner, oldest first.  The injected repositories work on their own
    connection: they read and write [db] and never see [pending]. *)
Record World := mkWorld {
  db : Db;
  pending : list Write
}.

Inductive Entity := AVendor | APurchaseOrder | AnItem | APayment.

(** The awaited calls of [PaymentsService.create] and [void] that the
    database can reject once the transaction is open: those inside the
    [try] block, the [rollbackTransaction()] of the [catch] block, the
    [findOne] of the [return] statement and the [queryRunner.release()] of
    the [finally] block. *)
Inductive Fault :=
| GeneratingReference
| SavingPayment
| UpdatingPurchaseOrder
| Committing
| RollingBack
| Reloading
| Releasing.

(** The [BadRequestException]s of the two services, one constructor per
    [throw] site (sites with the same meaning share one). *)
Inductive BadRequest :=
| VendorInactive             (* Cannot create PO for vendor with status: .. *)
| InvalidStatusTransition    (* Cannot transition from .. to .. *)
| ImmutableAfterTerminal     (* Cannot modify paid|cancelled purchase order *)
| InvalidStateForMutation    (* Cannot add items to | modify items in | remove items from .. *)
| LastItemRemovalForbidden   (* Cannot remove the last item from a PO *)
| InvalidPoStateForPayment   (* cancelled PO | already fully paid | must be approved *)
| PaymentExceedsOutstanding  (* Payment amount exceeds outstanding balance *)
| PaymentExceedsTotal        (* Payment would exceed total amount *)
| PaymentAlreadyVoided.      (* Payment is already voided *)

Inductive Exception :=
| NotFoundException (what : Entity)
| BadRequestException (why : BadRequest)
| DuplicateEntry               (* a [unique: true] column rejects the row *)
| TypeError                    (* [toFixed] is not a function of a string *)
| QueryFailedError (at_ : Fault).

(** How a [decimal] column arrives in an entity.  The mysql2 driver that
    app.module.ts configures hands it over as a string ([AsString]); the
    repository mocks of the unit tests, like the drivers that parse decimals,
    hand over a number ([AsNumber]).  Comparisons, [-], [*] and [/] convert a
    string to its number; [+] concatenates, and a string has no [toFixed]. *)
Inductive Hydration := AsString | AsNumber.

(** The time zone of the process, by the two conversions of ECMAScript:
    [LocalTime(t)] is the local clock at the instant [t], [UTC(t)] an instant
    at which the local clock shows [t] (after a clock change skips [t], the
    instant found with the offset from before the change). *)
Record TimeZone := mkTimeZone {
  LocalTime : Date -> Date;
  UTC : Date -> Date
}.

(** What a call takes from its environment: which awaited database calls
    reject, [new Date()], the [YYYYMMDD] digits of
    [new Date().toISOString()], the uuids the database generates for the
    rows the call inserts, how the driver hydrates decimal columns, and the
    time zone of the process. *)
Record Env := mkEnv {
  faults : Fault -> bool;
  now : Date;
  isoDate : string;
  uuid : nat -> string;
  decimals : Hydration;
  zone : TimeZone
}.

Definition M (A : Type) : Type := World -> World * (Exception + A).

#[export] Instance M_ret : MRet M := fun A a w => (w, inr a).
#[export] Instance M_bind : MBind M := fun A B f m w =>
  match m w with
  | (w', inr a) => f a w'
  | (w', inl e) => (w', inl e)
  end.

Definition throw {A : Type} (e : Exception) : M A := fun w => (w, inl e).

(** [try { body } catch (error) { handler(error) }] *)
Definition try_catch {A : Type} (body : M A) (handler : Exception -> M A)
    : M A := fun w =>
  match body w with
  | (w', inl e) => handler e w'
  | r => r
  end.

(** [try { body } catch (error) { handler(error) } finally { finalizer }]:
    the finalizer runs on every path, and when it throws, its error is the
    one that leaves the statement. *)
Definition try_catch_finally {A : Type} (body : M A)
    (handler : Exception -> M A) (finalizer : M unit) : M A := fun w =>
  match try_catch body handler w with
  | (w1, r) =>
      match finalizer w1 with
      | (w2, inr _) => (w2, r)
      | (w2, inl e) => (w2, inl e)
      end
  end.

Definition read {A : Type} (f : Db -> A) : M A := fun w => (w, inr (f (db w))).

(** A write through an injected repository: committed at once. *)
Definition repository_write (f : Db -> Db) : M unit := fun w =>
  (mkWorld (f (db w)) (pending w), inr tt).

Definition startTransaction : M unit := fun w => (mkWorld (db w) [], inr tt).

Definition manager_write (wr : Write) : M unit := fun w =>
  (mkWorld (db w) (pending w ++ [wr]), inr tt).

Definition commitTransaction : M unit := fun w =>
  (mkWorld (foldl apply_write (db w) (pending w)) [], inr tt).

Definition rollbackTransaction : M unit := fun w =>
  (mkWorld (db w) [], inr tt).

(** An awaited database call that the environment may reject. *)
Definition await (env : Env) (f : Fault) : M unit :=
  if faults env f then throw (QueryFailedError f) else mret tt.

(** [x.toFixed(2)] inside a message, for a hydrated decimal column [x]. *)
Definition hydrated_toFixed (env : Env) : M unit :=
  match decimals env with
  | AsNumber => mret tt
  | AsString => throw TypeError
  end.

(** [Number((x + y).toFixed(2))] for a hydrated decimal column [x] and a
    number [y]: on a string [+] concatenates, and the result has no
    [toFixed]. *)
Definition hydrated_plus_toFixed2 (env : Env) (x y : Q) : M Q :=
  match decimals env with
  | AsNumber => mret (Num.toFixed2 (x + y))
  | AsString => throw TypeError
  end.

(** How a [date] column arrives in an entity: as the string 'YYYY-MM-DD',
    whatever the driver.  [ToNumber] of such a string is [NaN]. *)
Definition dateString_toNumber (d : Date) : option Z := None.

(** [x > y] for a [Date] [x] and a hydrated [date] column [y]: both sides
    are converted to numbers, and a comparison with [NaN] is false. *)
Definition after_hydrated_date (x y : Date) : bool :=
  match dateString_toNumber y with
  | Some n => (n <? x)%Z
  | None => false
  end.

(** Run a method on a committed database. *)
Definition run {A : Type} (m : M A) (d : Db) : Db * (Exception + A) :=
  let r := m (mkWorld d []) in (db r.1, r.2).

(** ** Reference numbers: [PREFIX-YYYYMMDD-NNN] *)

Module Reference.

(** [s.split('-')] *)
Fixpoint split_dash_aux (cur : string) (s : string) : list string :=
  match s with
  | EmptyString => [String.rev cur]
  | String c s' =>
      if Ascii.eqb c "-"%char then String.rev cur :: split_dash_aux "" s'
      else split_dash_aux (String c cur) s'
  end.
Definition split_dash (s : string) : list string := split_dash_aux "" s.

Definition digit (c : ascii) : option N :=
  let n := N_of_ascii c in
  if ((48 <=? n) && (n <=? 57))%N then Some (n - 48)%N else None.

Fixpoint parse_digits (acc : option N) (s : string) : option N :=
  match s with
  | EmptyString => acc
  | String c s' =>
      match digit c with
      | Some d => parse_digits (Some (10 * default 0%N acc + d)%N) s'
      | None => acc
      end
  end.

(** [parseInt(s, 10)] on a string without leading white space or sign (a
    field of [split('-')] holds no sign): the value of the longest prefix of
    decimal digits, and [NaN] ([None]) when there is none or when the field
    is [undefined]. *)
Definition parseInt (s : option string) : option N :=
  match s with
  | Some s => parse_digits None s
  | None => None
  end.

(** [n.toString()] for a non-negative integer or [NaN]. *)
Definition toString (n : option N) : string :=
  match n with
  | Some n => if (n =? 0)%N then "0" else NilEmpty.string_of_uint (N.to_uint n)
  | None => "NaN"
  end.

(** [s.padStart(3, '0')] *)
Definition padStart3 (s : string) : string :=
  match String.length s with
  | 0%nat => "000" +:+ s
  | 1%nat => "00" +:+ s
  | 2%nat => "0" +:+ s
  | _ => s
  end.

(** [.where('x LIKE :prefix', { prefix: `${prefix}%` })
     .orderBy('x', 'DESC').getOne()] over the values of column [x]. *)
Definition latest (prefix : string) (column : list string) : option string :=
  foldr (fun r best =>
           if String.prefix prefix r then
             match best with
             | Some b => if String.ltb b r then Some r else Some b
             | None => Some r
             end
           else best) None column.

(** The body shared by [generatePoNumber] and [generatePaymentReference]. *)
Definition generate (tag dateStr : string) (column : list string) : string :=
  let prefix := tag +:+ "-" +:+ dateStr in
  let sequence :=
    match latest prefix column with
    | Some l =>
        let lastSequence := parseInt (split_dash l !! 2%nat) in
        (fun n => n + 1)%N <$> lastSequence
    | None => Some 1%N
    end in
  prefix +:+ "-" +:+ padStart3 (toString sequence).

End Reference.

(** ** PurchaseOrdersService *)

Module PurchaseOrdersService.

Import Num.

Section WithEnv.

Variable env : Env.

Local Open Scope Q_scope.

Definition poNumbers (d : Db) : list string :=
  PurchaseOrder.poNumber <$> (map_to_list (purchase_orders d)).*2.

Definition generatePoNumber : M string :=
  column ← read poNumbers;
  mret (Reference.generate "PO" (isoDate env) column).

Definition daysMap (paymentTerms : PaymentTerms) : Z :=
  match paymentTerms with
  | NET_15 => 15
  | NET_30 => 30
  | NET_45 => 45
  | NET_60 => 60
  | IMMEDIATE => 0
  | ADVANCE => -7
  end.

(** [dueDate.setDate(dueDate.getDate() + daysMap[paymentTerms])]: the day
    of the month is set on the local clock, which moves the local time by
    whole days, and the result is taken back to an instant. *)
Definition calculateDueDate (poDate : Date) (paymentTerms : PaymentTerms)
    : Date :=
  UTC (zone env)
    (LocalTime (zone env) poDate + daysMap paymentTerms * msPerDay)%Z.

(** What a [date] column keeps of a [Date]: the driver writes its local
    year, month and day, and the entity read back holds 'YYYY-MM-DD'.  The
    calendar day is kept here as its midnight in UTC, which is what the
    database compares a [date] with. *)
Definition dateColumn (t : Date) : Date :=
  (LocalTime (zone env) t / msPerDay * msPerDay)%Z.

Definition calculateItemTotal (item : CreatePurchaseOrderItemDto.t) : Q :=
  let subtotal :=
    CreatePurchaseOrderItemDto.quantity item
    * CreatePurchaseOrderItemDto.unitPrice item in
  let discount :=
    subtotal * (orZero (CreatePurchaseOrderItemDto.discountPercent item) / 100) in
  let afterDiscount := subtotal - discount in
  let tax :=
    afterDiscount * (orZero (CreatePurchaseOrderItemDto.taxRate item) / 100) in
  toFixed2 (afterDiscount + tax).

(** The row [poItemRepository.create({ ...itemDto, totalPrice })] becomes
    once saved: an absent [taxRate] or [discountPercent] takes the column
    default [0]. *)
Definition itemEntity (id : string) (itemDto : CreatePurchaseOrderItemDto.t)
    (totalPrice : Q) : PurchaseOrderItem.t :=
  PurchaseOrderItem.mk id
    (CreatePurchaseOrderItemDto.description itemDto)
    (intColumn (CreatePurchaseOrderItemDto.quantity itemDto))
    (CreatePurchaseOrderItemDto.unitPrice itemDto)
    totalPrice
    (orZero (CreatePurchaseOrderItemDto.taxRate itemDto))
    (orZero (CreatePurchaseOrderItemDto.discountPercent itemDto)).

(** The variables of the [for] loops of [create] and [recalculateTotals]. *)
Record Totals := mkTotals {
  subtotal : Q;
  totalTax : Q;
  totalDiscount : Q
}.

Record CreateLoop := mkCreateLoop {
  running : Totals;
  itemEntities : list PurchaseOrderItem.t
}.

(** One turn of [for (const itemDto of createDto.items)] in [create]; the
    k-th item entity gets the uuid number [k + 1] of the call. *)
Definition create_step (st : CreateLoop)
    (itemDto : CreatePurchaseOrderItemDto.t) : CreateLoop :=
  let itemSubtotal :=
    CreatePurchaseOrderItemDto.quantity itemDto
    * CreatePurchaseOrderItemDto.unitPrice itemDto in
  let itemDiscount :=
    itemSubtotal
    * (orZero (CreatePurchaseOrderItemDto.discountPercent itemDto) / 100) in
  let afterDiscount := itemSubtotal - itemDiscount in
  let itemTax :=
    afterDiscount * (orZero (CreatePurchaseOrderItemDto.taxRate itemDto) / 100) in
  let itemTotal := afterDiscount + itemTax in
  mkCreateLoop
    (mkTotals (subtotal (running st) + itemSubtotal)
              (totalTax (running st) + itemTax)
              (totalDiscount (running st) + itemDiscount))
    (itemEntities st
       ++ [itemEntity (uuid env (S (length (itemEntities st)))) itemDto
             (toFixed2 itemTotal)]).

Definition create_loop (dtos : list CreatePurchaseOrderItemDto.t) : CreateLoop :=
  foldl create_step (mkCreateLoop (mkTotals 0 0 0) []) dtos.

(** [repository.findOne({ where: { id } })] followed by the
    [NotFoundException] of [findOne]. *)
Definition findOne (id : string) : M PurchaseOrder.t :=
  purchaseOrder ← read (fun d => purchase_orders d !! id);
  match purchaseOrder with
  | Some purchaseOrder => mret purchaseOrder
  | None => throw (NotFoundException APurchaseOrder)
  end.

(** [po_number] is [unique: true]: another row with the same number makes
    the insert or update fail. *)
Definition poNumber_taken (po : PurchaseOrder.t) (d : Db) : bool :=
  existsb (fun o =>
             bool_decide (PurchaseOrder.poNumber o = PurchaseOrder.poNumber po)
             && negb (bool_decide (PurchaseOrder.id o = PurchaseOrder.id po)))
          (map_to_list (purchase_orders d)).*2.

(** [queryRunner.manager.save(purchaseOrder)], then the item rows through
    the same manager: one buffered write of the order with its items. *)
Definition manager_save (po : PurchaseOrder.t) : M PurchaseOrder.t :=
  taken ← read (poNumber_taken po);
  if taken : bool then throw DuplicateEntry
  else manager_write (SavePurchaseOrder po);; mret po.

(** [this.poRepository.save(purchaseOrder)] on a loaded order. *)
Definition poRepository_save (po : PurchaseOrder.t) : M unit :=
  repository_write (fun d => apply_write d (SavePurchaseOrder po)).

Definition create (createDto : CreatePurchaseOrderDto.t) : M PurchaseOrder.t :=
  vendor ← read (fun d => vendors d !! CreatePurchaseOrderDto.vendorId createDto);
  match vendor with
  | None => throw (NotFoundException AVendor)
  | Some vendor =>
      if decide (Vendor.status vendor <> ACTIVE)
      then throw (BadRequestException VendorInactive)
      else
        startTransaction;;
        try_catch
          (poNumber ← generatePoNumber;
           let poDate := default (now env) (CreatePurchaseOrderDto.poDate createDto) in
           let dueDate := calculateDueDate poDate (Vendor.paymentTerms vendor) in
           let loop := create_loop (CreatePurchaseOrderDto.items createDto) in
           let subtotal := subtotal (running loop) in
           let totalTax := totalTax (running loop) in
           let totalDiscount := totalDiscount (running loop) in
           let finalTax :=
             default (toFixed2 totalTax) (CreatePurchaseOrderDto.taxAmount createDto) in
           let finalDiscount :=
             default (toFixed2 totalDiscount)
                     (CreatePurchaseOrderDto.discountAmount createDto) in
           let totalAmount := toFixed2 (subtotal - finalDiscount + finalTax) in
           let purchaseOrder :=
             PurchaseOrder.mk (uuid env 0) poNumber (Vendor.id vendor)
               (dateColumn poDate) (dateColumn dueDate)
               totalAmount 0 totalAmount (toFixed2 subtotal)
               PENDING
               (CreatePurchaseOrderDto.notes createDto)
               (CreatePurchaseOrderDto.referenceNumber createDto)
               (CreatePurchaseOrderDto.shippingAddress createDto)
               (CreatePurchaseOrderDto.billingAddress createDto)
               finalTax finalDiscount (itemEntities loop) in
           savedPo ← manager_save purchaseOrder;
           commitTransaction;;
           findOne (PurchaseOrder.id savedPo))
          (fun error => rollbackTransaction;; throw error)
  end.

Definition validTransitions (currentStatus : PurchaseOrderStatus)
    : list PurchaseOrderStatus :=
  match currentStatus with
  | PENDING => [APPROVED; CANCELLED]
  | APPROVED => [PARTIALLY_PAID; PAID; CANCELLED]
  | PARTIALLY_PAID => [PAID; CANCELLED]
  | PAID => []
  | CANCELLED => []
  | OVERDUE => [PARTIALLY_PAID; PAID; CANCELLED]
  end.

Definition validateStatusTransition (currentStatus newStatus : PurchaseOrderStatus)
    : M unit :=
  if decide (newStatus ∈ validTransitions currentStatus) then mret tt
  else throw (BadRequestException InvalidStatusTransition).

(** [Object.keys(updateDto).some(key => key !== 'notes')] *)
Definition someKeyOtherThanNotes (updateDto : UpdatePurchaseOrderDto.t) : bool :=
  bool_decide (is_Some (UpdatePurchaseOrderDto.poDate updateDto))
  || bool_decide (is_Some (UpdatePurchaseOrderDto.referenceNumber updateDto))
  || bool_decide (is_Some (UpdatePurchaseOrderDto.shippingAddress updateDto))
  || bool_decide (is_Some (UpdatePurchaseOrderDto.billingAddress updateDto))
  || bool_decide (is_Some (UpdatePurchaseOrderDto.taxAmount updateDto))
  || bool_decide (is_Some (UpdatePurchaseOrderDto.discountAmount updateDto))
  || bool_decide (is_Some (UpdatePurchaseOrderDto.status updateDto))
  || bool_decide (is_Some (UpdatePurchaseOrderDto.dueDate updateDto)).

Definition keep {A : Type} (old : option A) (new : option A) : option A :=
  match new with Some _ => new | None => old end.

(** [Object.assign(purchaseOrder, updateDto)].  A [poDate] or [dueDate] of
    the request is kept as the request has it; the properties of [update]
    below are about the status and the amounts. *)
Definition assign (po : PurchaseOrder.t) (updateDto : UpdatePurchaseOrderDto.t)
    : PurchaseOrder.t :=
  PurchaseOrder.mk (PurchaseOrder.id po) (PurchaseOrder.poNumber po)
    (PurchaseOrder.vendorId po)
    (default (PurchaseOrder.poDate po) (UpdatePurchaseOrderDto.poDate updateDto))
    (default (PurchaseOrder.dueDate po) (UpdatePurchaseOrderDto.dueDate updateDto))
    (PurchaseOrder.totalAmount po) (PurchaseOrder.paidAmount po)
    (PurchaseOrder.outstandingAmount po) (PurchaseOrder.subtotal po)
    (default (PurchaseOrder.status po) (UpdatePurchaseOrderDto.status updateDto))
    (keep (PurchaseOrder.notes po) (UpdatePurchaseOrderDto.notes updateDto))
    (keep (PurchaseOrder.referenceNumber po)
          (UpdatePurchaseOrderDto.referenceNumber updateDto))
    (keep (PurchaseOrder.shippingAddress po)
          (UpdatePurchaseOrderDto.shippingAddress updateDto))
    (keep (PurchaseOrder.billingAddress po)
          (UpdatePurchaseOrderDto.billingAddress updateDto))
    (default (PurchaseOrder.taxAmount po) (UpdatePurchaseOrderDto.taxAmount updateDto))
    (default (PurchaseOrder.discountAmount po)
             (UpdatePurchaseOrderDto.discountAmount updateDto))
    (PurchaseOrder.items po).

Definition update (id : string) (updateDto : UpdatePurchaseOrderDto.t)
    : M PurchaseOrder.t :=
  purchaseOrder ← findOne id;
  match UpdatePurchaseOrderDto.status updateDto with
  | Some newStatus =>
      validateStatusTransition (PurchaseOrder.status purchaseOrder) newStatus
  | None => mret tt
  end;;
  (if (bool_decide (PurchaseOrder.status purchaseOrder = PAID)
       || bool_decide (PurchaseOrder.status purchaseOrder = CANCELLED))
      && someKeyOtherThanNotes updateDto
   then throw (BadRequestException ImmutableAfterTerminal)
   else mret tt);;
  poRepository_save (assign purchaseOrder updateDto);;
  findOne id.

Definition editable (s : PurchaseOrderStatus) : bool :=
  bool_decide (s = PENDING) || bool_decide (s = APPROVED).

(** [purchaseOrder.items.find(i => i.id === itemId)] *)
Definition find_item (itemId : string) (l : list PurchaseOrderItem.t)
    : option PurchaseOrderItem.t :=
  List.find (fun i => bool_decide (PurchaseOrderItem.id i = itemId)) l.

(** [poItemRepository.save(item)]: the row with the item's id is replaced,
    a row with a new id is added to the order. *)
Definition save_item (item : PurchaseOrderItem.t) (l : list PurchaseOrderItem.t)
    : list PurchaseOrderItem.t :=
  if bool_decide (is_Some (find_item (PurchaseOrderItem.id item) l))
  then (fun i => if bool_decide (PurchaseOrderItem.id i = PurchaseOrderItem.id item)
                 then item else i) <$> l
  else l ++ [item].

(** [poItemRepository.remove(item)] *)
Definition remove_item (item : PurchaseOrderItem.t) (l : list PurchaseOrderItem.t)
    : list PurchaseOrderItem.t :=
  List.filter
    (fun i => negb (bool_decide (PurchaseOrderItem.id i = PurchaseOrderItem.id item))) l.

Definition poItemRepository_write (poId : string)
    (f : list PurchaseOrderItem.t -> list PurchaseOrderItem.t) : M unit :=
  repository_write (fun d =>
    mkDb (vendors d)
         (alter (fun po => PurchaseOrder.set_items (f (PurchaseOrder.items po)) po)
                poId (purchase_orders d))
         (payments d)).

(** One turn of [for (const item of purchaseOrder.items)] in
    [recalculateTotals]; on the number a row holds, [item.taxRate || 0] is
    that number. *)
Definition recalculate_step (st : Totals) (item : PurchaseOrderItem.t) : Totals :=
  let itemSubtotal :=
    inject_Z (PurchaseOrderItem.quantity item) * PurchaseOrderItem.unitPrice item in
  let itemDiscount := itemSubtotal * (PurchaseOrderItem.discountPercent item / 100) in
  let afterDiscount := itemSubtotal - itemDiscount in
  let itemTax := afterDiscount * (PurchaseOrderItem.taxRate item / 100) in
  mkTotals (subtotal st + itemSubtotal)
           (totalTax st + itemTax)
           (totalDiscount st + itemDiscount).

Definition recalculate_loop (l : list PurchaseOrderItem.t) : Totals :=
  foldl recalculate_step (mkTotals 0 0 0) l.

Definition recalculateTotals (poId : string) : M unit :=
  purchaseOrder ← findOne poId;
  let sums := recalculate_loop (PurchaseOrder.items purchaseOrder) in
  let totalAmount := subtotal sums - totalDiscount sums + totalTax sums in
  let outstandingAmount := totalAmount - PurchaseOrder.paidAmount purchaseOrder in
  repository_write (fun d =>
    mkDb (vendors d)
         (alter (PurchaseOrder.set_totals
                   (toFixed2 (subtotal sums))
                   (toFixed2 (totalTax sums))
                   (toFixed2 (totalDiscount sums))
                   (toFixed2 totalAmount)
                   (toFixed2 outstandingAmount))
                poId (purchase_orders d))
         (payments d)).

Definition addItem (poId : string) (itemDto : CreatePurchaseOrderItemDto.t)
    : M PurchaseOrder.t :=
  purchaseOrder ← findOne poId;
  if negb (editable (PurchaseOrder.status purchaseOrder))
  then throw (BadRequestException InvalidStateForMutation)
  else
    let itemTotal := calculateItemTotal itemDto in
    let item := itemEntity (uuid env 0) itemDto itemTotal in
    poItemRepository_write poId (save_item item);;
    recalculateTotals poId;;
    findOne poId.

(** [Object.assign(item, updateDto)], then the recomputed [totalPrice]. *)
Definition assign_item (item : PurchaseOrderItem.t)
    (updateDto : UpdatePurchaseOrderItemDto.t) : PurchaseOrderItem.t :=
  let description :=
    default (PurchaseOrderItem.description item)
            (UpdatePurchaseOrderItemDto.description updateDto) in
  let quantity :=
    default (inject_Z (PurchaseOrderItem.quantity item))
            (UpdatePurchaseOrderItemDto.quantity updateDto) in
  let unitPrice :=
    default (PurchaseOrderItem.unitPrice item)
            (UpdatePurchaseOrderItemDto.unitPrice updateDto) in
  let taxRate :=
    default (PurchaseOrderItem.taxRate item)
            (UpdatePurchaseOrderItemDto.taxRate updateDto) in
  let discountPercent :=
    default (PurchaseOrderItem.discountPercent item)
            (UpdatePurchaseOrderItemDto.discountPercent updateDto) in
  PurchaseOrderItem.mk (PurchaseOrderItem.id item) description
    (intColumn quantity) unitPrice
    (calculateItemTotal
       (CreatePurchaseOrderItemDto.mk description quantity unitPrice
          (Some taxRate) (Some discountPercent)))
    taxRate discountPercent.

Definition updateItem (poId itemId : string)
    (updateDto : UpdatePurchaseOrderItemDto.t) : M PurchaseOrder.t :=
  purchaseOrder ← findOne poId;
  if negb (editable (PurchaseOrder.status purchaseOrder))
  then throw (BadRequestException InvalidStateForMutation)
  else
    match find_item itemId (PurchaseOrder.items purchaseOrder) with
    | None => throw (NotFoundException AnItem)
    | Some item =>
        poItemRepository_write poId (save_item (assign_item item updateDto));;
        recalculateTotals poId;;
        findOne poId
    end.

Definition removeItem (poId itemId : string) : M PurchaseOrder.t :=
  purchaseOrder ← findOne poId;
  if negb (editable (PurchaseOrder.status purchaseOrder))
  then throw (BadRequestException InvalidStateForMutation)
  else if (length (PurchaseOrder.items purchaseOrder) <=? 1)%nat
  then throw (BadRequestException LastItemRemovalForbidden)
  else
    match find_item itemId (PurchaseOrder.items purchaseOrder) with
    | None => throw (NotFoundException AnItem)
    | Some item =>
        poItemRepository_write poId (remove_item item);;
        recalculateTotals poId;;
        findOne poId
    end.

(** The [WHERE] clause of [markOverduePurchaseOrders]. *)
Definition overdue_candidate (today : Date) (po : PurchaseOrder.t) : bool :=
  (PurchaseOrder.dueDate po <? today)%Z
  && bool_decide (PurchaseOrder.status po ∈ [PENDING; APPROVED; PARTIALLY_PAID])
  && negb (Qle_bool (PurchaseOrder.outstandingAmount po) 0).

Definition mark_overdue (today : Date) (po : PurchaseOrder.t) : PurchaseOrder.t :=
  if overdue_candidate today po then PurchaseOrder.set_status OVERDUE po else po.

(** The bulk [UPDATE]; every row it matches changes, so [result.affected]
    is the number of rows matched. *)
Definition markOverduePurchaseOrders : M nat :=
  let today := now env in
  affected ← read (fun d =>
    size (filter (fun kv => overdue_candidate today kv.2 = true) (purchase_orders d)));
  repository_write (fun d =>
    mkDb (vendors d) (mark_overdue today <$> purchase_orders d) (payments d));;
  mret affected.

Definition updatePaymentAmounts (poId : string) (additionalPayment : Q)
    : M PurchaseOrder.t :=
  purchaseOrder ← findOne poId;
  newPaidAmount ←
    hydrated_plus_toFixed2 env (PurchaseOrder.paidAmount purchaseOrder)
      additionalPayment;
  let newOutstanding :=
    toFixed2 (PurchaseOrder.totalAmount purchaseOrder - newPaidAmount) in
  if Qlt_le_dec (PurchaseOrder.totalAmount purchaseOrder) newPaidAmount
  then throw (BadRequestException PaymentExceedsTotal)
  else
    let newStatus :=
      if Qlt_le_dec 0 newOutstanding
      then (if Qlt_le_dec 0 newPaidAmount then PARTIALLY_PAID
            else PurchaseOrder.status purchaseOrder)
      else PAID in
    let purchaseOrder :=
      PurchaseOrder.set_payment newPaidAmount (max0 newOutstanding) newStatus
        purchaseOrder in
    poRepository_save purchaseOrder;;
    mret purchaseOrder.

Definition reversePaymentAmount (poId : string) (amount : Q)
    : M PurchaseOrder.t :=
  purchaseOrder ← findOne poId;
  let newPaidAmount :=
    toFixed2 (PurchaseOrder.paidAmount purchaseOrder - amount) in
  let newOutstanding :=
    toFixed2 (PurchaseOrder.totalAmount purchaseOrder - newPaidAmount) in
  let newStatus :=
    if Qlt_le_dec 0 newPaidAmount then PARTIALLY_PAID
    else if after_hydrated_date (now env) (PurchaseOrder.dueDate purchaseOrder)
         then OVERDUE
         else APPROVED in
  let purchaseOrder :=
    PurchaseOrder.set_payment (max0 newPaidAmount) newOutstanding newStatus
      purchaseOrder in
  poRepository_save purchaseOrder;;
  mret purchaseOrder.

End WithEnv.

End PurchaseOrdersService.

(** ** PaymentsService *)

Module PaymentsService.

Import Num.

Section WithEnv.

Variable env : Env.

Local Open Scope Q_scope.

Definition paymentReferences (d : Db) : list string :=
  Payment.paymentReference <$> (map_to_list (payments d)).*2.

Definition generatePaymentReference : M string :=
  column ← read paymentReferences;
  mret (Reference.generate "PAY" (isoDate env) column).

Definition findOne (id : string) : M Payment.t :=
  payment ← read (fun d => payments d !! id);
  match payment with
  | Some payment => mret payment
  | None => throw (NotFoundException APayment)
  end.

(** [payment_reference] is [unique: true]. *)
Definition paymentReference_taken (p : Payment.t) (d : Db) : bool :=
  existsb (fun o =>
             bool_decide (Payment.paymentReference o = Payment.paymentReference p)
             && negb (bool_decide (Payment.id o = Payment.id p)))
          (map_to_list (payments d)).*2.

(** [queryRunner.manager.save(payment)] *)
Definition manager_save (p : Payment.t) : M Payment.t :=
  await env SavingPayment;;
  taken ← read (paymentReference_taken p);
  if taken : bool then throw DuplicateEntry
  else manager_write (SavePayment p);; mret p.

Definition create (createDto : CreatePaymentDto.t) : M Payment.t :=
  purchaseOrder ←
    PurchaseOrdersService.findOne (CreatePaymentDto.purchaseOrderId createDto);
  if decide (PurchaseOrder.status purchaseOrder = CANCELLED)
  then throw (BadRequestException InvalidPoStateForPayment)
  else if decide (PurchaseOrder.status purchaseOrder = PAID)
  then throw (BadRequestException InvalidPoStateForPayment)
  else if decide (PurchaseOrder.status purchaseOrder = PENDING)
  then throw (BadRequestException InvalidPoStateForPayment)
  else if Qlt_le_dec (PurchaseOrder.outstandingAmount purchaseOrder)
                     (CreatePaymentDto.amountPaid createDto)
  then
    hydrated_toFixed env;;
    throw (BadRequestException PaymentExceedsOutstanding)
  else
    startTransaction;;
    savedPayment ← try_catch_finally
      (await env GeneratingReference;;
       paymentReference ← generatePaymentReference;
       let payment :=
         Payment.mk (uuid env 0) paymentReference
           (PurchaseOrder.id purchaseOrder)
           (default (now env) (CreatePaymentDto.paymentDate createDto))
           (CreatePaymentDto.amountPaid createDto)
           (CreatePaymentDto.paymentMethod createDto)
           COMPLETED
           (CreatePaymentDto.notes createDto) None None in
       savedPayment ← manager_save payment;
       await env UpdatingPurchaseOrder;;
       PurchaseOrdersService.updatePaymentAmounts env
         (PurchaseOrder.id purchaseOrder)
         (CreatePaymentDto.amountPaid createDto);;
       await env Committing;;
       commitTransaction;;
       mret savedPayment)
      (fun error =>
         await env RollingBack;; rollbackTransaction;; throw error)
      (await env Releasing);
    await env Reloading;;
    findOne (Payment.id savedPayment).

Definition void (id : string) (voidDto : VoidPaymentDto.t) : M Payment.t :=
  payment ← findOne id;
  if decide (Payment.status payment = VOIDED)
  then throw (BadRequestException PaymentAlreadyVoided)
  else
    startTransaction;;
    try_catch_finally
      (let payment :=
         Payment.set_voided (now env) (VoidPaymentDto.voidReason voidDto) payment in
       manager_save payment;;
       await env UpdatingPurchaseOrder;;
       PurchaseOrdersService.reversePaymentAmount env
         (Payment.purchaseOrderId payment)
         (Payment.amountPaid payment);;
       await env Committing;;
       commitTransaction)
      (fun error =>
         await env RollingBack;; rollbackTransaction;; throw error)
      (await env Releasing);;
    await env Reloading;;
    findOne id.

End WithEnv.

End PaymentsService.

(** ** PurchaseOrdersService.cancel *)

Module Cancel.

Local Open Scope Q_scope.

(** The ways [cancel] does not go through: the [NotFoundException] of
    [findOne], and two [BadRequestException]s with messages of their own,
    "Cannot cancel a fully paid purchase order" and "Cannot cancel PO with
    payments. Void payments first." *)
Inductive Refusal :=
| PoNotFound
| CannotCancelPaid
| CannotCancelWithPayments.

Definition cancel (id : string) (w : World)
    : World * (Refusal + PurchaseOrder.t) :=
  match purchase_orders (db w) !! id with
  | None => (w, inl PoNotFound)
  | Some purchaseOrder =>
      if decide (PurchaseOrder.status purchaseOrder = PAID)
      then (w, inl CannotCancelPaid)
      else if Qlt_le_dec 0 (PurchaseOrder.paidAmount purchaseOrder)
      then (w, inl CannotCancelWithPayments)
      else
        let purchaseOrder := PurchaseOrder.set_status CANCELLED purchaseOrder in
        (mkWorld (apply_write (db w) (SavePurchaseOrder purchaseOrder))
                 (pending w),
         inr purchaseOrder)
  end.

Definition run (id : string) (d : Db) : Db * (Refusal + PurchaseOrder.t) :=
  let r := cancel id (mkWorld d []) in (db r.1, r.2).

End Cancel.

(** ** The vocabulary of the specification *)

Module Spec.

Import Num.

Local Open Scope Q_scope.

(** The statuses in which [PaymentsService.create] lets a payment through. *)
Definition payable (s : PurchaseOrderStatus) : bool :=
  match s with
  | APPROVED | PARTIALLY_PAID | OVERDUE => true
  | PENDING | PAID | CANCELLED => false
  end.

(** The orders the sweep is specified to move to OVERDUE. *)
Definition overdue_eligible (today : Date) (po : PurchaseOrder.t) : Prop :=
  (PurchaseOrder.dueDate po < today)%Z
  /\ 0 < PurchaseOrder.outstandingAmount po
  /\ PurchaseOrder.status po ∈ [PENDING; APPROVED; PARTIALLY_PAID].




Definition itemSubtotal (i : PurchaseOrderItem.t) : Q :=
  inject_Z (PurchaseOrderItem.quantity i) * PurchaseOrderItem.unitPrice i.

Definition itemDiscount (i : PurchaseOrderItem.t) : Q :=
  itemSubtotal i * (PurchaseOrderItem.discountPercent i / 100).

Definition itemTax (i : PurchaseOrderItem.t) : Q :=
  (itemSubtotal i - itemDiscount i) * (PurchaseOrderItem.taxRate i / 100).

Definition sum {A : Type} (f : A -> Q) (l : list A) : Q :=
  foldr (fun x acc => f x + acc) 0 l.

(** The two equations of the ledger invariant, each within [0.01]. *)
Definition ledger_invariant (po : PurchaseOrder.t) : Prop :=
  Qabs (PurchaseOrder.paidAmount po + PurchaseOrder.outstandingAmount po
        - PurchaseOrder.totalAmount po) <= 1 # 100
  /\ Qabs (PurchaseOrder.totalAmount po
           - (PurchaseOrder.subtotal po - PurchaseOrder.discountAmount po
              + PurchaseOrder.taxAmount po)) <= 1 # 100.

(** [stored] is [exact] as a column with two decimals keeps it: a value with
    two decimals, less than a hundredth away.  The code rounds the double it
    has computed, which at or next to half a cent can fall on either side of
    the exact value; [rounded] holds of both. *)
Definition rounded (exact stored : Q) : Prop :=
  two_decimals stored /\ Qabs (stored - exact) < 1 # 100.




(** What the embedding of an item mutation computes, with the exact
    roundings of [toFixed2]; a step of the proofs.  The properties are stated
    with [recalculated], which bounds the stored amounts. *)
Definition recomputed (d : Db) (poId : string) (po : PurchaseOrder.t)
    (l' : list PurchaseOrderItem.t) (r : Db * (Exception + PurchaseOrder.t))
    : Prop :=
  exists po',
    r = (mkDb (vendors d) (<[poId := po']> (purchase_orders d)) (payments d),
         inr po') /\
    PurchaseOrder.items po' = l' /\
    PurchaseOrder.subtotal po' == toFixed2 (sum itemSubtotal l') /\
    PurchaseOrder.taxAmount po' == toFixed2 (sum itemTax l') /\
    PurchaseOrder.discountAmount po' == toFixed2 (sum itemDiscount l') /\
    PurchaseOrder.totalAmount po'
      == toFixed2 (sum itemSubtotal l' - sum itemDiscount l' + sum itemTax l') /\
    PurchaseOrder.outstandingAmount po'
      == toFixed2 (sum itemSubtotal l' - sum itemDiscount l' + sum itemTax l'
                   - PurchaseOrder.paidAmount po) /\
    PurchaseOrder.paidAmount po' = PurchaseOrder.paidAmount po /\
    PurchaseOrder.status po' = PurchaseOrder.status po.

End Spec.

(** ** The ledger as a whole *)

Module Ledger.

Import Num Spec.

Local Open Scope Q_scope.

(** Every row is stored under its primary key. *)
Definition keyed_by_id (d : Db) : Prop :=
  (forall k po, purchase_orders d !! k = Some po -> PurchaseOrder.id po = k)
  /\ (forall k p, payments d !! k = Some p -> Payment.id p = k).

(** What a payment row contributes to the order [poId]: its amount when it
    belongs to the order and is COMPLETED. *)
Definition completed_amount (poId : string) (p : Payment.t) : Q :=
  if bool_decide (Payment.purchaseOrderId p = poId)
     && bool_decide (Payment.status p = COMPLETED)
  then Payment.amountPaid p else 0.

Definition completed_total (d : Db) (poId : string) : Q :=
  sum (completed_amount poId) (map_to_list (payments d)).*2.

(** Each order records as paid the total of its COMPLETED payments. *)
Definition consistent (d : Db) : Prop :=
  forall k po,
    purchase_orders d !! k = Some po ->
    PurchaseOrder.paidAmount po == completed_total d k.

(** Amounts as the request validation lets them through: positive, with two
    decimals. *)
Definition valid_amounts (d : Db) : Prop :=
  forall k p,
    payments d !! k = Some p ->
    0 <= Payment.amountPaid p /\ two_decimals (Payment.amountPaid p).

(** No two rows share a PO number, no two a payment reference. *)
Definition unique_poNumbers (d : Db) : Prop :=
  forall k1 k2 o1 o2,
    purchase_orders d !! k1 = Some o1 ->
    purchase_orders d !! k2 = Some o2 ->
    PurchaseOrder.poNumber o1 = PurchaseOrder.poNumber o2 ->
    k1 = k2.

Definition unique_paymentReferences (d : Db) : Prop :=
  forall k1 k2 p1 p2,
    payments d !! k1 = Some p1 ->
    payments d !! k2 = Some p2 ->
    Payment.paymentReference p1 = Payment.paymentReference p2 ->
    k1 = k2.

(** An item with values a purchase makes sense for: nothing negative, and a
    discount of at most 100%. *)
Definition plausible_item (i : PurchaseOrderItem.t) : Prop :=
  (0 <= PurchaseOrderItem.quantity i)%Z
  /\ 0 <= PurchaseOrderItem.unitPrice i
  /\ 0 <= PurchaseOrderItem.discountPercent i
  /\ PurchaseOrderItem.discountPercent i <= 100
  /\ 0 <= PurchaseOrderItem.taxRate i.

(** The ids of the item rows of an order. *)
Definition item_ids (l : list PurchaseOrderItem.t) : list string :=
  PurchaseOrderItem.id <$> l.

(** The [totalPrice] of an item row is the price of its own fields:
    quantity times unit price, less the discount, plus the tax, as a column
    with two decimals keeps it. *)
Definition item_priced (i : PurchaseOrderItem.t) : Prop :=
  rounded (itemSubtotal i - itemDiscount i + itemTax i)
          (PurchaseOrderItem.totalPrice i).

(** A whole number, which an [int] column keeps as it is.  The request
    validation asks of a quantity that it is a number and at least 1. *)
Definition whole (q : Q) : Prop := exists n : Z, q == inject_Z n.

End Ledger.

(** ** Concrete ledgers, after the scenarios of the specification *)

Module Scenario.

Local Open Scope Q_scope.

(** Midnight UTC of the day with that number; day 20454 is 2026-01-01. *)
Definition day (n : Z) : Date := (n * msPerDay)%Z.

Definition uuids (tag : string) : nat -> string :=
  fun k => tag +:+ "-" +:+ Reference.toString (Some (N.of_nat k)).

Definition no_fault : Fault -> bool := fun _ => false.

(** A process that runs in UTC. *)
Definition Etc_UTC : TimeZone := mkTimeZone (fun t => t) (fun t => t).

Definition commit_fails : Fault -> bool :=
  fun f => match f with Committing => true | _ => false end.

(** 2026-01-01: an order is created, approved and paid. *)
Definition env_po : Env :=
  mkEnv no_fault (day 20454) "20260101" (uuids "po") AsNumber Etc_UTC.
Definition env_pay : Env :=
  mkEnv no_fault (day 20454) "20260101" (uuids "pay") AsNumber Etc_UTC.
Definition env_item : Env :=
  mkEnv no_fault (day 20454) "20260101" (uuids "item") AsNumber Etc_UTC.
(** The same day, with a database that rejects the commit. *)
Definition env_commit_fails : Env :=
  mkEnv commit_fails (day 20454) "20260101" (uuids "pay") AsNumber Etc_UTC.
(** 2026-02-15, after the due date 2026-01-31. *)
Definition env_late : Env :=
  mkEnv no_fault (day 20499) "20260215" (uuids "late") AsNumber Etc_UTC.

Definition vendor1 : Vendor.t := Vendor.mk "v1" ACTIVE NET_30.
Definition vendor_advance : Vendor.t := Vendor.mk "v2" ACTIVE ADVANCE.

Definition db_empty : Db :=
  mkDb {[ "v1" := vendor1; "v2" := vendor_advance ]} ∅ ∅.

(** Scenario 1: ten units at 1000 with 18% tax. *)
Definition item10000 : CreatePurchaseOrderItemDto.t :=
  CreatePurchaseOrderItemDto.mk "Test Item" 10 1000 (Some 18) None.

Definition createDto1 : CreatePurchaseOrderDto.t :=
  CreatePurchaseOrderDto.mk "v1" (Some (day 20454)) [item10000]
    None None None None None None.


Definition item1 : PurchaseOrderItem.t :=
  PurchaseOrderItem.mk "po-1" "Test Item" 10 1000 11800 18 0.

Definition po_pending : PurchaseOrder.t :=
  PurchaseOrder.mk "po-0" "PO-20260101-001" "v1" (day 20454) (day 20484)
    11800 0 11800 10000 PENDING None None None None 1800 0 [item1].

Definition po_approved : PurchaseOrder.t :=
  PurchaseOrder.set_status APPROVED po_pending.

Definition db_pending : Db :=
  mkDb {[ "v1" := vendor1 ]} {[ "po-0" := po_pending ]} ∅.

Definition db_approved : Db :=
  mkDb {[ "v1" := vendor1 ]} {[ "po-0" := po_approved ]} ∅.

Definition approve : UpdatePurchaseOrderDto.t :=
  UpdatePurchaseOrderDto.mk None None None None None None None (Some APPROVED) None.

(** [PATCH /purchase-orders/po-0] with [{ "taxAmount": 50 }]. *)
Definition updateDto_tax50 : UpdatePurchaseOrderDto.t :=
  UpdatePurchaseOrderDto.mk None None None None None (Some 50) None None None.

(** Scenario 2: a payment of 5000. *)
Definition pay5000 : CreatePaymentDto.t :=
  CreatePaymentDto.mk "po-0" 5000 None BANK_TRANSFER None.

Definition pay20000 : CreatePaymentDto.t :=
  CreatePaymentDto.mk "po-0" 20000 None BANK_TRANSFER None.

Definition pay1 : CreatePaymentDto.t :=
  CreatePaymentDto.mk "po-0" 1 None BANK_TRANSFER None.

Definition payment5000 : Payment.t :=
  Payment.mk "pay-0" "PAY-20260101-001" "po-0" (day 20454) 5000 BANK_TRANSFER
    COMPLETED None None None.

Definition po_partially_paid : PurchaseOrder.t :=
  PurchaseOrder.set_payment 5000 6800 PARTIALLY_PAID po_approved.

Definition db_partially_paid : Db :=
  mkDb {[ "v1" := vendor1 ]} {[ "po-0" := po_partially_paid ]}
       {[ "pay-0" := payment5000 ]}.

Definition duplicate : VoidPaymentDto.t := VoidPaymentDto.mk "Duplicate payment".

(** Scenario 3: the rest, 6800, paid as a second payment. *)
Definition env_pay2 : Env :=
  mkEnv no_fault (day 20454) "20260101" (uuids "pay2") AsNumber Etc_UTC.

Definition pay6800 : CreatePaymentDto.t :=
  CreatePaymentDto.mk "po-0" 6800 None BANK_TRANSFER None.

Definition db_fully_paid : Db :=
  (run (PaymentsService.create env_pay2 pay6800) db_partially_paid).1.

(** A fully paid order on its own. *)
Definition po_paid : PurchaseOrder.t :=
  PurchaseOrder.set_payment 11800 0 PAID po_approved.

Definition db_paid : Db :=
  mkDb {[ "v1" := vendor1 ]} {[ "po-0" := po_paid ]} ∅.

(** Three orders for the sweep of 2026-02-15: one due 2026-01-31 with money
    outstanding, one due 2026-03-01, one due 2026-01-31 and paid. *)
Definition po_not_due : PurchaseOrder.t :=
  PurchaseOrder.mk "po-2" "PO-20260101-002" "v1" (day 20454) (day 20513)
    500 0 500 500 APPROVED None None None None 0 0 [].

Definition db_sweep : Db :=
  mkDb {[ "v1" := vendor1 ]}
       {[ "po-0" := po_partially_paid;
          "po-2" := po_not_due;
          "po-3" := PurchaseOrder.mk "po-3" "PO-20260101-003" "v1" (day 20454)
                      (day 20484) 11800 11800 0 10000 PAID None None None None
                      1800 0 [item1] ]}
       {[ "pay-0" := payment5000 ]}.

(** An order with two items, 100 and 30, and 50 already paid. *)
Definition item100 : PurchaseOrderItem.t :=
  PurchaseOrderItem.mk "item-100" "Desk" 1 100 100 0 0.
Definition item30 : PurchaseOrderItem.t :=
  PurchaseOrderItem.mk "item-30" "Lamp" 1 30 30 0 0.

Definition po_two_items : PurchaseOrder.t :=
  PurchaseOrder.mk "po-b" "PO-20260101-009" "v1" (day 20454) (day 20484)
    130 50 80 130 APPROVED None None None None 0 0 [item100; item30].

Definition db_two_items : Db :=
  mkDb {[ "v1" := vendor1 ]} {[ "po-b" := po_two_items ]} ∅.


Definition item_plain : CreatePurchaseOrderItemDto.t :=
  CreatePurchaseOrderItemDto.mk "Chair" 2 250 None None.

(** The last order of a day on which 999 have been numbered, and the next. *)
Definition po_999 : PurchaseOrder.t :=
  PurchaseOrder.mk "po-999" "PO-20260101-999" "v1" (day 20454) (day 20484)
    11800 0 11800 10000 PENDING None None None None 1800 0 [item1].

Definition po_1000 : PurchaseOrder.t :=
  PurchaseOrder.mk "po-1000" "PO-20260101-1000" "v1" (day 20454) (day 20484)
    11800 0 11800 10000 PENDING None None None None 1800 0 [item1].

Definition db_999 : Db :=
  mkDb {[ "v1" := vendor1 ]} {[ "po-999" := po_999 ]} ∅.

Definition db_1000 : Db :=
  mkDb {[ "v1" := vendor1 ]} {[ "po-999" := po_999; "po-1000" := po_1000 ]} ∅.


(** The same day, with a database that rejects the update of the order. *)
Definition update_fails : Fault -> bool :=
  fun f => match f with UpdatingPurchaseOrder => true | _ => false end.

Definition env_update_fails : Env :=
  mkEnv update_fails (day 20454) "20260101" (uuids "pay") AsNumber Etc_UTC.

(** The second payment of scenario 3 as it is stored. *)
Definition payment6800 : Payment.t :=
  Payment.mk "pay2-0" "PAY-20260101-002" "po-0" (day 20454) 6800 BANK_TRANSFER
    COMPLETED None None None.

(** The row [addItem] stores for two chairs at 250. *)
Definition item_chairs : PurchaseOrderItem.t :=
  PurchaseOrdersService.itemEntity "item-0" item_plain
    (PurchaseOrdersService.calculateItemTotal item_plain).

Definition cancel_request : UpdatePurchaseOrderDto.t :=
  UpdatePurchaseOrderDto.mk None None None None None None None (Some CANCELLED) None.

(** 2026-01-01 and 2026-02-15 again, with the driver the application
    configures: decimal columns arrive as strings. *)
Definition env_mysql : Env :=
  mkEnv no_fault (day 20454) "20260101" (uuids "pay") AsString Etc_UTC.
Definition env_late_mysql : Env :=
  mkEnv no_fault (day 20499) "20260215" (uuids "late") AsString Etc_UTC.





(** [PATCH .../items/po-1] with [{ "quantity": 3 }]. *)
Definition update_quantity3 : UpdatePurchaseOrderItemDto.t :=
  UpdatePurchaseOrderItemDto.mk None (Some 3) None None None.

End Scenario.

(** * Properties *)

(** ** Rounding *)

Module NumFacts.

Import Num.

Local Open Scope Q_scope.

Lemma toFixed2_two_decimals (x : Q) : two_decimals (toFixed2 x).
Proof.
  unfold toFixed2, two_decimals.
  destruct (Qlt_le_dec x 0).
  - exists (- Qfloor (100 * - x + (1 # 2)))%Z.
    rewrite inject_Z_opp. field.
  - eexists. reflexivity.
Qed.

Lemma Qfloor_shift_half (n : Z) : Qfloor (inject_Z n + (1 # 2)) = n.
Proof.
  assert (Hle := Qfloor_le (inject_Z n + (1 # 2))).
  assert (Hlt := Qlt_floor (inject_Z n + (1 # 2))).
  set (m := Qfloor (inject_Z n + (1 # 2))) in *.
  assert (H1 : inject_Z m < inject_Z (n + 1)).
  { rewrite inject_Z_plus. change (inject_Z 1) with 1. lra. }
  assert (H2 : inject_Z n < inject_Z (m + 1)) by lra.
  rewrite <- Zlt_Qlt in H1, H2. lia.
Qed.

Lemma toFixed2_id (x : Q) : two_decimals x -> toFixed2 x == x.
Proof.
  intros [n Hn]. unfold toFixed2.
  destruct (Qlt_le_dec x 0).
  - assert (E : 100 * - x + (1 # 2) == inject_Z (- n) + (1 # 2)).
    { rewrite inject_Z_opp, Hn. field. }
    rewrite (Qfloor_comp _ _ E), Qfloor_shift_half, inject_Z_opp, Hn. field.
  - assert (E : 100 * x + (1 # 2) == inject_Z n + (1 # 2)).
    { rewrite Hn. field. }
    rewrite (Qfloor_comp _ _ E), Qfloor_shift_half, Hn. reflexivity.
Qed.

Lemma toFixed2_error (x : Q) :
  toFixed2 x - x <= 1 # 200 /\ - (1 # 200) <= toFixed2 x - x.
Proof.
  unfold toFixed2.
  destruct (Qlt_le_dec x 0).
  - assert (Hle := Qfloor_le (100 * - x + (1 # 2))).
    assert (Hlt := Qlt_floor (100 * - x + (1 # 2))).
    rewrite inject_Z_plus in Hlt. change (inject_Z 1) with 1 in Hlt.
    set (m := inject_Z (Qfloor (100 * - x + (1 # 2)))) in *.
    split; qlra.
  - assert (Hle := Qfloor_le (100 * x + (1 # 2))).
    assert (Hlt := Qlt_floor (100 * x + (1 # 2))).
    rewrite inject_Z_plus in Hlt. change (inject_Z 1) with 1 in Hlt.
    set (m := inject_Z (Qfloor (100 * x + (1 # 2)))) in *.
    split; qlra.
Qed.

#[export] Instance toFixed2_Proper : Proper (Qeq ==> Qeq) toFixed2.
Proof.
  intros x y E. unfold toFixed2.
  destruct (Qlt_le_dec x 0), (Qlt_le_dec y 0); try lra.
  - assert (E' : 100 * - x + (1 # 2) == 100 * - y + (1 # 2)) by lra.
    rewrite (Qfloor_comp _ _ E'). reflexivity.
  - assert (E' : 100 * x + (1 # 2) == 100 * y + (1 # 2)) by lra.
    rewrite (Qfloor_comp _ _ E'). reflexivity.
Qed.

Lemma toFixed2_sign_nonneg (x : Q) : 0 <= x -> 0 <= toFixed2 x.
Proof.
  intros Hx. unfold toFixed2.
  destruct (Qlt_le_dec x 0); [lra |].
  assert (H0 : (0 <= Qfloor (100 * x + (1 # 2)))%Z).
  { change 0%Z with (Qfloor (inject_Z 0)) at 1. rewrite Qfloor_Z.
    rewrite <- (Qfloor_Z 0). apply Qfloor_resp_le. change (inject_Z 0) with 0. lra. }
  rewrite Zle_Qle in H0. change (inject_Z 0) with 0 in H0.
  set (m := inject_Z (Qfloor (100 * x + (1 # 2)))) in *.
  qlra.
Qed.

#[export] Instance two_decimals_Proper : Proper (Qeq ==> iff) two_decimals.
Proof.
  intros x y E. unfold two_decimals. split; intros [n Hn]; exists n; lra.
Qed.

Lemma two_decimals_inject_Z (n : Z) : two_decimals (inject_Z n).
Proof.
  exists (100 * n)%Z. rewrite inject_Z_mult. change (inject_Z 100) with 100. field.
Qed.

Lemma two_decimals_0 : two_decimals 0.
Proof. exact (two_decimals_inject_Z 0). Qed.

Lemma two_decimals_plus (x y : Q) :
  two_decimals x -> two_decimals y -> two_decimals (x + y).
Proof.
  intros [n Hn] [m Hm]. exists (n + m)%Z.
  rewrite inject_Z_plus, Hn, Hm. field.
Qed.

Lemma two_decimals_opp (x : Q) : two_decimals x -> two_decimals (- x).
Proof.
  intros [n Hn]. exists (- n)%Z. rewrite inject_Z_opp, Hn. field.
Qed.

Lemma two_decimals_minus (x y : Q) :
  two_decimals x -> two_decimals y -> two_decimals (x - y).
Proof.
  intros Hx Hy. unfold Qminus. apply two_decimals_plus; [| apply two_decimals_opp]; assumption.
Qed.

Lemma two_decimals_scale (k : Z) (x : Q) :
  two_decimals x -> two_decimals (inject_Z k * x).
Proof.
  intros [n Hn]. exists (k * n)%Z. rewrite inject_Z_mult, Hn. field.
Qed.

Lemma max0_nonneg (x : Q) : 0 <= max0 x.
Proof. unfold max0. destruct (Qlt_le_dec 0 x); lra. Qed.

Lemma max0_of_nonneg (x : Q) : 0 <= x -> max0 x == x.
Proof. unfold max0. destruct (Qlt_le_dec 0 x); lra. Qed.

Lemma max0_le_0 (x : Q) : max0 x <= 0 -> x <= 0.
Proof. unfold max0. destruct (Qlt_le_dec 0 x); lra. Qed.

Lemma max0_pos (x : Q) : 0 < max0 x -> 0 < x.
Proof. unfold max0. destruct (Qlt_le_dec 0 x); lra. Qed.

#[export] Instance max0_Proper : Proper (Qeq ==> Qeq) max0.
Proof.
  intros x y E. unfold max0.
  destruct (Qlt_le_dec 0 x), (Qlt_le_dec 0 y); lra.
Qed.

End NumFacts.

(** ** Reference numbers *)

(** Neither generator can fail: whatever the day holds, a string comes
    back. *)
Lemma generatePoNumber_returns (env : Env) (w : World) :
  PurchaseOrdersService.generatePoNumber env w
  = (w, inr (Reference.generate "PO" (isoDate env)
               (PurchaseOrdersService.poNumbers (db w)))).
Proof. reflexivity. Qed.

Lemma generatePaymentReference_returns (env : Env) (w : World) :
  PaymentsService.generatePaymentReference env w
  = (w, inr (Reference.generate "PAY" (isoDate env)
               (PaymentsService.paymentReferences (db w)))).
Proof. reflexivity. Qed.

Example generate_first :
  Reference.generate "PO" "20260114" [] = "PO-20260114-001".
Proof. reflexivity. Qed.

Example generate_next :
  Reference.generate "PO" "20260114"
    ["PO-20260114-001"; "PO-20260113-007"; "PO-20260114-002"]
  = "PO-20260114-003".
Proof. vm_compute. reflexivity. Qed.

(** ** The monad *)

Lemma bind_inr {A B : Type} (m : M A) (f : A -> M B) (w w' : World) (a : A) :
  m w = (w', inr a) -> (m ≫= f) w = f a w'.
Proof. intros H. unfold mbind, M_bind. rewrite H. reflexivity. Qed.

Lemma bind_inl {A B : Type} (m : M A) (f : A -> M B) (w w' : World)
    (e : Exception) :
  m w = (w', inl e) -> (m ≫= f) w = (w', inl e).
Proof. intros H. unfold mbind, M_bind. rewrite H. reflexivity. Qed.

Lemma run_eq {A : Type} (m : M A) (d d' : Db) (pend : list Write)
    (r : Exception + A) :
  m (mkWorld d []) = (mkWorld d' pend, r) -> run m d = (d', r).
Proof. intros H. unfold run. rewrite H. reflexivity. Qed.

Lemma po_findOne_Some (id : string) (po : PurchaseOrder.t) (w : World) :
  purchase_orders (db w) !! id = Some po ->
  PurchaseOrdersService.findOne id w = (w, inr po).
Proof.
  intros H. unfold PurchaseOrdersService.findOne, read, mbind, M_bind.
  rewrite H. reflexivity.
Qed.

Lemma po_findOne_None (id : string) (w : World) :
  purchase_orders (db w) !! id = None ->
  PurchaseOrdersService.findOne id w = (w, inl (NotFoundException APurchaseOrder)).
Proof.
  intros H. unfold PurchaseOrdersService.findOne, read, mbind, M_bind.
  rewrite H. reflexivity.
Qed.

Lemma payment_findOne_Some (id : string) (p : Payment.t) (w : World) :
  payments (db w) !! id = Some p ->
  PaymentsService.findOne id w = (w, inr p).
Proof.
  intros H. unfold PaymentsService.findOne, read, mbind, M_bind.
  rewrite H. reflexivity.
Qed.

(** ** Recording a payment *)

Module PaymentFacts.

Import Num NumFacts Spec.

Local Open Scope Q_scope.

Ltac run_monad :=
  repeat (unfold try_catch_finally, try_catch, startTransaction, mbind, M_bind,
            await, hydrated_toFixed, hydrated_plus_toFixed2, read, mret,
            M_ret, throw, rollbackTransaction, manager_write, commitTransaction,
            repository_write, PaymentsService.manager_save,
            PaymentsService.generatePaymentReference,
            PurchaseOrdersService.poRepository_save;
          simpl).

(** One case split on what the environment decides: a call the database
    rejects or not, a reference that is taken or not, decimals as strings or
    as numbers. *)
Ltac split_env :=
  match goal with
  | |- context [Qlt_le_dec (PurchaseOrder.totalAmount ?po) ?x] =>
      destruct (Qlt_le_dec (PurchaseOrder.totalAmount po) x)
  | |- context [faults ?e ?f] => destruct (faults e f) eqn:?
  | |- context [PaymentsService.paymentReference_taken ?p ?d] =>
      destruct (PaymentsService.paymentReference_taken p d) eqn:?
  | |- context [decimals ?e] => destruct (decimals e) eqn:?
  end.

(** C3 (code defect): the amount guard of [create] builds its message with
    [purchaseOrder.outstandingAmount.toFixed(2)].  With the driver the
    application configures the column arrives as a string, which has no
    [toFixed]: on an APPROVED, PARTIALLY_PAID or OVERDUE order, a payment
    above the outstanding amount fails with a [TypeError], where the unit
    test of the service, whose mock holds numbers, expects the
    [BadRequestException] of the guard.  Nothing is written either way. *)
Theorem over_payment_throws_type_error (env : Env) (d : Db)
    (createDto : CreatePaymentDto.t) (po : PurchaseOrder.t) :
  purchase_orders d !! CreatePaymentDto.purchaseOrderId createDto = Some po ->
  payable (PurchaseOrder.status po) = true ->
  PurchaseOrder.outstandingAmount po < CreatePaymentDto.amountPaid createDto ->
  run (PaymentsService.create env createDto) d
  = (d, inl (match decimals env with
             | AsString => TypeError
             | AsNumber => BadRequestException PaymentExceedsOutstanding
             end)).
Proof.
  intros Hpo Hpay Hgt. unfold run, PaymentsService.create.
  rewrite (bind_inr _ _ _ _ _ (po_findOne_Some _ _ (mkWorld d []) Hpo)).
  destruct d as [vs pos pays].
  destruct (PurchaseOrder.status po) eqn:Hs; try discriminate; simpl;
    repeat (destruct (decide _) as [?|?]; try congruence);
    (destruct (Qlt_le_dec _ _) as [?|Hle]; [| lra]);
    run_monad; destruct (decimals env); reflexivity.
Qed.

(** What a successful [create] did: every guard passed, and the database
    differs from the old one by the updated order row and the new payment
    row. *)
Lemma create_inr_inv (env : Env) (d d' : Db) (createDto : CreatePaymentDto.t)
    (po : PurchaseOrder.t) (p : Payment.t) :
  purchase_orders d !! CreatePaymentDto.purchaseOrderId createDto = Some po ->
  PurchaseOrder.id po = CreatePaymentDto.purchaseOrderId createDto ->
  run (PaymentsService.create env createDto) d = (d', inr p) ->
  let A := CreatePaymentDto.amountPaid createDto in
  let newPaid := toFixed2 (PurchaseOrder.paidAmount po + A) in
  let newOut := toFixed2 (PurchaseOrder.totalAmount po - newPaid) in
  payable (PurchaseOrder.status po) = true /\
  A <= PurchaseOrder.outstandingAmount po /\
  newPaid <= PurchaseOrder.totalAmount po /\
  Payment.id p = uuid env 0 /\
  Payment.status p = COMPLETED /\
  Payment.amountPaid p = A /\
  Payment.purchaseOrderId p = PurchaseOrder.id po /\
  d' = mkDb (vendors d)
         (<[PurchaseOrder.id po :=
              PurchaseOrder.set_payment newPaid (max0 newOut)
                (if Qlt_le_dec 0 newOut
                 then (if Qlt_le_dec 0 newPaid then PARTIALLY_PAID
                       else PurchaseOrder.status po)
                 else PAID) po]>
            (purchase_orders d))
         (<[uuid env 0 := p]> (payments d)).
Proof.
  intros Hpo Hid. unfold run, PaymentsService.create.
  assert (Hpo' : purchase_orders d !! PurchaseOrder.id po = Some po)
    by (rewrite Hid; exact Hpo).
  rewrite (bind_inr _ _ _ _ _ (po_findOne_Some _ _ (mkWorld d []) Hpo)).
  destruct (decide _) as [?|Hs1]; [intros [=]|].
  destruct (decide _) as [?|Hs2]; [intros [=]|].
  destruct (decide _) as [?|Hs3]; [intros [=]|].
  destruct (Qlt_le_dec _ _) as [?|Hle];
    [run_monad; destruct (decimals env); intros [=] |].
  unfold PurchaseOrdersService.updatePaymentAmounts,
    PurchaseOrdersService.findOne, PaymentsService.findOne.
  run_monad.
  repeat (split_env; run_monad; rewrite ?Hpo'; run_monad);
    rewrite ?lookup_insert_eq; run_monad; try (intros [=]; fail).
  all: intros [= <- <-]; simpl; repeat split; try assumption;
    destruct (PurchaseOrder.status po); simpl; congruence.
Qed.

(** What a successful [void] did: the payment was not yet voided, and the
    database differs from the old one by the voided payment row and the
    order row with the amount taken back. *)
Lemma void_inr_inv (env : Env) (d d' : Db) (id : string)
    (voidDto : VoidPaymentDto.t) (p p' : Payment.t) (po : PurchaseOrder.t) :
  payments d !! id = Some p ->
  Payment.id p = id ->
  purchase_orders d !! Payment.purchaseOrderId p = Some po ->
  PurchaseOrder.id po = Payment.purchaseOrderId p ->
  run (PaymentsService.void env id voidDto) d = (d', inr p') ->
  let newPaid := toFixed2 (PurchaseOrder.paidAmount po - Payment.amountPaid p) in
  let newOut := toFixed2 (PurchaseOrder.totalAmount po - newPaid) in
  Payment.status p = COMPLETED /\
  p' = Payment.set_voided (now env) (VoidPaymentDto.voidReason voidDto) p /\
  d' = mkDb (vendors d)
         (<[Payment.purchaseOrderId p :=
              PurchaseOrder.set_payment (max0 newPaid) newOut
                (if Qlt_le_dec 0 newPaid then PARTIALLY_PAID else APPROVED) po]>
            (purchase_orders d))
         (<[id := p']> (payments d)).
Proof.
  intros Hp Hpid Hpo Hid. unfold run, PaymentsService.void.
  rewrite (bind_inr _ _ _ _ _ (payment_findOne_Some _ _ (mkWorld d []) Hp)).
  destruct (decide _) as [?|Hs]; [intros [=]|].
  unfold PurchaseOrdersService.reversePaymentAmount,
    PurchaseOrdersService.findOne, PaymentsService.findOne.
  run_monad.
  repeat (split_env; run_monad; rewrite ?Hpo; run_monad);
    rewrite ?Hpid, ?lookup_insert_eq; run_monad; try (intros [=]; fail).
  all: intros [= <- <-];
    (split; [destruct (Payment.status p); congruence |]);
    (split; [reflexivity |]);
    rewrite Hid; reflexivity.
Qed.

Lemma paymentReference_free (p : Payment.t) (d : Db) :
  Payment.paymentReference p ∉ PaymentsService.paymentReferences d ->
  PaymentsService.paymentReference_taken p d = false.
Proof.
  intros Hfree. unfold PaymentsService.paymentReference_taken.
  destruct (existsb _ _) eqn:E; [| reflexivity].
  apply existsb_exists in E. destruct E as (o & Hin & Ho).
  apply andb_true_iff in Ho. destruct Ho as [Hn _].
  apply bool_decide_eq_true in Hn.
  exfalso. apply Hfree. rewrite <- Hn.
  unfold PaymentsService.paymentReferences.
  apply list_elem_of_fmap_2, list_elem_of_In, Hin.
Qed.

(** X1: the part of all-or-nothing that does hold.  When [create] fails
    with anything but the error of a rejected commit, of a rejected
    rollback, of the reload after the commit or of the release of the query
    runner, the database is as it was: no payment row and no change to any
    order.  (After a commit that went through, a rejected reload or release
    makes [create] fail with the payment and the order stored; after a
    rejected commit, a rejected rollback makes it fail with the order
    updated and no payment.) *)
Theorem create_failure_before_commit (env : Env) (d d' : Db)
    (createDto : CreatePaymentDto.t) (e : Exception) :
  run (PaymentsService.create env createDto) d = (d', inl e) ->
  e <> QueryFailedError Committing ->
  e <> QueryFailedError RollingBack ->
  e <> QueryFailedError Reloading ->
  e <> QueryFailedError Releasing ->
  d' = d.
Proof.
  unfold run, PaymentsService.create.
  destruct (purchase_orders d !! CreatePaymentDto.purchaseOrderId createDto)
    as [po |] eqn:Hpo.
  2:{ rewrite (bind_inl _ _ _ _ _ (po_findOne_None _ (mkWorld d []) Hpo)).
      intros [= <- _]. reflexivity. }
  rewrite (bind_inr _ _ _ _ _ (po_findOne_Some _ _ (mkWorld d []) Hpo)).
  destruct (decide _) as [?|Hs1]; [intros [= <- _]; reflexivity |].
  destruct (decide _) as [?|Hs2]; [intros [= <- _]; reflexivity |].
  destruct (decide _) as [?|Hs3]; [intros [= <- _]; reflexivity |].
  destruct (Qlt_le_dec _ _) as [?|Hle];
    [run_monad; destruct (decimals env); intros [= <- _]; reflexivity |].
  unfold PurchaseOrdersService.updatePaymentAmounts,
    PurchaseOrdersService.findOne, PaymentsService.findOne.
  run_monad.
  destruct (purchase_orders d !! PurchaseOrder.id po) as [po1 |] eqn:Hpo1;
    repeat (split_env; run_monad; rewrite ?Hpo1; run_monad);
    rewrite ?lookup_insert_eq; run_monad;
    try (intros [=]; fail);
    intros [= <- <-]; intros; first [reflexivity | congruence].
Qed.

(** X4: what [create] comes to when nothing is in its way.  On a payable
    order, with an amount within the outstanding amount and within the
    total, a free reference and no rejected call: where decimal columns
    arrive as numbers, [create] returns the payment, stored under its id;
    where they arrive as strings, as with the driver the application
    configures, it fails with a [TypeError] and the database is as it
    was. *)
Theorem create_succeeds (env : Env) (d : Db)
    (createDto : CreatePaymentDto.t) (po : PurchaseOrder.t) :
  let A := CreatePaymentDto.amountPaid createDto in
  purchase_orders d !! CreatePaymentDto.purchaseOrderId createDto = Some po ->
  PurchaseOrder.id po = CreatePaymentDto.purchaseOrderId createDto ->
  payable (PurchaseOrder.status po) = true ->
  A <= PurchaseOrder.outstandingAmount po ->
  toFixed2 (PurchaseOrder.paidAmount po + A) <= PurchaseOrder.totalAmount po ->
  (forall f, faults env f = false) ->
  Reference.generate "PAY" (isoDate env) (PaymentsService.paymentReferences d)
    ∉ PaymentsService.paymentReferences d ->
  (decimals env = AsNumber ->
   exists d' p,
     run (PaymentsService.create env createDto) d = (d', inr p)
     /\ payments d' !! Payment.id p = Some p)
  /\ (decimals env = AsString ->
      run (PaymentsService.create env createDto) d = (d, inl TypeError)).
Proof.
  intros A Hpo Hid Hpay HA Hle Hf Hfree.
  assert (Hpo' : purchase_orders d !! PurchaseOrder.id po = Some po)
    by (rewrite Hid; exact Hpo).
  split; intros Hdec.
  - eexists _, _. split.
    { apply run_eq with (pend := []). unfold PaymentsService.create.
      rewrite (bind_inr _ _ _ _ _ (po_findOne_Some _ _ (mkWorld d []) Hpo)).
      destruct (decide _) as [Hs|_]; [rewrite Hs in Hpay; discriminate |].
      destruct (decide _) as [Hs|_]; [rewrite Hs in Hpay; discriminate |].
      destruct (decide _) as [Hs|_]; [rewrite Hs in Hpay; discriminate |].
      destruct (Qlt_le_dec _ _) as [Hlt|_]; [subst A; lra |].
      unfold PurchaseOrdersService.updatePaymentAmounts,
        PurchaseOrdersService.findOne, PaymentsService.findOne.
      run_monad. rewrite ?Hf. run_monad.
      rewrite paymentReference_free by exact Hfree. run_monad.
      rewrite ?Hf, ?Hpo', ?Hdec. run_monad.
      destruct (Qlt_le_dec _ _) as [Hlt|_]; [subst A; lra |].
      run_monad. rewrite ?Hf. run_monad.
      rewrite lookup_insert_eq. reflexivity. }
    simpl. apply lookup_insert_eq.
  - apply run_eq with (pend := []). unfold PaymentsService.create.
    rewrite (bind_inr _ _ _ _ _ (po_findOne_Some _ _ (mkWorld d []) Hpo)).
    destruct (decide _) as [Hs|_]; [rewrite Hs in Hpay; discriminate |].
    destruct (decide _) as [Hs|_]; [rewrite Hs in Hpay; discriminate |].
    destruct (decide _) as [Hs|_]; [rewrite Hs in Hpay; discriminate |].
    destruct (Qlt_le_dec _ _) as [Hlt|_]; [subst A; lra |].
    unfold PurchaseOrdersService.updatePaymentAmounts,
      PurchaseOrdersService.findOne, PaymentsService.findOne.
    run_monad. rewrite ?Hf. run_monad.
    rewrite paymentReference_free by exact Hfree. run_monad.
    rewrite ?Hf, ?Hpo', ?Hdec. run_monad. rewrite ?Hf. reflexivity.
Qed.

End PaymentFacts.

(** ** The overdue sweep *)

Module SweepFacts.

Import Spec.

Local Open Scope Q_scope.

Lemma overdue_candidate_iff (today : Date) (po : PurchaseOrder.t) :
  PurchaseOrdersService.overdue_candidate today po = true
  <-> overdue_eligible today po.
Proof.
  unfold PurchaseOrdersService.overdue_candidate, overdue_eligible.
  rewrite !andb_true_iff, Z.ltb_lt, bool_decide_eq_true, negb_true_iff.
  split.
  - intros [[H1 H2] H3]. repeat split; try assumption.
    apply Qnot_le_lt. intros Hle. apply Qle_bool_iff in Hle. congruence.
  - intros (H1 & H2 & H3). repeat split; try assumption.
    destruct (Qle_bool _ _) eqn:E; [| reflexivity].
    apply Qle_bool_iff in E. lra.
Qed.

Lemma mark_overdue_not_candidate (today : Date) (po : PurchaseOrder.t) :
  PurchaseOrdersService.overdue_candidate today
    (PurchaseOrdersService.mark_overdue today po) = false.
Proof.
  unfold PurchaseOrdersService.mark_overdue.
  destruct (PurchaseOrdersService.overdue_candidate today po) eqn:E; [| exact E].
  unfold PurchaseOrdersService.overdue_candidate. simpl.
  rewrite andb_false_r. reflexivity.
Qed.

Lemma mark_overdue_idempotent (today : Date) (po : PurchaseOrder.t) :
  PurchaseOrdersService.mark_overdue today
    (PurchaseOrdersService.mark_overdue today po)
  = PurchaseOrdersService.mark_overdue today po.
Proof.
  unfold PurchaseOrdersService.mark_overdue at 1.
  rewrite mark_overdue_not_candidate. reflexivity.
Qed.

Lemma markOverdue_run (env : Env) (d : Db) :
  run (PurchaseOrdersService.markOverduePurchaseOrders env) d
  = (mkDb (vendors d)
          (PurchaseOrdersService.mark_overdue (now env) <$> purchase_orders d)
          (payments d),
     inr (size (filter (fun kv : string * PurchaseOrder.t =>
                          PurchaseOrdersService.overdue_candidate (now env) kv.2 = true)
                       (purchase_orders d)))).
Proof. reflexivity. Qed.

(** C9: [markOverduePurchaseOrders] run at time [today] sets to OVERDUE
    exactly the orders with [dueDate < today], [outstandingAmount > 0] and
    status PENDING, APPROVED or PARTIALLY_PAID, leaves every other row and
    every other column as it was, and returns the number of orders it moved;
    run again at the same [today] it changes nothing and returns [0]. *)
Theorem markOverdue_exact_and_idempotent (env : Env) (d : Db) :
  exists (d' : Db) (affected : nat) (moved : gset string),
    run (PurchaseOrdersService.markOverduePurchaseOrders env) d
      = (d', inr affected) /\
    vendors d' = vendors d /\
    payments d' = payments d /\
    (forall id, purchase_orders d !! id = None -> purchase_orders d' !! id = None) /\
    (forall id po,
       purchase_orders d !! id = Some po ->
       overdue_eligible (now env) po ->
       purchase_orders d' !! id = Some (PurchaseOrder.set_status OVERDUE po)) /\
    (forall id po,
       purchase_orders d !! id = Some po ->
       ~ overdue_eligible (now env) po ->
       purchase_orders d' !! id = Some po) /\
    (forall id,
       id ∈ moved <->
       exists po, purchase_orders d !! id = Some po
                  /\ overdue_eligible (now env) po) /\
    affected = size moved /\
    run (PurchaseOrdersService.markOverduePurchaseOrders env) d' = (d', inr 0%nat).
Proof.
  set (P := fun kv : string * PurchaseOrder.t =>
              PurchaseOrdersService.overdue_candidate (now env) kv.2 = true).
  exists (mkDb (vendors d)
            (PurchaseOrdersService.mark_overdue (now env) <$> purchase_orders d)
            (payments d)),
         (size (filter P (purchase_orders d))),
         (dom (filter P (purchase_orders d))).
  split; [apply markOverdue_run |].
  split; [reflexivity |].
  split; [reflexivity |].
  split.
  { intros id Hn. simpl. rewrite lookup_fmap, Hn. reflexivity. }
  split.
  { intros id po Hl He. simpl. rewrite lookup_fmap, Hl. simpl.
    unfold PurchaseOrdersService.mark_overdue.
    apply overdue_candidate_iff in He. rewrite He. reflexivity. }
  split.
  { intros id po Hl He. simpl. rewrite lookup_fmap, Hl. simpl.
    unfold PurchaseOrdersService.mark_overdue.
    destruct (PurchaseOrdersService.overdue_candidate (now env) po) eqn:E;
      [| reflexivity].
    exfalso. apply He, overdue_candidate_iff, E. }
  split.
  { intros id. rewrite elem_of_dom. unfold is_Some.
    setoid_rewrite map_lookup_filter_Some. unfold P. simpl.
    setoid_rewrite overdue_candidate_iff. reflexivity. }
  split; [symmetry; apply size_dom |].
  rewrite markOverdue_run. simpl. f_equal.
  - f_equal. apply map_eq. intros id. rewrite !lookup_fmap.
    destruct (purchase_orders d !! id); simpl; [| reflexivity].
    rewrite mark_overdue_idempotent. reflexivity.
  - f_equal. apply map_size_empty_iff, map_empty. intros id.
    apply map_lookup_filter_None. right. intros po Hl.
    rewrite lookup_fmap in Hl.
    destruct (purchase_orders d !! id); simpl in Hl; [| discriminate].
    injection Hl as <-. simpl. rewrite mark_overdue_not_candidate. discriminate.
Qed.

End SweepFacts.

(** ** Creating a purchase order *)

Module CreateFacts.

Import Num NumFacts Spec.

Local Open Scope Q_scope.

Lemma rounded_toFixed2 (exact stored : Q) :
  stored == toFixed2 exact -> rounded exact stored.
Proof.
  intros H. split.
  - rewrite H. apply toFixed2_two_decimals.
  - rewrite H. apply Qabs_Qlt_condition.
    destruct (toFixed2_error exact). split; lra.
Qed.





End CreateFacts.

(** ** Item mutations *)

Module ItemFacts.

Import Num NumFacts Spec.

Local Open Scope Q_scope.

Lemma recalculate_loop_from (l : list PurchaseOrderItem.t)
    (st : PurchaseOrdersService.Totals) :
  let st' := foldl PurchaseOrdersService.recalculate_step st l in
  PurchaseOrdersService.subtotal st'
    == PurchaseOrdersService.subtotal st + sum itemSubtotal l
  /\ PurchaseOrdersService.totalTax st'
    == PurchaseOrdersService.totalTax st + sum itemTax l
  /\ PurchaseOrdersService.totalDiscount st'
    == PurchaseOrdersService.totalDiscount st + sum itemDiscount l.
Proof.
  revert st. induction l as [| i l IH]; intros st; simpl.
  - repeat split; lra.
  - destruct (IH (PurchaseOrdersService.recalculate_step st i)) as (H1 & H2 & H3).
    rewrite H1, H2, H3. simpl.
    unfold itemTax, itemDiscount, itemSubtotal.
    repeat split; lra.
Qed.

Lemma recalculate_loop_sums (l : list PurchaseOrderItem.t) :
  let sums := PurchaseOrdersService.recalculate_loop l in
  PurchaseOrdersService.subtotal sums == sum itemSubtotal l
  /\ PurchaseOrdersService.totalTax sums == sum itemTax l
  /\ PurchaseOrdersService.totalDiscount sums == sum itemDiscount l.
Proof.
  destruct (recalculate_loop_from l (PurchaseOrdersService.mkTotals 0 0 0))
    as (H1 & H2 & H3).
  unfold PurchaseOrdersService.recalculate_loop. simpl in *.
  repeat split; lra.
Qed.

(** The tail shared by [addItem], [updateItem] and [removeItem]: write the
    items, recalculate, reload.  It cannot fail once the order exists. *)
Lemma mutate_then_recalculate (d : Db) (poId : string) (po : PurchaseOrder.t)
    (f : list PurchaseOrderItem.t -> list PurchaseOrderItem.t) :
  purchase_orders d !! poId = Some po ->
  recomputed d poId po (f (PurchaseOrder.items po))
    (run (PurchaseOrdersService.poItemRepository_write poId f;;
          PurchaseOrdersService.recalculateTotals poId;;
          PurchaseOrdersService.findOne poId) d).
Proof.
  intros Hpo.
  destruct (recalculate_loop_sums (f (PurchaseOrder.items po))) as (Hs & Ht & Hd).
  eexists. split.
  { apply run_eq with (pend := []).
    unfold PurchaseOrdersService.poItemRepository_write, repository_write.
    unfold mbind at 1, M_bind at 1. simpl.
    unfold PurchaseOrdersService.recalculateTotals.
    unfold mbind at 1, M_bind at 1.
    erewrite bind_inr;
      [| apply po_findOne_Some; simpl; rewrite lookup_alter_eq, Hpo; reflexivity].
    unfold repository_write. simpl.
    erewrite po_findOne_Some
      by (simpl; rewrite !lookup_alter_eq, Hpo; reflexivity).
    f_equal. f_equal. f_equal.
    apply map_eq. intros j. destruct (decide (poId = j)) as [<-|Hne].
    - rewrite lookup_insert_eq, !lookup_alter_eq, Hpo. reflexivity.
    - rewrite lookup_insert_ne, !lookup_alter_ne by assumption. reflexivity. }
  simpl. rewrite Hs, Ht, Hd.
  repeat split; reflexivity.
Qed.

Section Guarded.

Variables (env : Env) (d : Db) (poId : string) (po : PurchaseOrder.t).
Hypothesis Hpo : purchase_orders d !! poId = Some po.
Hypothesis Hed : PurchaseOrdersService.editable (PurchaseOrder.status po) = true.

Lemma po_findOne_run :
  PurchaseOrdersService.findOne poId (mkWorld d []) = (mkWorld d [], inr po).
Proof. apply po_findOne_Some. exact Hpo. Qed.

Lemma addItem_recomputed (itemDto : CreatePurchaseOrderItemDto.t) :
  recomputed d poId po
    (PurchaseOrdersService.save_item
       (PurchaseOrdersService.itemEntity (uuid env 0) itemDto
          (PurchaseOrdersService.calculateItemTotal itemDto))
       (PurchaseOrder.items po))
    (run (PurchaseOrdersService.addItem env poId itemDto) d).
Proof.
  pose proof (mutate_then_recalculate d poId po
                (PurchaseOrdersService.save_item
                   (PurchaseOrdersService.itemEntity (uuid env 0) itemDto
                      (PurchaseOrdersService.calculateItemTotal itemDto))) Hpo) as H.
  unfold run in *. unfold PurchaseOrdersService.addItem.
  rewrite (bind_inr _ _ _ _ _ po_findOne_run), Hed. exact H.
Qed.

Lemma updateItem_recomputed (itemId : string)
    (updateDto : UpdatePurchaseOrderItemDto.t) (item : PurchaseOrderItem.t) :
  PurchaseOrdersService.find_item itemId (PurchaseOrder.items po) = Some item ->
  recomputed d poId po
    (PurchaseOrdersService.save_item
       (PurchaseOrdersService.assign_item item updateDto)
       (PurchaseOrder.items po))
    (run (PurchaseOrdersService.updateItem poId itemId updateDto) d).
Proof.
  intros Hitem.
  pose proof (mutate_then_recalculate d poId po
                (PurchaseOrdersService.save_item
                   (PurchaseOrdersService.assign_item item updateDto)) Hpo) as H.
  unfold run in *. unfold PurchaseOrdersService.updateItem.
  rewrite (bind_inr _ _ _ _ _ po_findOne_run), Hed, Hitem. exact H.
Qed.

Lemma removeItem_recomputed (itemId : string) (item : PurchaseOrderItem.t) :
  (1 < length (PurchaseOrder.items po))%nat ->
  PurchaseOrdersService.find_item itemId (PurchaseOrder.items po) = Some item ->
  recomputed d poId po
    (PurchaseOrdersService.remove_item item (PurchaseOrder.items po))
    (run (PurchaseOrdersService.removeItem poId itemId) d).
Proof.
  intros Hlen Hitem.
  pose proof (mutate_then_recalculate d poId po
                (PurchaseOrdersService.remove_item item) Hpo) as H.
  unfold run in *. unfold PurchaseOrdersService.removeItem.
  rewrite (bind_inr _ _ _ _ _ po_findOne_run), Hed, Hitem.
  destruct (Nat.leb_spec (length (PurchaseOrder.items po)) 1); [lia |].
  exact H.
Qed.

End Guarded.





End ItemFacts.

(** ** Where the ledger invariant does hold *)

Module InvariantFacts.

Import Num NumFacts Spec.

Local Open Scope Q_scope.

Lemma ledger_invariant_intro (po : PurchaseOrder.t) :
  - (1 # 100)
    <= PurchaseOrder.paidAmount po + PurchaseOrder.outstandingAmount po
       - PurchaseOrder.totalAmount po <= 1 # 100 ->
  - (1 # 100)
    <= PurchaseOrder.totalAmount po
       - (PurchaseOrder.subtotal po - PurchaseOrder.discountAmount po
          + PurchaseOrder.taxAmount po) <= 1 # 100 ->
  ledger_invariant po.
Proof.
  intros H1 H2. split; apply Qabs_Qle_condition; assumption.
Qed.

Lemma ledger_invariant_elim (po : PurchaseOrder.t) :
  ledger_invariant po ->
  - (1 # 100)
    <= PurchaseOrder.paidAmount po + PurchaseOrder.outstandingAmount po
       - PurchaseOrder.totalAmount po <= 1 # 100
  /\ - (1 # 100)
     <= PurchaseOrder.totalAmount po
        - (PurchaseOrder.subtotal po - PurchaseOrder.discountAmount po
           + PurchaseOrder.taxAmount po) <= 1 # 100.
Proof.
  intros [H1 H2]. split; apply Qabs_Qle_condition; assumption.
Qed.

(** A whole number of hundredths between -0.015 and 0.015 is at most 0.01
    in absolute value. *)
Lemma hundredths_within (n : Z) :
  - (3 # 200) <= inject_Z n / 100 <= 3 # 200 ->
  - (1 # 100) <= inject_Z n / 100 <= 1 # 100.
Proof.
  intros [Hlo Hhi].
  assert (H1 : inject_Z n < inject_Z 2) by (change (inject_Z 2) with 2; qlra).
  assert (H2 : inject_Z (-2) < inject_Z n)
    by (change (inject_Z (-2)) with (- (2)); qlra).
  rewrite <- Zlt_Qlt in H1, H2.
  assert (H3 : (n <= 1)%Z) by lia.
  assert (H4 : (-1 <= n)%Z) by lia.
  rewrite Zle_Qle in H3, H4.
  change (inject_Z 1) with 1 in H3. change (inject_Z (-1)) with (- (1)) in H4.
  split; qlra.
Qed.

Lemma two_decimals_sum_subtotal (l : list PurchaseOrderItem.t) :
  Forall (fun i => two_decimals (PurchaseOrderItem.unitPrice i)) l ->
  two_decimals (sum itemSubtotal l).
Proof.
  induction 1 as [| i l Hi _ IH]; simpl.
  - apply two_decimals_0.
  - apply two_decimals_plus; [| exact IH].
    apply two_decimals_scale. exact Hi.
Qed.

(** X11: the order [create] returns satisfies the invariant, with or without a
    tax or discount amount in the request. *)
Lemma create_establishes_invariant (env : Env) (d d' : Db)
    (createDto : CreatePurchaseOrderDto.t) (po : PurchaseOrder.t) :
  run (PurchaseOrdersService.create env createDto) d = (d', inr po) ->
  purchase_orders d' !! uuid env 0 = Some po /\ ledger_invariant po.
Proof.
  unfold run.
  destruct (PurchaseOrdersService.create env createDto (mkWorld d []))
    as [w r] eqn:E.
  simpl. intros [= <- ->]. revert E.
  unfold PurchaseOrdersService.create.
  unfold mbind at 1, M_bind at 1, read at 1. simpl.
  destruct (vendors d !! CreatePurchaseOrderDto.vendorId createDto) as [vendor |];
    [| intros [=]].
  destruct (decide _) as [? | _]; [intros [=] |].
  repeat (unfold try_catch, startTransaction, mbind, M_bind, read, mret, M_ret,
            throw, rollbackTransaction, manager_write, commitTransaction,
            PurchaseOrdersService.generatePoNumber,
            PurchaseOrdersService.manager_save; simpl).
  destruct (PurchaseOrdersService.poNumber_taken _ _); simpl; [intros [=] |].
  erewrite po_findOne_Some by (simpl; apply lookup_insert_eq).
  simpl. intros [= <- <-]. split; [simpl; apply lookup_insert_eq |].
  apply ledger_invariant_intro; simpl.
  - split; lra.
  - set (s := PurchaseOrdersService.subtotal _).
    set (t := default _ (CreatePurchaseOrderDto.taxAmount createDto)).
    set (di := default _ (CreatePurchaseOrderDto.discountAmount createDto)).
    destruct (toFixed2_error (s - di + t)) as [H1 H2].
    destruct (toFixed2_error s) as [H3 H4].
    split; lra.
Qed.

(** Recalculating from items whose unit prices have two decimals gives an
    order that satisfies the invariant. *)
Lemma recomputed_invariant (d d' : Db) (poId : string)
    (po po' : PurchaseOrder.t) (l' : list PurchaseOrderItem.t)
    (r : Db * (Exception + PurchaseOrder.t)) :
  recomputed d poId po l' r ->
  Forall (fun i => two_decimals (PurchaseOrderItem.unitPrice i)) l' ->
  r = (d', inr po') ->
  ledger_invariant po'.
Proof.
  intros (po1 & -> & _ & Hs & Ht & Hd & Htot & Hout & Hpaid & _) Hprices [= _ <-].
  apply two_decimals_sum_subtotal in Hprices.
  set (s := sum itemSubtotal l') in *.
  set (t := sum itemTax l') in *.
  set (di := sum itemDiscount l') in *.
  destruct (toFixed2_error (s - di + t)) as [E1 E2].
  destruct (toFixed2_error (s - di + t - PurchaseOrder.paidAmount po)) as [E3 E4].
  destruct (toFixed2_error t) as [E5 E6].
  destruct (toFixed2_error di) as [E7 E8].
  apply ledger_invariant_intro.
  - rewrite Hout, Htot, Hpaid. split; lra.
  - rewrite Htot, Hs, Ht, Hd, (toFixed2_id s Hprices).
    destruct Hprices as [n0 Hn0].
    destruct (toFixed2_two_decimals (s - di + t)) as [n1 Hn1].
    destruct (toFixed2_two_decimals di) as [n2 Hn2].
    destruct (toFixed2_two_decimals t) as [n3 Hn3].
    assert (E : toFixed2 (s - di + t) - (s - toFixed2 di + toFixed2 t)
                == inject_Z (n1 - n0 + n2 - n3) / 100).
    { clear E1 E2 E3 E4 E5 E6 E7 E8.
      remember (toFixed2 (s - di + t)) as X eqn:EX.
      remember (toFixed2 di) as D eqn:ED.
      remember (toFixed2 t) as T eqn:ET.
      rewrite Hn1, Hn2, Hn3, Hn0.
      unfold Z.sub. rewrite !inject_Z_plus, !inject_Z_opp. field. }
    rewrite E. apply hundredths_within. rewrite <- E. split; lra.
Qed.

(** X12: a successful payment keeps the invariant of an order whose total has two
    decimals: afterwards [paidAmount + outstandingAmount] is the total. *)
Lemma payment_keeps_invariant (env : Env) (d d' : Db)
    (createDto : CreatePaymentDto.t) (po po' : PurchaseOrder.t) (p : Payment.t) :
  purchase_orders d !! CreatePaymentDto.purchaseOrderId createDto = Some po ->
  PurchaseOrder.id po = CreatePaymentDto.purchaseOrderId createDto ->
  two_decimals (PurchaseOrder.totalAmount po) ->
  ledger_invariant po ->
  run (PaymentsService.create env createDto) d = (d', inr p) ->
  purchase_orders d' !! CreatePaymentDto.purchaseOrderId createDto = Some po' ->
  ledger_invariant po'.
Proof.
  intros Hpo Hid Hdt Hinv Hrun Hpo'.
  destruct (PaymentFacts.create_inr_inv _ _ _ _ _ _ Hpo Hid Hrun)
    as (_ & _ & Hle & _ & _ & _ & _ & Hd').
  rewrite Hd' in Hpo'. simpl in Hpo'.
  rewrite <- Hid, lookup_insert_eq in Hpo'. injection Hpo' as <-.
  apply ledger_invariant_elim in Hinv. destruct Hinv as [_ H2].
  set (np := toFixed2 (PurchaseOrder.paidAmount po
                       + CreatePaymentDto.amountPaid createDto)) in *.
  assert (E : toFixed2 (PurchaseOrder.totalAmount po - np)
              == PurchaseOrder.totalAmount po - np).
  { apply toFixed2_id, two_decimals_minus; [assumption |].
    apply toFixed2_two_decimals. }
  apply ledger_invariant_intro; simpl.
  - rewrite E, max0_of_nonneg by lra. split; lra.
  - exact H2.
Qed.

(** X13: voiding a payment that is part of what the order records as paid keeps
    the invariant. *)
Lemma void_keeps_invariant (env : Env) (d d' : Db) (id : string)
    (voidDto : VoidPaymentDto.t) (p p' : Payment.t) (po po' : PurchaseOrder.t) :
  payments d !! id = Some p ->
  Payment.id p = id ->
  purchase_orders d !! Payment.purchaseOrderId p = Some po ->
  PurchaseOrder.id po = Payment.purchaseOrderId p ->
  two_decimals (PurchaseOrder.totalAmount po) ->
  Payment.amountPaid p <= PurchaseOrder.paidAmount po ->
  ledger_invariant po ->
  run (PaymentsService.void env id voidDto) d = (d', inr p') ->
  purchase_orders d' !! Payment.purchaseOrderId p = Some po' ->
  ledger_invariant po'.
Proof.
  intros Hp Hpid Hpo Hid Hdt HA Hinv Hrun Hpo'.
  destruct (PaymentFacts.void_inr_inv _ _ _ _ _ _ _ _ Hp Hpid Hpo Hid Hrun)
    as (_ & _ & Hd').
  rewrite Hd' in Hpo'. simpl in Hpo'.
  rewrite lookup_insert_eq in Hpo'. injection Hpo' as <-.
  apply ledger_invariant_elim in Hinv. destruct Hinv as [_ H2].
  set (np := toFixed2 (PurchaseOrder.paidAmount po - Payment.amountPaid p)) in *.
  assert (Hnp : 0 <= np) by (apply toFixed2_sign_nonneg; lra).
  assert (E : toFixed2 (PurchaseOrder.totalAmount po - np)
              == PurchaseOrder.totalAmount po - np).
  { apply toFixed2_id, two_decimals_minus; [assumption |].
    apply toFixed2_two_decimals. }
  apply ledger_invariant_intro; simpl.
  - rewrite E, max0_of_nonneg by exact Hnp. split; lra.
  - exact H2.
Qed.

(** The sweep touches no amount. *)
Lemma mark_overdue_keeps_invariant (today : Date) (po : PurchaseOrder.t) :
  ledger_invariant po ->
  ledger_invariant (PurchaseOrdersService.mark_overdue today po).
Proof.
  unfold PurchaseOrdersService.mark_overdue.
  destruct (PurchaseOrdersService.overdue_candidate today po); intros H; exact H.
Qed.

End InvariantFacts.

(** ** The properties on the concrete ledgers *)

Module Instances.

Import Num NumFacts Spec Scenario.

Local Open Scope Q_scope.

(** The approved order of scenario 1 has 11800 outstanding, and 20000 are
    paid: a [TypeError] with the driver the application configures, the
    refusal of the guard with the numbers of the unit tests. *)
Lemma over_payment_throws_type_error_witness :
  PurchaseOrder.outstandingAmount po_approved
  < CreatePaymentDto.amountPaid pay20000
  /\ run (PaymentsService.create env_mysql pay20000) db_approved
     = (db_approved, inl TypeError)
  /\ run (PaymentsService.create env_pay pay20000) db_approved
     = (db_approved, inl (BadRequestException PaymentExceedsOutstanding)).
Proof.
  split; [vm_compute; reflexivity |].
  split.
  - apply (PaymentFacts.over_payment_throws_type_error env_mysql db_approved
             pay20000 po_approved); vm_compute; reflexivity.
  - apply (PaymentFacts.over_payment_throws_type_error env_pay db_approved
             pay20000 po_approved); vm_compute; reflexivity.
Defined.

(** C4 (code defect): [updatePaymentAmounts] computes
    [purchaseOrder.paidAmount + additionalPayment].  With the driver the
    application configures [paidAmount] arrives as a string, [+]
    concatenates, and [toFixed] is called on a string: scenario 2, a
    payment of 5000 on the approved order, fails with a [TypeError] and
    records nothing.  Where the column arrives as a number, as in the unit
    tests, the same call stores the payment and leaves the order with 5000
    paid, 6800 outstanding and PARTIALLY_PAID. *)
Theorem payment_throws_type_error :
  run (PaymentsService.create env_mysql pay5000) db_approved
  = (db_approved, inl TypeError)
  /\ exists d' po',
       run (PaymentsService.create env_pay pay5000) db_approved
       = (d', inr payment5000)
       /\ purchase_orders d' !! "po-0" = Some po'
       /\ PurchaseOrder.paidAmount po' == 5000
       /\ PurchaseOrder.outstandingAmount po' == 6800
       /\ PurchaseOrder.status po' = PARTIALLY_PAID.
Proof.
  split; [vm_compute; reflexivity |].
  exists (run (PaymentsService.create env_pay pay5000) db_approved).1,
         (default po_approved
            (purchase_orders
               (run (PaymentsService.create env_pay pay5000) db_approved).1
               !! "po-0")).
  split; [vm_compute; reflexivity |].
  split; [vm_compute; reflexivity |].
  split; [vm_compute; reflexivity |].
  split; vm_compute; reflexivity.
Qed.

(** C5 (code defect): [reversePaymentAmount] tests
    [new Date() > purchaseOrder.dueDate] to tell OVERDUE from APPROVED, and
    [dueDate], a [date] column, arrives as the string 'YYYY-MM-DD': the
    comparison is false whatever the dates.  The payment of scenario 2 is
    voided on 2026-02-15, after the due date 2026-01-31: the payment is
    VOIDED, the order has nothing paid and 11800 outstanding, and its status
    is APPROVED where OVERDUE was meant. *)
Theorem void_after_due_date_gives_approved :
  (PurchaseOrder.dueDate po_partially_paid < now env_late_mysql)%Z
  /\ exists d' p' po',
       run (PaymentsService.void env_late_mysql "pay-0" duplicate)
         db_partially_paid
       = (d', inr p')
       /\ Payment.status p' = VOIDED
       /\ purchase_orders d' !! "po-0" = Some po'
       /\ PurchaseOrder.paidAmount po' == 0
       /\ PurchaseOrder.outstandingAmount po' == 11800
       /\ PurchaseOrder.status po' = APPROVED.
Proof.
  split; [vm_compute; reflexivity |].
  set (r := run (PaymentsService.void env_late_mysql "pay-0" duplicate)
              db_partially_paid).
  exists r.1, (default payment5000 (payments r.1 !! "pay-0")),
         (default po_approved (purchase_orders r.1 !! "po-0")).
  split; [vm_compute; reflexivity |].
  split; [vm_compute; reflexivity |].
  split; [vm_compute; reflexivity |].
  split; [vm_compute; reflexivity |].
  split; vm_compute; reflexivity.
Qed.






(** The sweep of 2026-02-15 moves the one order that is past due with money
    outstanding, and a second sweep moves none. *)
Lemma markOverdue_exact_and_idempotent_witness :
  exists d',
    run (PurchaseOrdersService.markOverduePurchaseOrders env_late) db_sweep
      = (d', inr 1%nat)
    /\ (PurchaseOrder.status <$> purchase_orders d' !! "po-0") = Some OVERDUE
    /\ purchase_orders d' !! "po-2" = Some po_not_due
    /\ run (PurchaseOrdersService.markOverduePurchaseOrders env_late) d'
      = (d', inr 0%nat).
Proof.
  destruct (SweepFacts.markOverdue_exact_and_idempotent env_late db_sweep)
    as (d' & affected & moved & Hrun & _ & _ & _ & Hyes & Hno & _ & _ & Hagain).
  exists d'. split; [| split; [| split]].
  - rewrite Hrun. f_equal. f_equal.
    assert (E : (run (PurchaseOrdersService.markOverduePurchaseOrders env_late)
                     db_sweep).2 = inr 1%nat) by (vm_compute; reflexivity).
    rewrite Hrun in E. simpl in E. injection E as E. exact E.
  - assert (He : overdue_eligible (now env_late) po_partially_paid).
    { split; [vm_compute; reflexivity |]. split; [vm_compute; reflexivity |].
      apply list_elem_of_further, list_elem_of_further, list_elem_of_here. }
    assert (Hl : purchase_orders db_sweep !! "po-0" = Some po_partially_paid)
      by (vm_compute; reflexivity).
    rewrite (Hyes "po-0" po_partially_paid Hl He). reflexivity.
  - apply Hno; [vm_compute; reflexivity |].
    intros (Hdue & _). vm_compute in Hdue. discriminate Hdue.
  - exact Hagain.
Defined.

(** C1 (code defect): [update] takes [taxAmount] and [discountAmount] from
    the request ([UpdatePurchaseOrderDto] inherits them from the creation
    request) and stores them without recomputing [totalAmount].  On the
    order of scenario 1, which satisfies the invariant, the request
    [{ taxAmount: 50 }] succeeds and leaves [totalAmount = 11800] next to
    [subtotal - discountAmount + taxAmount = 10050]. *)
Theorem update_breaks_ledger_invariant :
  ledger_invariant po_pending
  /\ exists d' po',
       run (PurchaseOrdersService.update "po-0" updateDto_tax50) db_pending
         = (d', inr po')
       /\ purchase_orders d' !! "po-0" = Some po'
       /\ PurchaseOrder.totalAmount po' == 11800
       /\ PurchaseOrder.subtotal po' - PurchaseOrder.discountAmount po'
          + PurchaseOrder.taxAmount po' == 10050
       /\ ~ ledger_invariant po'.
Proof.
  split.
  { split; vm_compute; discriminate. }
  exists (run (PurchaseOrdersService.update "po-0" updateDto_tax50) db_pending).1,
         (default po_pending
            (purchase_orders
               (run (PurchaseOrdersService.update "po-0" updateDto_tax50)
                  db_pending).1 !! "po-0")).
  split; [vm_compute; reflexivity |].
  split; [vm_compute; reflexivity |].
  split; [vm_compute; reflexivity |].
  split; [vm_compute; reflexivity |].
  intros [_ H]. vm_compute in H. apply H. reflexivity.
Qed.

(** C2 (code defect): the order is written through [poRepository], outside
    the transaction of the query runner that holds the payment.  When the
    commit is rejected, [create] fails and rolls the payment back, yet the
    order stays updated: 5000 paid and no payment row.  In the same way a
    [void] whose commit is rejected leaves the payment COMPLETED and the
    order with the amount taken back. *)
Theorem commit_failure_splits_order_and_payment :
  (exists d' po',
     run (PaymentsService.create env_commit_fails pay5000) db_approved
       = (d', inl (QueryFailedError Committing))
     /\ payments d' = ∅
     /\ purchase_orders d' !! "po-0" = Some po'
     /\ PurchaseOrder.paidAmount po' == 5000
     /\ PurchaseOrder.outstandingAmount po' == 6800
     /\ PurchaseOrder.status po' = PARTIALLY_PAID)
  /\ (exists d' po',
        run (PaymentsService.void env_commit_fails "pay-0" duplicate)
            db_partially_paid
          = (d', inl (QueryFailedError Committing))
        /\ payments d' !! "pay-0" = Some payment5000
        /\ Payment.status payment5000 = COMPLETED
        /\ purchase_orders d' !! "po-0" = Some po'
        /\ PurchaseOrder.paidAmount po' == 0
        /\ PurchaseOrder.outstandingAmount po' == 11800
        /\ PurchaseOrder.status po' = APPROVED).
Proof.
  split.
  - exists (run (PaymentsService.create env_commit_fails pay5000) db_approved).1,
           (default po_approved
              (purchase_orders
                 (run (PaymentsService.create env_commit_fails pay5000)
                    db_approved).1 !! "po-0")).
    repeat (split; [vm_compute; reflexivity |]). vm_compute; reflexivity.
  - exists (run (PaymentsService.void env_commit_fails "pay-0" duplicate)
              db_partially_paid).1,
           (default po_approved
              (purchase_orders
                 (run (PaymentsService.void env_commit_fails "pay-0" duplicate)
                    db_partially_paid).1 !! "po-0")).
    repeat (split; [vm_compute; reflexivity |]). vm_compute; reflexivity.
Qed.

(** C7 (code defect): the generators have no bound.  After
    [PO-20260101-999] the next number is [PO-20260101-1000], with four
    digits; as text it sorts before [PO-20260101-999], so the latest number
    of the day stays [..-999] and every later call returns
    [PO-20260101-1000] again.  [create] stores the first such order and
    fails on the following ones with the duplicate-entry error of the
    database; payment references behave alike. *)
Theorem reference_sequence_overflows :
  Reference.generate "PO" "20260101" ["PO-20260101-999"] = "PO-20260101-1000"
  /\ Reference.generate "PO" "20260101" ["PO-20260101-999"; "PO-20260101-1000"]
     = "PO-20260101-1000"
  /\ Reference.generate "PAY" "20260101" ["PAY-20260101-1000"; "PAY-20260101-999"]
     = "PAY-20260101-1000"
  /\ (exists d' po,
        run (PurchaseOrdersService.create env_po createDto1) db_999 = (d', inr po)
        /\ PurchaseOrder.poNumber po = "PO-20260101-1000")
  /\ run (PurchaseOrdersService.create env_po createDto1) db_1000
     = (db_1000, inl DuplicateEntry).
Proof.
  repeat (split; [vm_compute; reflexivity |]).
  split; [| vm_compute; reflexivity].
  exists (run (PurchaseOrdersService.create env_po createDto1) db_999).1,
         (default po_999
            (purchase_orders
               (run (PurchaseOrdersService.create env_po createDto1) db_999).1
               !! "po-0")).
  split; vm_compute; reflexivity.
Qed.

(** What the split of C2 leads to: the payment whose [void] lost its commit
    is still COMPLETED, so it can be voided again; the second [void] takes
    the 5000 back a second time, clamps [paidAmount] at 0 and stores an
    outstanding amount of 16800 on an order of 11800. *)
Lemma void_again_after_rejected_commit :
  let d1 := (run (PaymentsService.void env_commit_fails "pay-0" duplicate)
               db_partially_paid).1 in
  exists d2 p' po',
    run (PaymentsService.void env_pay "pay-0" duplicate) d1 = (d2, inr p')
    /\ purchase_orders d2 !! "po-0" = Some po'
    /\ PurchaseOrder.paidAmount po' == 0
    /\ PurchaseOrder.outstandingAmount po' == 16800
    /\ PurchaseOrder.totalAmount po' == 11800
    /\ ~ ledger_invariant po'.
Proof.
  intros d1.
  set (r := run (PaymentsService.void env_pay "pay-0" duplicate) d1).
  exists r.1, (Payment.set_voided (day 20454) "Duplicate payment" payment5000),
         (default po_approved (purchase_orders r.1 !! "po-0")).
  repeat (split; [vm_compute; reflexivity |]).
  intros [H _]. vm_compute in H. apply H. reflexivity.
Qed.

(** Scenario 3: the second payment, 6800, pays the order off, and a further
    payment of 1 is refused for the status of the order. *)
Example scenario_3 :
  (exists po,
     purchase_orders db_fully_paid !! "po-0" = Some po
     /\ PurchaseOrder.paidAmount po == 11800
     /\ PurchaseOrder.outstandingAmount po == 0
     /\ PurchaseOrder.status po = PAID)
  /\ run (PaymentsService.create env_pay pay1) db_fully_paid
     = (db_fully_paid, inl (BadRequestException InvalidPoStateForPayment)).
Proof.
  split; [| vm_compute; reflexivity].
  exists (default po_approved (purchase_orders db_fully_paid !! "po-0")).
  repeat (split; [vm_compute; reflexivity |]). reflexivity.
Qed.

(** Scenario 4: voiding the first payment of the paid order. *)
Example scenario_4 :
  exists po,
    purchase_orders
      (run (PaymentsService.void env_pay "pay-0" duplicate) db_fully_paid).1
      !! "po-0" = Some po
    /\ PurchaseOrder.paidAmount po == 6800
    /\ PurchaseOrder.outstandingAmount po == 5000
    /\ PurchaseOrder.status po = PARTIALLY_PAID.
Proof.
  exists (default po_approved
            (purchase_orders
               (run (PaymentsService.void env_pay "pay-0" duplicate)
                  db_fully_paid).1 !! "po-0")).
  repeat (split; [vm_compute; reflexivity |]). reflexivity.
Qed.

End Instances.

(** ** The ledger as a whole: paid amounts against payment rows *)

Module LedgerFacts.

Import Num NumFacts Spec Ledger.

Local Open Scope Q_scope.

Lemma sum_Permutation {A : Type} (f : A -> Q) (l l' : list A) :
  l ≡ₚ l' -> sum f l == sum f l'.
Proof.
  induction 1 as [| x l l' _ IH | x y l | l l' l'' _ IH1 _ IH2]; simpl.
  - reflexivity.
  - rewrite IH. reflexivity.
  - lra.
  - rewrite IH1. exact IH2.
Qed.

Lemma sum_nonneg {A : Type} (f : A -> Q) (l : list A) :
  Forall (fun x => 0 <= f x) l -> 0 <= sum f l.
Proof. induction 1; simpl; lra. Qed.

Lemma completed_total_fresh (vs : gmap string Vendor.t)
    (pos pos' : gmap string PurchaseOrder.t) (pays : gmap string Payment.t)
    (id poId : string) (p : Payment.t) :
  pays !! id = None ->
  completed_total (mkDb vs pos' (<[id := p]> pays)) poId
  == completed_amount poId p + completed_total (mkDb vs pos pays) poId.
Proof.
  intros Hnone. unfold completed_total. simpl.
  rewrite (sum_Permutation _ _ _
             (fmap_Permutation snd _ _ (map_to_list_insert pays id p Hnone))).
  reflexivity.
Qed.

Lemma completed_total_replace (vs : gmap string Vendor.t)
    (pos pos' : gmap string PurchaseOrder.t) (pays : gmap string Payment.t)
    (id poId : string) (p0 p : Payment.t) :
  pays !! id = Some p0 ->
  completed_total (mkDb vs pos' (<[id := p]> pays)) poId
  + completed_amount poId p0
  == completed_amount poId p + completed_total (mkDb vs pos pays) poId.
Proof.
  intros Hsome. unfold completed_total. simpl.
  rewrite <- (insert_delete_eq pays id p).
  rewrite (sum_Permutation _ _ _
             (fmap_Permutation snd _ _
                (map_to_list_insert (delete id pays) id p
                   (lookup_delete_eq pays id)))).
  rewrite <- (sum_Permutation _ _ _
                (fmap_Permutation snd _ _ (map_to_list_delete pays id p0 Hsome))).
  simpl. lra.
Qed.

Lemma completed_total_nonneg (d : Db) (poId : string) :
  valid_amounts d -> 0 <= completed_total d poId.
Proof.
  intros Hv. unfold completed_total. apply sum_nonneg.
  apply Forall_forall. intros p Hin.
  apply list_elem_of_fmap in Hin.
  destruct Hin as ([k p'] & -> & Hin). simpl.
  apply elem_of_map_to_list in Hin.
  unfold completed_amount. destruct (_ && _); [apply (Hv k p' Hin) | lra].
Qed.

(** What is left of the total of an order when one of its COMPLETED
    payments is set aside is not negative. *)
Lemma completed_total_above (d : Db) (id : string) (p : Payment.t) :
  valid_amounts d ->
  payments d !! id = Some p ->
  Payment.status p = COMPLETED ->
  Payment.amountPaid p <= completed_total d (Payment.purchaseOrderId p).
Proof.
  intros Hv Hp Hst. unfold completed_total.
  rewrite <- (sum_Permutation _ _ _
                (fmap_Permutation snd _ _
                   (map_to_list_delete (payments d) id p Hp))).
  set (rest := (map_to_list (delete id (payments d))).*2).
  change (((id, p) :: map_to_list (delete id (payments d))).*2)
    with (p :: rest).
  assert (H0 : 0 <= sum (completed_amount (Payment.purchaseOrderId p)) rest).
  { apply sum_nonneg, Forall_forall. intros q Hin.
    apply list_elem_of_fmap in Hin.
    destruct Hin as ([k q'] & -> & Hin). simpl.
    apply elem_of_map_to_list in Hin.
    assert (Hq : payments d !! k = Some q').
    { destruct (decide (id = k)) as [<- | Hne].
      - rewrite lookup_delete_eq in Hin. discriminate.
      - rewrite lookup_delete_ne in Hin by assumption. exact Hin. }
    unfold completed_amount. destruct (_ && _); [apply (Hv k q' Hq) | lra]. }
  change (sum (completed_amount (Payment.purchaseOrderId p)) (p :: rest))
    with (completed_amount (Payment.purchaseOrderId p) p
          + sum (completed_amount (Payment.purchaseOrderId p)) rest).
  assert (Hc : completed_amount (Payment.purchaseOrderId p) p
               = Payment.amountPaid p).
  { unfold completed_amount. rewrite Hst.
    rewrite !bool_decide_eq_true_2 by reflexivity. reflexivity. }
  rewrite Hc. lra.
Qed.

(** In a ledger where every order records as paid the total of its
    COMPLETED payments and no payment amount is negative, a COMPLETED
    payment is never larger than the [paidAmount] of its order. *)
Theorem completed_payment_within_paid (d : Db) (id : string) (p : Payment.t)
    (po : PurchaseOrder.t) :
  consistent d ->
  valid_amounts d ->
  payments d !! id = Some p ->
  Payment.status p = COMPLETED ->
  purchase_orders d !! Payment.purchaseOrderId p = Some po ->
  Payment.amountPaid p <= PurchaseOrder.paidAmount po.
Proof.
  intros Hc Hv Hp Hst Hpo.
  rewrite (Hc _ _ Hpo). eapply completed_total_above; eassumption.
Qed.

(** X9: recording a payment keeps the books straight.  When every order
    records as paid the total of its COMPLETED payments, amounts have two
    decimals and the uuid of the new payment row is a new one, then after a
    successful [create] every order again records as paid the total of its
    COMPLETED payments, the new payment included. *)
Theorem create_keeps_consistent (env : Env) (d d' : Db)
    (createDto : CreatePaymentDto.t) (po : PurchaseOrder.t) (p : Payment.t) :
  purchase_orders d !! CreatePaymentDto.purchaseOrderId createDto = Some po ->
  PurchaseOrder.id po = CreatePaymentDto.purchaseOrderId createDto ->
  payments d !! uuid env 0 = None ->
  two_decimals (CreatePaymentDto.amountPaid createDto) ->
  two_decimals (PurchaseOrder.paidAmount po) ->
  consistent d ->
  run (PaymentsService.create env createDto) d = (d', inr p) ->
  consistent d'.
Proof.
  intros Hpo Hid Hfresh HdA Hdp Hc Hrun.
  destruct (PaymentFacts.create_inr_inv _ _ _ _ _ _ Hpo Hid Hrun)
    as (_ & _ & _ & Hpid & Hst & Hamt & Hpp & ->).
  intros k po1 Hk. simpl in Hk.
  destruct d as [vs pos pays]. simpl in *.
  rewrite (completed_total_fresh vs pos _ pays _ k p Hfresh).
  destruct (decide (PurchaseOrder.id po = k)) as [<- | Hne].
  - rewrite lookup_insert_eq in Hk. injection Hk as <-. simpl.
    rewrite toFixed2_id by (apply two_decimals_plus; assumption).
    unfold completed_amount. rewrite Hpp, Hst.
    rewrite !bool_decide_eq_true_2 by reflexivity. simpl.
    rewrite Hamt.
    assert (H := Hc (PurchaseOrder.id po) po). simpl in H.
    rewrite Hid in H. specialize (H Hpo). rewrite <- Hid in H.
    rewrite H. lra.
  - rewrite lookup_insert_ne in Hk by assumption.
    unfold completed_amount. rewrite Hpp.
    rewrite (bool_decide_eq_false_2 _ Hne). simpl.
    rewrite (Hc k po1 Hk). simpl. lra.
Qed.

(** X10: voiding a payment keeps the books straight.  Under the same
    conditions on the ledger, with no negative payment amount, after a
    successful [void] every order records as paid the total of the payments
    that are still COMPLETED. *)
Theorem void_keeps_consistent (env : Env) (d d' : Db) (id : string)
    (voidDto : VoidPaymentDto.t) (p p' : Payment.t) (po : PurchaseOrder.t) :
  payments d !! id = Some p ->
  Payment.id p = id ->
  purchase_orders d !! Payment.purchaseOrderId p = Some po ->
  PurchaseOrder.id po = Payment.purchaseOrderId p ->
  two_decimals (PurchaseOrder.paidAmount po) ->
  valid_amounts d ->
  consistent d ->
  run (PaymentsService.void env id voidDto) d = (d', inr p') ->
  consistent d'.
Proof.
  intros Hp Hpid Hpo Hid Hdp Hv Hc Hrun.
  destruct (PaymentFacts.void_inr_inv _ _ _ _ _ _ _ _ Hp Hpid Hpo Hid Hrun)
    as (Hst & -> & ->).
  assert (HA : Payment.amountPaid p <= PurchaseOrder.paidAmount po).
  { rewrite (Hc _ _ Hpo). apply (completed_total_above d id p Hv Hp Hst). }
  destruct (Hv _ _ Hp) as [_ HdA].
  intros k po1 Hk. simpl in Hk.
  assert (Hrep := fun pos' =>
            completed_total_replace (vendors d) (purchase_orders d) pos'
              (payments d) id k p
              (Payment.set_voided (now env) (VoidPaymentDto.voidReason voidDto) p)
              Hp).
  destruct d as [vs pos pays]. simpl in *.
  specialize (Hrep (<[Payment.purchaseOrderId p :=
                       PurchaseOrder.set_payment
                         (max0 (toFixed2 (PurchaseOrder.paidAmount po
                                          - Payment.amountPaid p)))
                         (toFixed2 (PurchaseOrder.totalAmount po
                                    - toFixed2 (PurchaseOrder.paidAmount po
                                                - Payment.amountPaid p)))
                         (if Qlt_le_dec 0
                               (toFixed2 (PurchaseOrder.paidAmount po
                                          - Payment.amountPaid p))
                          then PARTIALLY_PAID else APPROVED) po]> pos)).
  assert (Hvoided : completed_amount k
                      (Payment.set_voided (now env)
                         (VoidPaymentDto.voidReason voidDto) p) == 0).
  { unfold completed_amount. simpl. rewrite andb_false_r. reflexivity. }
  rewrite Hvoided in Hrep.
  assert (Hnew : forall x, x == completed_total
                               {| vendors := vs; purchase_orders := pos;
                                  payments := pays |} k
                             - completed_amount k p ->
                 x == completed_total
                        {| vendors := vs;
                           purchase_orders :=
                             <[Payment.purchaseOrderId p :=
                                 PurchaseOrder.set_payment
                                   (max0 (toFixed2 (PurchaseOrder.paidAmount po
                                                    - Payment.amountPaid p)))
                                   (toFixed2 (PurchaseOrder.totalAmount po
                                              - toFixed2 (PurchaseOrder.paidAmount po
                                                          - Payment.amountPaid p)))
                                   (if Qlt_le_dec 0
                                         (toFixed2 (PurchaseOrder.paidAmount po
                                                    - Payment.amountPaid p))
                                    then PARTIALLY_PAID else APPROVED) po]> pos;
                           payments :=
                             <[id := Payment.set_voided (now env)
                                       (VoidPaymentDto.voidReason voidDto) p]> pays |}
                        k).
  { intros x Hx. rewrite Hx. lra. }
  apply Hnew. clear Hnew Hrep Hvoided.
  destruct (decide (Payment.purchaseOrderId p = k)) as [<- | Hne].
  - rewrite lookup_insert_eq in Hk. injection Hk as <-.
    cbn [PurchaseOrder.paidAmount PurchaseOrder.set_payment].
    rewrite toFixed2_id by (apply two_decimals_minus; assumption).
    rewrite max0_of_nonneg by lra.
    assert (Hcomp : completed_amount (Payment.purchaseOrderId p) p
                    == Payment.amountPaid p).
    { unfold completed_amount. rewrite Hst.
      rewrite !bool_decide_eq_true_2 by reflexivity. reflexivity. }
    rewrite Hcomp, (Hc _ _ Hpo). reflexivity.
  - rewrite lookup_insert_ne in Hk by assumption.
    assert (Hcomp : completed_amount k p == 0).
    { unfold completed_amount. rewrite (bool_decide_eq_false_2 _ Hne).
      reflexivity. }
    rewrite Hcomp, (Hc k po1 Hk). unfold Qminus. rewrite Qplus_0_r. reflexivity.
Qed.

End LedgerFacts.

(** ** More on recording and voiding payments *)

Module PaymentExtras.

Import Num NumFacts Spec Ledger.

Local Open Scope Q_scope.

(** X2: when [void] fails with anything but the error of a rejected commit,
    of a rejected rollback, of the reload after the commit or of the
    release of the query runner, the database is as it was: the payment is
    not voided and no order has changed. *)
Theorem void_failure_before_commit (env : Env) (d d' : Db) (id : string)
    (voidDto : VoidPaymentDto.t) (e : Exception) :
  run (PaymentsService.void env id voidDto) d = (d', inl e) ->
  e <> QueryFailedError Committing ->
  e <> QueryFailedError RollingBack ->
  e <> QueryFailedError Reloading ->
  e <> QueryFailedError Releasing ->
  d' = d.
Proof.
  unfold run, PaymentsService.void.
  destruct (payments d !! id) as [p |] eqn:Hp.
  2: { unfold PaymentsService.findOne, read, mbind, M_bind. simpl. rewrite Hp.
       intros [= <- _]. reflexivity. }
  rewrite (bind_inr _ _ _ _ _ (payment_findOne_Some _ _ (mkWorld d []) Hp)).
  destruct (decide _) as [?|_]; [intros [= <- _]; reflexivity |].
  unfold PurchaseOrdersService.reversePaymentAmount,
    PurchaseOrdersService.findOne, PaymentsService.findOne.
  PaymentFacts.run_monad.
  destruct (purchase_orders d !! Payment.purchaseOrderId p) as [po |] eqn:Hpo;
    repeat (PaymentFacts.split_env; PaymentFacts.run_monad; rewrite ?Hpo;
            PaymentFacts.run_monad);
    try (intros [=]; fail);
    try (intros [= <- <-]; intros; first [reflexivity | congruence]).
  all: destruct (decide (Payment.id p = id)) as [-> | Hn];
    [rewrite lookup_insert_eq | rewrite lookup_insert_ne, Hp by assumption];
    intros [=].
Qed.

(** X3: the order and the payment come apart when the commit of a [void]
    is rejected, on every ledger.  For a COMPLETED payment whose order
    exists, with no other rejected call: [void] fails with the error of the
    commit, the payments are as they were, so that the payment is still
    COMPLETED, and the order is stored with the amount taken back: for
    amounts with two decimals and a payment within what the order records
    as paid, [paidAmount] is the old one minus the amount of the payment. *)
Theorem void_commit_rejected (env : Env) (d : Db) (id : string)
    (voidDto : VoidPaymentDto.t) (p : Payment.t) (po : PurchaseOrder.t) :
  payments d !! id = Some p ->
  Payment.id p = id ->
  Payment.status p = COMPLETED ->
  purchase_orders d !! Payment.purchaseOrderId p = Some po ->
  PurchaseOrder.id po = Payment.purchaseOrderId p ->
  PaymentsService.paymentReference_taken p d = false ->
  faults env SavingPayment = false ->
  faults env UpdatingPurchaseOrder = false ->
  faults env Committing = true ->
  faults env RollingBack = false ->
  faults env Releasing = false ->
  exists po',
    run (PaymentsService.void env id voidDto) d
    = (mkDb (vendors d)
         (<[Payment.purchaseOrderId p := po']> (purchase_orders d))
         (payments d),
       inl (QueryFailedError Committing))
    /\ PurchaseOrder.totalAmount po' = PurchaseOrder.totalAmount po
    /\ (two_decimals (PurchaseOrder.paidAmount po) ->
        two_decimals (Payment.amountPaid p) ->
        Payment.amountPaid p <= PurchaseOrder.paidAmount po ->
        PurchaseOrder.paidAmount po'
        == PurchaseOrder.paidAmount po - Payment.amountPaid p).
Proof.
  intros Hp Hpid Hst Hpo Hid Hfree Hf1 Hf2 Hf3 Hf5 Hf4.
  eexists. split.
  { apply run_eq with (pend := []). unfold PaymentsService.void.
    rewrite (bind_inr _ _ _ _ _ (payment_findOne_Some _ _ (mkWorld d []) Hp)).
    destruct (decide _) as [Hv | _]; [congruence |].
    unfold PurchaseOrdersService.reversePaymentAmount,
      PurchaseOrdersService.findOne.
    PaymentFacts.run_monad. rewrite Hf1. PaymentFacts.run_monad.
    replace (PaymentsService.paymentReference_taken
               (Payment.set_voided (now env) (VoidPaymentDto.voidReason voidDto) p)
               d) with false by (symmetry; exact Hfree).
    PaymentFacts.run_monad. rewrite Hf2. PaymentFacts.run_monad.
    rewrite Hpo. PaymentFacts.run_monad.
    rewrite Hf3. PaymentFacts.run_monad. rewrite Hf5.
    PaymentFacts.run_monad. rewrite Hf4.
    PaymentFacts.run_monad. rewrite Hid. reflexivity. }
  split; [reflexivity |].
  intros Hdp HdA HA.
  cbn [PurchaseOrder.paidAmount PurchaseOrder.set_payment].
  rewrite toFixed2_id by (apply two_decimals_minus; assumption).
  apply max0_of_nonneg. lra.
Qed.

(** X5: a successful payment never takes an order beyond its total: the
    order is left with [paidAmount <= totalAmount] and
    [outstandingAmount >= 0], and its total is the one it had. *)
Theorem create_keeps_paid_within_total (env : Env) (d d' : Db)
    (createDto : CreatePaymentDto.t) (po : PurchaseOrder.t) (p : Payment.t) :
  purchase_orders d !! CreatePaymentDto.purchaseOrderId createDto = Some po ->
  PurchaseOrder.id po = CreatePaymentDto.purchaseOrderId createDto ->
  run (PaymentsService.create env createDto) d = (d', inr p) ->
  exists po',
    purchase_orders d' !! CreatePaymentDto.purchaseOrderId createDto = Some po'
    /\ PurchaseOrder.paidAmount po' <= PurchaseOrder.totalAmount po'
    /\ 0 <= PurchaseOrder.outstandingAmount po'
    /\ PurchaseOrder.totalAmount po' = PurchaseOrder.totalAmount po.
Proof.
  intros Hpo Hid Hrun.
  destruct (PaymentFacts.create_inr_inv _ _ _ _ _ _ Hpo Hid Hrun)
    as (_ & _ & Hle & _ & _ & _ & _ & ->).
  eexists. split; [simpl; rewrite <- Hid; apply lookup_insert_eq |].
  simpl. split; [exact Hle |]. split; [apply max0_nonneg | reflexivity].
Qed.

(** X6: a successful payment touches one order and adds one payment row:
    the vendors, every other order and every payment row stored before are
    as they were (the uuid of the new row being a new one). *)
Theorem create_leaves_the_rest (env : Env) (d d' : Db)
    (createDto : CreatePaymentDto.t) (po : PurchaseOrder.t) (p : Payment.t) :
  purchase_orders d !! CreatePaymentDto.purchaseOrderId createDto = Some po ->
  PurchaseOrder.id po = CreatePaymentDto.purchaseOrderId createDto ->
  payments d !! uuid env 0 = None ->
  run (PaymentsService.create env createDto) d = (d', inr p) ->
  vendors d' = vendors d
  /\ (forall k, k <> CreatePaymentDto.purchaseOrderId createDto ->
                purchase_orders d' !! k = purchase_orders d !! k)
  /\ (forall k q, payments d !! k = Some q -> payments d' !! k = Some q)
  /\ payments d' !! Payment.id p = Some p
  /\ payments d !! Payment.id p = None.
Proof.
  intros Hpo Hid Hfresh Hrun.
  destruct (PaymentFacts.create_inr_inv _ _ _ _ _ _ Hpo Hid Hrun)
    as (_ & _ & _ & Hpid & _ & _ & _ & ->).
  simpl. split; [reflexivity |]. split; [| split; [| split]].
  - intros k Hk. rewrite Hid. apply lookup_insert_ne. congruence.
  - intros k q Hq. rewrite lookup_insert_ne; [exact Hq |].
    intros <-. rewrite Hfresh in Hq. discriminate.
  - rewrite Hpid. apply lookup_insert_eq.
  - rewrite Hpid. exact Hfresh.
Qed.


(** X8: nothing happens on a missing row: [create] for an order that does
    not exist and [void] for a payment that does not exist fail with
    [NotFoundException], as do [update], [addItem], [updateItem] and
    [removeItem] on a missing order, and the database is as it was. *)
Theorem missing_rows_refused (env : Env) (d : Db) :
  (forall createDto,
     purchase_orders d !! CreatePaymentDto.purchaseOrderId createDto = None ->
     run (PaymentsService.create env createDto) d
     = (d, inl (NotFoundException APurchaseOrder)))
  /\ (forall id voidDto,
        payments d !! id = None ->
        run (PaymentsService.void env id voidDto) d
        = (d, inl (NotFoundException APayment)))
  /\ (forall id,
        purchase_orders d !! id = None ->
        (forall updateDto,
           run (PurchaseOrdersService.update id updateDto) d
           = (d, inl (NotFoundException APurchaseOrder)))
        /\ (forall itemDto,
              run (PurchaseOrdersService.addItem env id itemDto) d
              = (d, inl (NotFoundException APurchaseOrder)))
        /\ (forall itemId updateDto,
              run (PurchaseOrdersService.updateItem id itemId updateDto) d
              = (d, inl (NotFoundException APurchaseOrder)))
        /\ (forall itemId,
              run (PurchaseOrdersService.removeItem id itemId) d
              = (d, inl (NotFoundException APurchaseOrder)))).
Proof.
  split; [| split].
  - intros createDto Hn. apply run_eq with (pend := []).
    unfold PaymentsService.create.
    apply bind_inl, po_findOne_None. exact Hn.
  - intros id voidDto Hn. apply run_eq with (pend := []).
    unfold PaymentsService.void. apply bind_inl.
    unfold PaymentsService.findOne, read, mbind, M_bind. simpl. rewrite Hn.
    reflexivity.
  - intros id Hn.
    assert (Hf := po_findOne_None id (mkWorld d []) Hn).
    repeat split; intros; apply run_eq with (pend := []);
      [unfold PurchaseOrdersService.update
      |unfold PurchaseOrdersService.addItem
      |unfold PurchaseOrdersService.updateItem
      |unfold PurchaseOrdersService.removeItem];
      apply bind_inl; exact Hf.
Qed.

End PaymentExtras.

(** ** Status edits and cancellation *)

Module StatusFacts.

Import Num NumFacts Spec.

Local Open Scope Q_scope.

(** What a successful [update] did. *)
Lemma update_inr_inv (d d' : Db) (id : string)
    (updateDto : UpdatePurchaseOrderDto.t) (po po' : PurchaseOrder.t) :
  purchase_orders d !! id = Some po ->
  PurchaseOrder.id po = id ->
  run (PurchaseOrdersService.update id updateDto) d = (d', inr po') ->
  po' = PurchaseOrdersService.assign po updateDto
  /\ d' = mkDb (vendors d) (<[id := po']> (purchase_orders d)) (payments d)
  /\ (forall s, UpdatePurchaseOrderDto.status updateDto = Some s ->
                s ∈ PurchaseOrdersService.validTransitions (PurchaseOrder.status po))
  /\ (PurchaseOrder.status po = PAID \/ PurchaseOrder.status po = CANCELLED ->
      PurchaseOrdersService.someKeyOtherThanNotes updateDto = false).
Proof.
  intros Hpo Hid. unfold run.
  destruct (PurchaseOrdersService.update id updateDto (mkWorld d []))
    as [w r] eqn:E.
  simpl. intros [= <- ->]. revert E.
  unfold PurchaseOrdersService.update.
  rewrite (bind_inr _ _ _ _ _ (po_findOne_Some _ _ (mkWorld d []) Hpo)).
  unfold mbind at 1, M_bind at 1.
  assert (Hvalid :
    match UpdatePurchaseOrderDto.status updateDto with
    | Some newStatus =>
        PurchaseOrdersService.validateStatusTransition
          (PurchaseOrder.status po) newStatus
    | None => mret tt
    end (mkWorld d [])
    = (mkWorld d [],
       match UpdatePurchaseOrderDto.status updateDto with
       | Some s =>
           if decide (s ∈ PurchaseOrdersService.validTransitions
                            (PurchaseOrder.status po))
           then inr tt else inl (BadRequestException InvalidStatusTransition)
       | None => inr tt
       end)).
  { destruct (UpdatePurchaseOrderDto.status updateDto) as [s |]; [| reflexivity].
    unfold PurchaseOrdersService.validateStatusTransition.
    destruct (decide _); reflexivity. }
  rewrite Hvalid. clear Hvalid.
  destruct (UpdatePurchaseOrderDto.status updateDto) as [s |] eqn:Hs.
  - destruct (decide _) as [Hin | ?]; [| intros [=]].
    unfold mbind at 1, M_bind at 1.
    destruct ((bool_decide _ || bool_decide _) && _) eqn:Hterm;
      [intros [=] |].
    PaymentFacts.run_monad.
    erewrite po_findOne_Some by (simpl; rewrite Hid; apply lookup_insert_eq).
    intros [= <- <-]. simpl. rewrite Hid.
    split; [reflexivity |]. split; [reflexivity |].
    split; [intros s' [= <-]; exact Hin |].
    intros Hpc. apply andb_false_iff in Hterm. destruct Hterm as [Ht | Ht];
      [| exact Ht].
    apply orb_false_iff in Ht. destruct Ht as [H1 H2].
    apply bool_decide_eq_false in H1, H2. tauto.
  - unfold mbind at 1, M_bind at 1.
    destruct ((bool_decide _ || bool_decide _) && _) eqn:Hterm;
      [intros [=] |].
    PaymentFacts.run_monad.
    erewrite po_findOne_Some by (simpl; rewrite Hid; apply lookup_insert_eq).
    intros [= <- <-]. simpl. rewrite Hid.
    split; [reflexivity |]. split; [reflexivity |].
    split; [intros s' [=] |].
    intros Hpc. apply andb_false_iff in Hterm. destruct Hterm as [Ht | Ht];
      [| exact Ht].
    apply orb_false_iff in Ht. destruct Ht as [H1 H2].
    apply bool_decide_eq_false in H1, H2. tauto.
Qed.

(** X22: [update] follows the transition table.  After a successful
    [update] the status is the old one or one the table allows from it; an
    order never becomes OVERDUE or PENDING through [update], and never
    leaves PAID or CANCELLED. *)
Theorem update_follows_transitions (d d' : Db) (id : string)
    (updateDto : UpdatePurchaseOrderDto.t) (po po' : PurchaseOrder.t) :
  purchase_orders d !! id = Some po ->
  PurchaseOrder.id po = id ->
  run (PurchaseOrdersService.update id updateDto) d = (d', inr po') ->
  purchase_orders d' !! id = Some po'
  /\ (PurchaseOrder.status po' = PurchaseOrder.status po
      \/ PurchaseOrder.status po'
         ∈ PurchaseOrdersService.validTransitions (PurchaseOrder.status po))
  /\ (PurchaseOrder.status po' = OVERDUE -> PurchaseOrder.status po = OVERDUE)
  /\ (PurchaseOrder.status po' = PENDING -> PurchaseOrder.status po = PENDING)
  /\ (PurchaseOrder.status po = PAID -> PurchaseOrder.status po' = PAID)
  /\ (PurchaseOrder.status po = CANCELLED -> PurchaseOrder.status po' = CANCELLED).
Proof.
  intros Hpo Hid Hrun.
  destruct (update_inr_inv _ _ _ _ _ _ Hpo Hid Hrun) as (-> & -> & Hv & _).
  split; [simpl; apply lookup_insert_eq |].
  simpl.
  destruct (UpdatePurchaseOrderDto.status updateDto) as [s |]; simpl.
  - specialize (Hv s eq_refl).
    split; [right; exact Hv |].
    destruct (PurchaseOrder.status po); simpl in Hv;
      repeat (apply elem_of_cons in Hv; destruct Hv as [-> | Hv]);
      try (apply elem_of_nil in Hv; contradiction);
      repeat split; intros; congruence.
  - split; [left; reflexivity |]. repeat split; intros H; exact H.
Qed.

(** X23: [update] never changes what is paid or owed: [paidAmount],
    [outstandingAmount], [totalAmount], [subtotal], the items, the PO
    number and the vendor of the order stay as they were, and so do the
    vendors, the payments and every other order. *)
Theorem update_keeps_amounts (d d' : Db) (id : string)
    (updateDto : UpdatePurchaseOrderDto.t) (po po' : PurchaseOrder.t) :
  purchase_orders d !! id = Some po ->
  PurchaseOrder.id po = id ->
  run (PurchaseOrdersService.update id updateDto) d = (d', inr po') ->
  PurchaseOrder.paidAmount po' = PurchaseOrder.paidAmount po
  /\ PurchaseOrder.outstandingAmount po' = PurchaseOrder.outstandingAmount po
  /\ PurchaseOrder.totalAmount po' = PurchaseOrder.totalAmount po
  /\ PurchaseOrder.subtotal po' = PurchaseOrder.subtotal po
  /\ PurchaseOrder.items po' = PurchaseOrder.items po
  /\ PurchaseOrder.poNumber po' = PurchaseOrder.poNumber po
  /\ PurchaseOrder.vendorId po' = PurchaseOrder.vendorId po
  /\ vendors d' = vendors d
  /\ payments d' = payments d
  /\ (forall k, k <> id -> purchase_orders d' !! k = purchase_orders d !! k).
Proof.
  intros Hpo Hid Hrun.
  destruct (update_inr_inv _ _ _ _ _ _ Hpo Hid Hrun) as (-> & -> & _ & _).
  simpl. repeat split; try reflexivity.
  intros k Hk. apply lookup_insert_ne. congruence.
Qed.

(** X24: a PAID or CANCELLED order is closed to [update] except for its
    notes: a request with a [status] key fails with
    [InvalidStatusTransition], one with any other key besides [notes] fails
    with [ImmutableAfterTerminal], both leaving the database as it was; a
    request with at most the [notes] key succeeds and changes at most the
    notes. *)
Theorem update_on_closed_order (d : Db) (id : string)
    (updateDto : UpdatePurchaseOrderDto.t) (po : PurchaseOrder.t) :
  purchase_orders d !! id = Some po ->
  PurchaseOrder.id po = id ->
  PurchaseOrder.status po = PAID \/ PurchaseOrder.status po = CANCELLED ->
  (is_Some (UpdatePurchaseOrderDto.status updateDto) ->
   run (PurchaseOrdersService.update id updateDto) d
   = (d, inl (BadRequestException InvalidStatusTransition)))
  /\ (UpdatePurchaseOrderDto.status updateDto = None ->
      PurchaseOrdersService.someKeyOtherThanNotes updateDto = true ->
      run (PurchaseOrdersService.update id updateDto) d
      = (d, inl (BadRequestException ImmutableAfterTerminal)))
  /\ (PurchaseOrdersService.someKeyOtherThanNotes updateDto = false ->
      exists po',
        run (PurchaseOrdersService.update id updateDto) d
        = (mkDb (vendors d) (<[id := po']> (purchase_orders d)) (payments d),
           inr po')
        /\ PurchaseOrder.notes po'
           = PurchaseOrdersService.keep (PurchaseOrder.notes po)
               (UpdatePurchaseOrderDto.notes updateDto)
        /\ PurchaseOrder.set_status (PurchaseOrder.status po) po'
           = PurchaseOrder.mk (PurchaseOrder.id po) (PurchaseOrder.poNumber po)
               (PurchaseOrder.vendorId po) (PurchaseOrder.poDate po)
               (PurchaseOrder.dueDate po) (PurchaseOrder.totalAmount po)
               (PurchaseOrder.paidAmount po) (PurchaseOrder.outstandingAmount po)
               (PurchaseOrder.subtotal po) (PurchaseOrder.status po)
               (PurchaseOrder.notes po') (PurchaseOrder.referenceNumber po)
               (PurchaseOrder.shippingAddress po) (PurchaseOrder.billingAddress po)
               (PurchaseOrder.taxAmount po) (PurchaseOrder.discountAmount po)
               (PurchaseOrder.items po)).
Proof.
  intros Hpo Hid Hclosed.
  assert (Hf := po_findOne_Some id po (mkWorld d []) Hpo).
  assert (Hterm : bool_decide (PurchaseOrder.status po = PAID)
                  || bool_decide (PurchaseOrder.status po = CANCELLED) = true).
  { destruct Hclosed as [-> | ->]; reflexivity. }
  assert (Hnone : PurchaseOrdersService.validTransitions (PurchaseOrder.status po)
                  = []).
  { destruct Hclosed as [-> | ->]; reflexivity. }
  split; [| split].
  - intros [s Hs]. apply run_eq with (pend := []).
    unfold PurchaseOrdersService.update.
    rewrite (bind_inr _ _ _ _ _ Hf), Hs.
    unfold PurchaseOrdersService.validateStatusTransition. rewrite Hnone.
    destruct (decide _) as [Hin | _]; [apply elem_of_nil in Hin; contradiction |].
    reflexivity.
  - intros Hs Hkey. apply run_eq with (pend := []).
    unfold PurchaseOrdersService.update.
    rewrite (bind_inr _ _ _ _ _ Hf), Hs.
    unfold mbind at 1, M_bind at 1. simpl.
    unfold mbind at 1, M_bind at 1. rewrite Hterm, Hkey. reflexivity.
  - intros Hkey.
    destruct updateDto as [pd nt rn sa ba ta da st dd].
    unfold PurchaseOrdersService.someKeyOtherThanNotes in Hkey. simpl in Hkey.
    destruct pd, rn, sa, ba, ta, da, st, dd; try discriminate Hkey.
    eexists. split.
    + apply run_eq with (pend := []).
      unfold PurchaseOrdersService.update.
      rewrite (bind_inr _ _ _ _ _ Hf). simpl.
      unfold mbind at 1, M_bind at 1. simpl.
      unfold mbind at 1, M_bind at 1. rewrite andb_false_r.
      PaymentFacts.run_monad.
      erewrite po_findOne_Some by (simpl; rewrite Hid; apply lookup_insert_eq).
      rewrite Hid. reflexivity.
    + simpl. split; reflexivity.
Qed.

(** X25: [update] cancels an order whatever has been paid on it: on a
    PENDING, APPROVED, PARTIALLY_PAID or OVERDUE order the request
    [{ status: CANCELLED }] succeeds and leaves the order CANCELLED with the
    [paidAmount] it had, where [cancel] refuses an order with payments. *)
Theorem update_cancels_with_payments (d : Db) (id : string)
    (po : PurchaseOrder.t) :
  purchase_orders d !! id = Some po ->
  PurchaseOrder.id po = id ->
  PurchaseOrder.status po ∈ [PENDING; APPROVED; PARTIALLY_PAID; OVERDUE] ->
  exists po',
    run (PurchaseOrdersService.update id
           (UpdatePurchaseOrderDto.mk None None None None None None None
              (Some CANCELLED) None)) d
    = (mkDb (vendors d) (<[id := po']> (purchase_orders d)) (payments d),
       inr po')
    /\ po' = PurchaseOrder.set_status CANCELLED po
    /\ PurchaseOrder.paidAmount po' = PurchaseOrder.paidAmount po.
Proof.
  intros Hpo Hid Hst.
  assert (Hf := po_findOne_Some id po (mkWorld d []) Hpo).
  assert (Hin : CANCELLED ∈ PurchaseOrdersService.validTransitions
                            (PurchaseOrder.status po)).
  { repeat (apply elem_of_cons in Hst; destruct Hst as [-> | Hst]);
      try (apply elem_of_nil in Hst; contradiction); simpl;
      repeat (first [apply list_elem_of_here | apply list_elem_of_further]). }
  assert (Hterm : bool_decide (PurchaseOrder.status po = PAID)
                  || bool_decide (PurchaseOrder.status po = CANCELLED) = false).
  { repeat (apply elem_of_cons in Hst; destruct Hst as [-> | Hst]);
      try (apply elem_of_nil in Hst; contradiction); reflexivity. }
  eexists. split; [| split; [reflexivity | reflexivity]].
  apply run_eq with (pend := []).
  unfold PurchaseOrdersService.update.
  rewrite (bind_inr _ _ _ _ _ Hf). simpl.
  unfold PurchaseOrdersService.validateStatusTransition.
  destruct (decide _) as [_ | Hn]; [| contradiction].
  unfold mbind at 1, M_bind at 1. simpl.
  unfold mbind at 1, M_bind at 1. rewrite Hterm. simpl.
  PaymentFacts.run_monad.
  erewrite po_findOne_Some by (simpl; rewrite Hid; apply lookup_insert_eq).
  rewrite Hid. destruct po; reflexivity.
Qed.

End StatusFacts.

Module CancelFacts.

Import Num NumFacts Spec.

Local Open Scope Q_scope.

Lemma cancel_inr_inv (d d' : Db) (id : string) (po po' : PurchaseOrder.t) :
  purchase_orders d !! id = Some po ->
  PurchaseOrder.id po = id ->
  Cancel.run id d = (d', inr po') ->
  PurchaseOrder.status po <> PAID
  /\ PurchaseOrder.paidAmount po <= 0
  /\ po' = PurchaseOrder.set_status CANCELLED po
  /\ d' = mkDb (vendors d) (<[id := po']> (purchase_orders d)) (payments d).
Proof.
  intros Hpo Hid. unfold Cancel.run, Cancel.cancel. simpl. rewrite Hpo.
  destruct (decide _) as [Hs | Hs]; [intros [=] |].
  destruct (Qlt_le_dec _ _) as [Hlt | Hle]; simpl; intros [= <- <-].
  rewrite Hid. repeat split; assumption.
Qed.

(** X26: [cancel] never cancels an order that is PAID or has a positive
    [paidAmount]: when it succeeds the order was not PAID and had nothing
    paid, and it comes back CANCELLED with every other column as it was;
    when it fails the database is as it was. *)
Theorem cancel_only_without_payments (d d' : Db) (id : string)
    (po : PurchaseOrder.t) (r : Cancel.Refusal + PurchaseOrder.t) :
  purchase_orders d !! id = Some po ->
  PurchaseOrder.id po = id ->
  Cancel.run id d = (d', r) ->
  match r with
  | inr po' =>
      PurchaseOrder.status po <> PAID
      /\ PurchaseOrder.paidAmount po <= 0
      /\ po' = PurchaseOrder.set_status CANCELLED po
      /\ d' = mkDb (vendors d) (<[id := po']> (purchase_orders d)) (payments d)
  | inl refusal =>
      d' = d
      /\ (refusal = Cancel.CannotCancelPaid <-> PurchaseOrder.status po = PAID)
      /\ (refusal = Cancel.CannotCancelWithPayments ->
          0 < PurchaseOrder.paidAmount po)
  end.
Proof.
  intros Hpo Hid. unfold Cancel.run, Cancel.cancel. simpl. rewrite Hpo.
  destruct (decide _) as [Hs | Hs].
  - simpl. intros [= <- <-]. split; [reflexivity |].
    split; [tauto |]. intros [=].
  - destruct (Qlt_le_dec _ _) as [Hlt | Hle]; simpl; intros [= <- <-].
    + split; [reflexivity |]. split; [| intros _; exact Hlt].
      split; [intros [=] | intros H; contradiction].
    + rewrite Hid. repeat split; assumption.
Qed.

(** X27: a cancelled order stays out of the ledger's way.  After a
    successful [cancel], recording a payment on the order is refused with
    [InvalidPoStateForPayment], adding, changing or removing an item is
    refused with [InvalidStateForMutation], the overdue sweep passes it by,
    all leaving the database as it is, and a second [cancel] returns the
    same order and changes nothing. *)
Theorem cancelled_order_is_closed (d d' : Db) (id : string)
    (po po' : PurchaseOrder.t) :
  purchase_orders d !! id = Some po ->
  PurchaseOrder.id po = id ->
  Cancel.run id d = (d', inr po') ->
  (forall env createDto,
     CreatePaymentDto.purchaseOrderId createDto = id ->
     run (PaymentsService.create env createDto) d'
     = (d', inl (BadRequestException InvalidPoStateForPayment)))
  /\ (forall env itemDto,
        run (PurchaseOrdersService.addItem env id itemDto) d'
        = (d', inl (BadRequestException InvalidStateForMutation)))
  /\ (forall itemId updateDto,
        run (PurchaseOrdersService.updateItem id itemId updateDto) d'
        = (d', inl (BadRequestException InvalidStateForMutation)))
  /\ (forall itemId,
        run (PurchaseOrdersService.removeItem id itemId) d'
        = (d', inl (BadRequestException InvalidStateForMutation)))
  /\ (forall today, PurchaseOrdersService.mark_overdue today po' = po')
  /\ Cancel.run id d' = (d', inr po').
Proof.
  intros Hpo Hid Hrun.
  destruct (cancel_inr_inv d d' id po po' Hpo Hid Hrun)
    as (Hs & Hpaid & -> & ->).
  set (po' := PurchaseOrder.set_status CANCELLED po).
  set (d' := mkDb (vendors d) (<[id := po']> (purchase_orders d)) (payments d)).
  assert (Hl : purchase_orders d' !! id = Some po') by apply lookup_insert_eq.
  assert (Hf := po_findOne_Some id po' (mkWorld d' []) Hl).
  split; [| split; [| split; [| split; [| split]]]].
  - intros env createDto <-. apply run_eq with (pend := []).
    unfold PaymentsService.create. rewrite (bind_inr _ _ _ _ _ Hf).
    reflexivity.
  - intros env itemDto. apply run_eq with (pend := []).
    unfold PurchaseOrdersService.addItem. rewrite (bind_inr _ _ _ _ _ Hf).
    reflexivity.
  - intros itemId updateDto. apply run_eq with (pend := []).
    unfold PurchaseOrdersService.updateItem. rewrite (bind_inr _ _ _ _ _ Hf).
    reflexivity.
  - intros itemId. apply run_eq with (pend := []).
    unfold PurchaseOrdersService.removeItem. rewrite (bind_inr _ _ _ _ _ Hf).
    reflexivity.
  - intros today. unfold PurchaseOrdersService.mark_overdue,
      PurchaseOrdersService.overdue_candidate. simpl.
    rewrite andb_false_r. reflexivity.
  - unfold Cancel.run, Cancel.cancel. simpl. rewrite lookup_insert_eq. simpl.
    destruct (Qlt_le_dec 0 (PurchaseOrder.paidAmount po)) as [Hlt | _]; [lra |].
    simpl. rewrite Hid, insert_insert_eq. reflexivity.
Qed.

End CancelFacts.

(** ** More on item mutations *)

Module ItemExtras.

Import Num NumFacts Spec.

Local Open Scope Q_scope.

(** What a successful item mutation did, method by method. *)
Lemma addItem_inr_inv (env : Env) (d d' : Db) (poId : string)
    (itemDto : CreatePurchaseOrderItemDto.t) (po' : PurchaseOrder.t) :
  run (PurchaseOrdersService.addItem env poId itemDto) d = (d', inr po') ->
  exists po,
    purchase_orders d !! poId = Some po
    /\ PurchaseOrdersService.editable (PurchaseOrder.status po) = true
    /\ recomputed d poId po
         (PurchaseOrdersService.save_item
            (PurchaseOrdersService.itemEntity (uuid env 0) itemDto
               (PurchaseOrdersService.calculateItemTotal itemDto))
            (PurchaseOrder.items po))
         (d', inr po').
Proof.
  intros Hrun.
  destruct (purchase_orders d !! poId) as [po |] eqn:Hpo.
  2: { exfalso. revert Hrun. unfold run, PurchaseOrdersService.addItem.
       rewrite (bind_inl _ _ _ _ _ (po_findOne_None poId (mkWorld d []) Hpo)).
       simpl. intros [=]. }
  destruct (PurchaseOrdersService.editable (PurchaseOrder.status po)) eqn:Hed.
  2: { exfalso. revert Hrun. unfold run, PurchaseOrdersService.addItem.
       rewrite (bind_inr _ _ _ _ _ (po_findOne_Some poId po (mkWorld d []) Hpo)), Hed.
       simpl. intros [=]. }
  exists po. split; [reflexivity |]. split; [assumption |].
  rewrite <- Hrun. apply ItemFacts.addItem_recomputed; assumption.
Qed.

Lemma updateItem_inr_inv (d d' : Db) (poId itemId : string)
    (updateDto : UpdatePurchaseOrderItemDto.t) (po' : PurchaseOrder.t) :
  run (PurchaseOrdersService.updateItem poId itemId updateDto) d = (d', inr po') ->
  exists po item,
    purchase_orders d !! poId = Some po
    /\ PurchaseOrdersService.editable (PurchaseOrder.status po) = true
    /\ PurchaseOrdersService.find_item itemId (PurchaseOrder.items po) = Some item
    /\ recomputed d poId po
         (PurchaseOrdersService.save_item
            (PurchaseOrdersService.assign_item item updateDto)
            (PurchaseOrder.items po))
         (d', inr po').
Proof.
  intros Hrun.
  destruct (purchase_orders d !! poId) as [po |] eqn:Hpo.
  2: { exfalso. revert Hrun. unfold run, PurchaseOrdersService.updateItem.
       rewrite (bind_inl _ _ _ _ _ (po_findOne_None poId (mkWorld d []) Hpo)).
       simpl. intros [=]. }
  assert (Hf := po_findOne_Some poId po (mkWorld d []) Hpo).
  destruct (PurchaseOrdersService.editable (PurchaseOrder.status po)) eqn:Hed.
  2: { exfalso. revert Hrun. unfold run, PurchaseOrdersService.updateItem.
       rewrite (bind_inr _ _ _ _ _ Hf), Hed. simpl. intros [=]. }
  destruct (PurchaseOrdersService.find_item itemId (PurchaseOrder.items po))
    as [item |] eqn:Hitem.
  2: { exfalso. revert Hrun. unfold run, PurchaseOrdersService.updateItem.
       rewrite (bind_inr _ _ _ _ _ Hf), Hed, Hitem. simpl. intros [=]. }
  exists po, item. repeat (split; [first [reflexivity | assumption] |]).
  rewrite <- Hrun. apply ItemFacts.updateItem_recomputed; assumption.
Qed.

Lemma removeItem_inr_inv (d d' : Db) (poId itemId : string)
    (po' : PurchaseOrder.t) :
  run (PurchaseOrdersService.removeItem poId itemId) d = (d', inr po') ->
  exists po item,
    purchase_orders d !! poId = Some po
    /\ PurchaseOrdersService.editable (PurchaseOrder.status po) = true
    /\ (1 < length (PurchaseOrder.items po))%nat
    /\ PurchaseOrdersService.find_item itemId (PurchaseOrder.items po) = Some item
    /\ recomputed d poId po
         (PurchaseOrdersService.remove_item item (PurchaseOrder.items po))
         (d', inr po').
Proof.
  intros Hrun.
  destruct (purchase_orders d !! poId) as [po |] eqn:Hpo.
  2: { exfalso. revert Hrun. unfold run, PurchaseOrdersService.removeItem.
       rewrite (bind_inl _ _ _ _ _ (po_findOne_None poId (mkWorld d []) Hpo)).
       simpl. intros [=]. }
  assert (Hf := po_findOne_Some poId po (mkWorld d []) Hpo).
  destruct (PurchaseOrdersService.editable (PurchaseOrder.status po)) eqn:Hed.
  2: { exfalso. revert Hrun. unfold run, PurchaseOrdersService.removeItem.
       rewrite (bind_inr _ _ _ _ _ Hf), Hed. simpl. intros [=]. }
  destruct (Nat.leb_spec (length (PurchaseOrder.items po)) 1) as [Hlen | Hlen].
  { exfalso. revert Hrun. unfold run, PurchaseOrdersService.removeItem.
    rewrite (bind_inr _ _ _ _ _ Hf), Hed.
    destruct (Nat.leb_spec (length (PurchaseOrder.items po)) 1); [| lia].
    simpl. intros [=]. }
  destruct (PurchaseOrdersService.find_item itemId (PurchaseOrder.items po))
    as [item |] eqn:Hitem.
  2: { exfalso. revert Hrun. unfold run, PurchaseOrdersService.removeItem.
       rewrite (bind_inr _ _ _ _ _ Hf), Hed, Hitem.
       destruct (Nat.leb_spec (length (PurchaseOrder.items po)) 1); [lia |].
       simpl. intros [=]. }
  exists po, item. repeat (split; [first [reflexivity | assumption] |]).
  rewrite <- Hrun. apply ItemFacts.removeItem_recomputed; assumption.
Qed.

(** X14: item mutations keep the ledger invariant.  After a successful
    [addItem], [updateItem] or [removeItem] on an order whose items then all
    have unit prices with two decimals,
    [paidAmount + outstandingAmount = totalAmount] and
    [totalAmount = subtotal - discountAmount + taxAmount] hold within 0.01. *)
Theorem item_mutations_keep_invariant (env : Env) (d d' : Db) (poId : string)
    (po' : PurchaseOrder.t) :
  Forall (fun i => two_decimals (PurchaseOrderItem.unitPrice i))
         (PurchaseOrder.items po') ->
  (forall itemDto,
     run (PurchaseOrdersService.addItem env poId itemDto) d = (d', inr po') ->
     ledger_invariant po')
  /\ (forall itemId updateDto,
        run (PurchaseOrdersService.updateItem poId itemId updateDto) d
        = (d', inr po') ->
        ledger_invariant po')
  /\ (forall itemId,
        run (PurchaseOrdersService.removeItem poId itemId) d = (d', inr po') ->
        ledger_invariant po').
Proof.
  intros Hprices.
  assert (Hall : forall po l',
            recomputed d poId po l' (d', inr po') -> ledger_invariant po').
  { intros po l' Hrec.
    eapply (InvariantFacts.recomputed_invariant d d' poId po po' l');
      [exact Hrec | | reflexivity].
    destruct Hrec as (po1 & [= _ <-] & <- & _). exact Hprices. }
  split; [| split].
  - intros itemDto Hrun.
    destruct (addItem_inr_inv _ _ _ _ _ _ Hrun) as (po & _ & _ & Hrec). eauto.
  - intros itemId updateDto Hrun.
    destruct (updateItem_inr_inv _ _ _ _ _ _ Hrun) as (po & item & _ & _ & _ & Hrec).
    eauto.
  - intros itemId Hrun.
    destruct (removeItem_inr_inv _ _ _ _ _ Hrun) as (po & item & _ & _ & _ & _ & Hrec).
    eauto.
Qed.

Lemma plausible_item_amounts (i : PurchaseOrderItem.t) :
  Ledger.plausible_item i ->
  0 <= itemSubtotal i
  /\ 0 <= itemDiscount i
  /\ itemDiscount i <= itemSubtotal i
  /\ 0 <= itemTax i.
Proof.
  intros (Hq & Hp & Hd0 & Hd1 & Ht).
  unfold itemTax, itemDiscount, itemSubtotal.
  rewrite Zle_Qle in Hq. change (inject_Z 0) with 0 in Hq.
  set (q := inject_Z (PurchaseOrderItem.quantity i)) in *.
  set (p := PurchaseOrderItem.unitPrice i) in *.
  assert (Hs : 0 <= q * p) by (apply Qmult_le_0_compat; assumption).
  set (s := q * p) in *.
  assert (Hr0 : 0 <= PurchaseOrderItem.discountPercent i / 100) by qlra.
  assert (Hr1 : 0 <= 1 - PurchaseOrderItem.discountPercent i / 100) by qlra.
  assert (Ht0 : 0 <= PurchaseOrderItem.taxRate i / 100) by qlra.
  set (r := PurchaseOrderItem.discountPercent i / 100) in *.
  set (t := PurchaseOrderItem.taxRate i / 100) in *.
  assert (H1 : 0 <= s * r) by (apply Qmult_le_0_compat; assumption).
  assert (H2 : 0 <= s * (1 - r)) by (apply Qmult_le_0_compat; assumption).
  assert (E : s * (1 - r) == s - s * r) by ring.
  rewrite E in H2.
  assert (H3 : 0 <= (s - s * r) * t) by (apply Qmult_le_0_compat; assumption).
  repeat split; lra.
Qed.

Lemma plausible_sums (l : list PurchaseOrderItem.t) :
  Forall Ledger.plausible_item l ->
  0 <= sum itemSubtotal l
  /\ 0 <= sum itemDiscount l
  /\ sum itemDiscount l <= sum itemSubtotal l
  /\ 0 <= sum itemTax l.
Proof.
  induction 1 as [| i l Hi _ IH]; simpl.
  - repeat split; lra.
  - destruct (plausible_item_amounts i Hi) as (H1 & H2 & H3 & H4).
    destruct IH as (I1 & I2 & I3 & I4). repeat split; lra.
Qed.

(** X15: with plausible items nothing comes out negative.  After a
    successful [addItem], [updateItem] or [removeItem] that leaves the order
    with items of non-negative quantity, price and tax rate and a discount
    between 0 and 100 percent, [subtotal], [taxAmount], [discountAmount] and
    [totalAmount] are not negative, and neither is [outstandingAmount] when
    nothing has been paid. *)
Theorem item_mutations_keep_amounts_nonnegative (env : Env) (d d' : Db)
    (poId : string) (po' : PurchaseOrder.t) :
  Forall Ledger.plausible_item (PurchaseOrder.items po') ->
  let nonnegative :=
    0 <= PurchaseOrder.subtotal po'
    /\ 0 <= PurchaseOrder.taxAmount po'
    /\ 0 <= PurchaseOrder.discountAmount po'
    /\ 0 <= PurchaseOrder.totalAmount po'
    /\ (PurchaseOrder.paidAmount po' <= 0 ->
        0 <= PurchaseOrder.outstandingAmount po') in
  (forall itemDto,
     run (PurchaseOrdersService.addItem env poId itemDto) d = (d', inr po') ->
     nonnegative)
  /\ (forall itemId updateDto,
        run (PurchaseOrdersService.updateItem poId itemId updateDto) d
        = (d', inr po') ->
        nonnegative)
  /\ (forall itemId,
        run (PurchaseOrdersService.removeItem poId itemId) d = (d', inr po') ->
        nonnegative).
Proof.
  intros Hplausible nonnegative.
  assert (Hall : forall po l',
            recomputed d poId po l' (d', inr po') -> nonnegative).
  { intros po l' (po1 & [= _ <-] & <- & Hs & Ht & Hd & Htot & Hout & Hpaid & _).
    destruct (plausible_sums _ Hplausible) as (S1 & S2 & S3 & S4).
    unfold nonnegative. rewrite Hs, Ht, Hd, Htot, Hout, Hpaid.
    repeat split; try (apply toFixed2_sign_nonneg; lra).
    intros Hp. apply toFixed2_sign_nonneg. lra. }
  split; [| split].
  - intros itemDto Hrun.
    destruct (addItem_inr_inv _ _ _ _ _ _ Hrun) as (po & _ & _ & Hrec). eauto.
  - intros itemId updateDto Hrun.
    destruct (updateItem_inr_inv _ _ _ _ _ _ Hrun) as (po & item & _ & _ & _ & Hrec).
    eauto.
  - intros itemId Hrun.
    destruct (removeItem_inr_inv _ _ _ _ _ Hrun) as (po & item & _ & _ & _ & _ & Hrec).
    eauto.
Qed.

Lemma find_item_id (itemId : string) (l : list PurchaseOrderItem.t)
    (item : PurchaseOrderItem.t) :
  PurchaseOrdersService.find_item itemId l = Some item ->
  PurchaseOrderItem.id item = itemId /\ item ∈ l.
Proof.
  intros H. apply find_some in H. destruct H as [Hin Hid].
  apply bool_decide_eq_true in Hid. split; [exact Hid |].
  apply list_elem_of_In. exact Hin.
Qed.


Lemma remove_item_absent (item : PurchaseOrderItem.t)
    (l : list PurchaseOrderItem.t) :
  PurchaseOrderItem.id item ∉ Ledger.item_ids l ->
  PurchaseOrdersService.remove_item item l = l.
Proof.
  induction l as [| a l IH]; intros Hnot; [reflexivity |].
  unfold Ledger.item_ids in Hnot. rewrite fmap_cons in Hnot.
  apply not_elem_of_cons in Hnot. destruct Hnot as [Hne Hnot].
  simpl. rewrite bool_decide_eq_false_2 by congruence. simpl.
  f_equal. apply IH. exact Hnot.
Qed.

Lemma remove_item_length (itemId : string) (item : PurchaseOrderItem.t)
    (l : list PurchaseOrderItem.t) :
  NoDup (Ledger.item_ids l) ->
  PurchaseOrdersService.find_item itemId l = Some item ->
  S (length (PurchaseOrdersService.remove_item item l)) = length l
  /\ itemId ∉ Ledger.item_ids (PurchaseOrdersService.remove_item item l).
Proof.
  induction l as [| a l IH]; intros Hnd Hfind; [discriminate |].
  unfold Ledger.item_ids in Hnd. rewrite fmap_cons in Hnd.
  apply NoDup_cons in Hnd. destruct Hnd as [Ha Hnd].
  unfold PurchaseOrdersService.find_item in Hfind. simpl in Hfind.
  destruct (bool_decide (PurchaseOrderItem.id a = itemId)) eqn:E.
  - injection Hfind as <-. apply bool_decide_eq_true in E. subst itemId.
    simpl. rewrite bool_decide_eq_true_2 by reflexivity. simpl.
    rewrite (remove_item_absent a l Ha). split; [reflexivity | exact Ha].
  - apply bool_decide_eq_false in E.
    destruct (find_item_id itemId l item Hfind) as [Hid _].
    simpl. rewrite bool_decide_eq_false_2 by congruence. simpl.
    destruct (IH Hnd Hfind) as [Hlen Hnot].
    split; [f_equal; exact Hlen |].
    change (itemId ∉ PurchaseOrderItem.id a
                     :: Ledger.item_ids (PurchaseOrdersService.remove_item item l)).
    apply not_elem_of_cons. split; [congruence | exact Hnot].
Qed.

(** X16: an order never loses its last item.  On an order whose item rows
    have distinct ids, a successful [removeItem] takes away exactly the row
    asked for and leaves at least one item; on a PENDING or APPROVED order
    with a single item it is refused with [LastItemRemovalForbidden] and
    the database is as it was. *)
Theorem removeItem_keeps_an_item (d : Db) (poId itemId : string)
    (po : PurchaseOrder.t) :
  purchase_orders d !! poId = Some po ->
  NoDup (Ledger.item_ids (PurchaseOrder.items po)) ->
  (forall d' po',
     run (PurchaseOrdersService.removeItem poId itemId) d = (d', inr po') ->
     S (length (PurchaseOrder.items po')) = length (PurchaseOrder.items po)
     /\ PurchaseOrder.items po' <> []
     /\ itemId ∉ Ledger.item_ids (PurchaseOrder.items po'))
  /\ (PurchaseOrdersService.editable (PurchaseOrder.status po) = true ->
      (length (PurchaseOrder.items po) <= 1)%nat ->
      run (PurchaseOrdersService.removeItem poId itemId) d
      = (d, inl (BadRequestException LastItemRemovalForbidden))).
Proof.
  intros Hpo Hnd. split.
  - intros d' po' Hrun.
    destruct (removeItem_inr_inv _ _ _ _ _ Hrun)
      as (po0 & item & Hpo0 & _ & Hlen & Hfind & po1 & [= _ <-] & Hitems & _).
    rewrite Hpo in Hpo0. injection Hpo0 as <-.
    destruct (remove_item_length itemId item _ Hnd Hfind) as [Hl Hnot].
    rewrite Hitems. split; [exact Hl |]. split; [| exact Hnot].
    intros Hnil. rewrite Hnil in Hl. simpl in Hl. lia.
  - intros Hed Hlen. apply run_eq with (pend := []).
    unfold PurchaseOrdersService.removeItem.
    rewrite (bind_inr _ _ _ _ _ (po_findOne_Some poId po (mkWorld d []) Hpo)), Hed.
    simpl. destruct (Nat.leb_spec (length (PurchaseOrder.items po)) 1); [| lia].
    reflexivity.
Qed.





End ItemExtras.

(** ** Creating orders and payments: numbers stay unique, items are priced *)

Module CreateExtras.

Import Num NumFacts Spec Ledger.

Local Open Scope Q_scope.

(** What a successful [PurchaseOrdersService.create] did. *)
Lemma order_create_inr_inv (env : Env) (d d' : Db)
    (createDto : CreatePurchaseOrderDto.t) (po : PurchaseOrder.t) :
  run (PurchaseOrdersService.create env createDto) d = (d', inr po) ->
  PurchaseOrder.id po = uuid env 0
  /\ PurchaseOrder.items po
     = PurchaseOrdersService.itemEntities
         (PurchaseOrdersService.create_loop env
            (CreatePurchaseOrderDto.items createDto))
  /\ PurchaseOrdersService.poNumber_taken po d = false
  /\ d' = mkDb (vendors d) (<[uuid env 0 := po]> (purchase_orders d))
               (payments d).
Proof.
  unfold run.
  destruct (PurchaseOrdersService.create env createDto (mkWorld d []))
    as [w r] eqn:E.
  simpl. intros [= <- ->]. revert E.
  unfold PurchaseOrdersService.create.
  unfold mbind at 1, M_bind at 1, read at 1. simpl.
  destruct (vendors d !! CreatePurchaseOrderDto.vendorId createDto) as [vendor |];
    [| intros [=]].
  destruct (decide _) as [? | _]; [intros [=] |].
  repeat (unfold try_catch, startTransaction, mbind, M_bind, read, mret, M_ret,
            throw, rollbackTransaction, manager_write, commitTransaction,
            PurchaseOrdersService.generatePoNumber,
            PurchaseOrdersService.manager_save; simpl).
  destruct (PurchaseOrdersService.poNumber_taken _ _) eqn:Htaken; simpl;
    [intros [=] |].
  erewrite po_findOne_Some by (simpl; apply lookup_insert_eq).
  simpl. intros [= <- <-].
  split; [reflexivity |]. split; [reflexivity |].
  split; [exact Htaken | reflexivity].
Qed.

Lemma intColumn_whole (q : Q) (n : Z) :
  q == inject_Z n -> intColumn q = n.
Proof.
  intros H. unfold intColumn.
  destruct (Qlt_le_dec q 0) as [Hneg | Hpos].
  - assert (E : - q + (1 # 2) == inject_Z (- n) + (1 # 2))
      by (rewrite H, inject_Z_opp; reflexivity).
    rewrite E, Qfloor_shift_half. lia.
  - assert (E : q + (1 # 2) == inject_Z n + (1 # 2))
      by (rewrite H; reflexivity).
    rewrite E. apply Qfloor_shift_half.
Qed.

Lemma rounded_exact (exact exact' stored : Q) :
  exact == exact' -> rounded exact stored -> rounded exact' stored.
Proof.
  intros E [H1 H2]. split; [exact H1 |]. rewrite <- E. exact H2.
Qed.

Lemma itemEntity_priced (id : string) (itemDto : CreatePurchaseOrderItemDto.t) :
  whole (CreatePurchaseOrderItemDto.quantity itemDto) ->
  item_priced
    (PurchaseOrdersService.itemEntity id itemDto
       (PurchaseOrdersService.calculateItemTotal itemDto)).
Proof.
  intros [n Hn]. unfold item_priced, PurchaseOrdersService.itemEntity.
  eapply rounded_exact; [| apply CreateFacts.rounded_toFixed2; reflexivity].
  unfold itemTax, itemDiscount, itemSubtotal. simpl.
  rewrite (intColumn_whole _ n Hn), Hn. reflexivity.
Qed.

Lemma assign_item_priced (item : PurchaseOrderItem.t)
    (updateDto : UpdatePurchaseOrderItemDto.t) :
  (forall q, UpdatePurchaseOrderItemDto.quantity updateDto = Some q -> whole q) ->
  item_priced (PurchaseOrdersService.assign_item item updateDto).
Proof.
  intros Hq.
  assert (Hw : whole (default (inject_Z (PurchaseOrderItem.quantity item))
                        (UpdatePurchaseOrderItemDto.quantity updateDto))).
  { destruct (UpdatePurchaseOrderItemDto.quantity updateDto) as [q |];
      [apply Hq; reflexivity | eexists; reflexivity]. }
  destruct Hw as [n Hn].
  unfold item_priced, PurchaseOrdersService.assign_item.
  eapply rounded_exact; [| apply CreateFacts.rounded_toFixed2; reflexivity].
  unfold itemTax, itemDiscount, itemSubtotal. simpl.
  rewrite (intColumn_whole _ n Hn), Hn. reflexivity.
Qed.

Lemma create_loop_priced (env : Env) (dtos : list CreatePurchaseOrderItemDto.t)
    (st : PurchaseOrdersService.CreateLoop) :
  Forall (fun i => whole (CreatePurchaseOrderItemDto.quantity i)) dtos ->
  Forall item_priced (PurchaseOrdersService.itemEntities st) ->
  Forall item_priced
    (PurchaseOrdersService.itemEntities
       (foldl (PurchaseOrdersService.create_step env) st dtos)).
Proof.
  intros Hw. revert st.
  induction Hw as [| i dtos Hi _ IH]; intros st Hst; [exact Hst |].
  simpl. apply IH. simpl. apply Forall_app. split; [exact Hst |].
  apply Forall_cons. split; [| apply Forall_nil; exact I].
  apply (itemEntity_priced _ i Hi).
Qed.

Lemma save_item_Forall (P : PurchaseOrderItem.t -> Prop)
    (item : PurchaseOrderItem.t) (l : list PurchaseOrderItem.t) :
  P item -> Forall P l -> Forall P (PurchaseOrdersService.save_item item l).
Proof.
  intros Hi Hl. unfold PurchaseOrdersService.save_item.
  destruct (bool_decide _).
  - apply Forall_fmap. eapply Forall_impl; [exact Hl |].
    intros x Hx. simpl. destruct (bool_decide _); assumption.
  - apply Forall_app. split; [exact Hl |].
    apply Forall_cons. split; [exact Hi | apply Forall_nil; exact I].
Qed.

Lemma remove_item_Forall (P : PurchaseOrderItem.t -> Prop)
    (item : PurchaseOrderItem.t) (l : list PurchaseOrderItem.t) :
  Forall P l -> Forall P (PurchaseOrdersService.remove_item item l).
Proof.
  intros Hl. rewrite Forall_forall in *. intros x Hx. apply Hl.
  apply list_elem_of_In in Hx. apply list_elem_of_In.
  unfold PurchaseOrdersService.remove_item in Hx.
  apply filter_In in Hx. tauto.
Qed.

(** X18: item rows carry the price of their own fields.  When the
    quantities of the requests are whole numbers, the items of an order that
    [create] returns have as [totalPrice] the price
    [quantity * unitPrice - discount + tax] of their own columns as a column
    with two decimals keeps it, and [addItem], [updateItem] and [removeItem]
    keep this true of all the items of the order they return.  (A quantity
    that is not whole is priced as requested and stored rounded.) *)
Theorem item_rows_stay_priced (env : Env) (d d' : Db) (po' : PurchaseOrder.t) :
  (forall createDto,
     Forall (fun i => whole (CreatePurchaseOrderItemDto.quantity i))
            (CreatePurchaseOrderDto.items createDto) ->
     run (PurchaseOrdersService.create env createDto) d = (d', inr po') ->
     Forall item_priced (PurchaseOrder.items po'))
  /\ (forall poId po,
        purchase_orders d !! poId = Some po ->
        Forall item_priced (PurchaseOrder.items po) ->
        (forall itemDto,
           whole (CreatePurchaseOrderItemDto.quantity itemDto) ->
           run (PurchaseOrdersService.addItem env poId itemDto) d
           = (d', inr po') ->
           Forall item_priced (PurchaseOrder.items po'))
        /\ (forall itemId updateDto,
              (forall q, UpdatePurchaseOrderItemDto.quantity updateDto = Some q ->
                         whole q) ->
              run (PurchaseOrdersService.updateItem poId itemId updateDto) d
              = (d', inr po') ->
              Forall item_priced (PurchaseOrder.items po'))
        /\ (forall itemId,
              run (PurchaseOrdersService.removeItem poId itemId) d
              = (d', inr po') ->
              Forall item_priced (PurchaseOrder.items po'))).
Proof.
  split.
  - intros createDto Hw Hrun.
    destruct (order_create_inr_inv _ _ _ _ _ Hrun) as (_ & -> & _).
    apply create_loop_priced; [exact Hw | apply Forall_nil; exact I].
  - intros poId po Hpo Hpriced. split; [| split].
    + intros itemDto Hw Hrun.
      destruct (ItemExtras.addItem_inr_inv _ _ _ _ _ _ Hrun)
        as (po0 & Hpo0 & _ & po1 & [= _ <-] & -> & _).
      rewrite Hpo in Hpo0. injection Hpo0 as <-.
      apply save_item_Forall; [apply itemEntity_priced; exact Hw | exact Hpriced].
    + intros itemId updateDto Hw Hrun.
      destruct (ItemExtras.updateItem_inr_inv _ _ _ _ _ _ Hrun)
        as (po0 & item & Hpo0 & _ & _ & po1 & [= _ <-] & -> & _).
      rewrite Hpo in Hpo0. injection Hpo0 as <-.
      apply save_item_Forall; [apply assign_item_priced; exact Hw | exact Hpriced].
    + intros itemId Hrun.
      destruct (ItemExtras.removeItem_inr_inv _ _ _ _ _ Hrun)
        as (po0 & item & Hpo0 & _ & _ & _ & po1 & [= _ <-] & -> & _).
      rewrite Hpo in Hpo0. injection Hpo0 as <-.
      apply remove_item_Forall. exact Hpriced.
Qed.

(** X19: PO numbers stay unique.  In a database whose rows sit under their
    ids and where no two orders share a PO number, a successful [create]
    leaves a database of which both are still true: the [unique] column
    lets the new row in only when no other row has its number. *)
Theorem create_keeps_poNumbers_unique (env : Env) (d d' : Db)
    (createDto : CreatePurchaseOrderDto.t) (po : PurchaseOrder.t) :
  keyed_by_id d ->
  unique_poNumbers d ->
  run (PurchaseOrdersService.create env createDto) d = (d', inr po) ->
  keyed_by_id d' /\ unique_poNumbers d'.
Proof.
  intros [Hk1 Hk2] Hu Hrun.
  destruct (order_create_inr_inv _ _ _ _ _ Hrun) as (Hid & _ & Htaken & ->).
  assert (Hother : forall k o,
            purchase_orders d !! k = Some o ->
            PurchaseOrder.poNumber o = PurchaseOrder.poNumber po ->
            k = uuid env 0).
  { intros k o Ho Hn.
    unfold PurchaseOrdersService.poNumber_taken in Htaken.
    destruct (decide (k = uuid env 0)) as [-> | Hne]; [reflexivity |].
    exfalso.
    assert (Hex : existsb
              (fun o0 =>
                 bool_decide (PurchaseOrder.poNumber o0 = PurchaseOrder.poNumber po)
                 && negb (bool_decide (PurchaseOrder.id o0 = PurchaseOrder.id po)))
              (map_to_list (purchase_orders d)).*2 = true).
    { apply existsb_exists. exists o. split.
      - apply list_elem_of_In.
        apply (list_elem_of_fmap_2 snd _ (k, o)).
        apply elem_of_map_to_list. exact Ho.
      - rewrite bool_decide_eq_true_2 by exact Hn.
        rewrite bool_decide_eq_false_2; [reflexivity |].
        rewrite (Hk1 k o Ho), Hid. exact Hne. }
    rewrite Hex in Htaken. discriminate. }
  split; [split |]; simpl.
  - intros k o. destruct (decide (k = uuid env 0)) as [-> | Hne].
    + rewrite lookup_insert_eq. intros [= <-]. exact Hid.
    + rewrite lookup_insert_ne by congruence. apply Hk1.
  - exact Hk2.
  - intros k1 k2 o1 o2. simpl.
    destruct (decide (k1 = uuid env 0)) as [-> | Hne1];
      destruct (decide (k2 = uuid env 0)) as [-> | Hne2];
      rewrite ?lookup_insert_eq, ?lookup_insert_ne by congruence.
    + reflexivity.
    + intros [= <-] Ho2 Hn. symmetry. apply (Hother k2 o2 Ho2). congruence.
    + intros Ho1 [= <-] Hn. apply (Hother k1 o1 Ho1). congruence.
    + apply Hu.
Qed.

(** A payment that [PaymentsService.create] stored passed the [unique]
    check of its reference. *)
Lemma payment_create_reference_free (env : Env) (d d' : Db)
    (createDto : CreatePaymentDto.t) (p : Payment.t) :
  run (PaymentsService.create env createDto) d = (d', inr p) ->
  exists po,
    purchase_orders d !! CreatePaymentDto.purchaseOrderId createDto = Some po
    /\ PaymentsService.paymentReference_taken p d = false.
Proof.
  unfold run, PaymentsService.create.
  destruct (purchase_orders d !! CreatePaymentDto.purchaseOrderId createDto)
    as [po |] eqn:Hpo.
  2:{ rewrite (bind_inl _ _ _ _ _ (po_findOne_None _ (mkWorld d []) Hpo)).
      intros [=]. }
  rewrite (bind_inr _ _ _ _ _ (po_findOne_Some _ _ (mkWorld d []) Hpo)).
  destruct (decide _) as [?|Hs1]; [intros [=]|].
  destruct (decide _) as [?|Hs2]; [intros [=]|].
  destruct (decide _) as [?|Hs3]; [intros [=]|].
  destruct (Qlt_le_dec _ _) as [?|Hle];
    [PaymentFacts.run_monad; destruct (decimals env); intros [=] |].
  unfold PurchaseOrdersService.updatePaymentAmounts,
    PurchaseOrdersService.findOne, PaymentsService.findOne.
  PaymentFacts.run_monad.
  destruct (purchase_orders d !! PurchaseOrder.id po) as [po1 |] eqn:Hpo1;
    repeat (PaymentFacts.split_env; PaymentFacts.run_monad; rewrite ?Hpo1;
            PaymentFacts.run_monad);
    rewrite ?lookup_insert_eq; PaymentFacts.run_monad;
    try (intros [=]; fail).
  all: intros [= <- <-]; exists po; split; [reflexivity | congruence].
Qed.

(** X20: payment references stay unique.  In a database whose rows sit
    under their ids and where no two payments share a reference, a
    successful [PaymentsService.create] leaves a database of which both are
    still true. *)
Theorem create_keeps_paymentReferences_unique (env : Env) (d d' : Db)
    (createDto : CreatePaymentDto.t) (p : Payment.t) :
  keyed_by_id d ->
  unique_paymentReferences d ->
  run (PaymentsService.create env createDto) d = (d', inr p) ->
  keyed_by_id d' /\ unique_paymentReferences d'.
Proof.
  intros [Hk1 Hk2] Hu Hrun.
  destruct (payment_create_reference_free _ _ _ _ _ Hrun) as (po & Hpo & Htaken).
  pose proof (Hk1 _ _ Hpo) as Hpoid.
  destruct (PaymentFacts.create_inr_inv _ _ _ _ _ _ Hpo Hpoid Hrun)
    as (_ & _ & _ & Hid & _ & _ & _ & ->).
  assert (Hother : forall k o,
            payments d !! k = Some o ->
            Payment.paymentReference o = Payment.paymentReference p ->
            k = uuid env 0).
  { intros k o Ho Hn.
    unfold PaymentsService.paymentReference_taken in Htaken.
    destruct (decide (k = uuid env 0)) as [-> | Hne]; [reflexivity |].
    exfalso.
    assert (Hex : existsb
              (fun o0 =>
                 bool_decide (Payment.paymentReference o0
                              = Payment.paymentReference p)
                 && negb (bool_decide (Payment.id o0 = Payment.id p)))
              (map_to_list (payments d)).*2 = true).
    { apply existsb_exists. exists o. split.
      - apply list_elem_of_In.
        apply (list_elem_of_fmap_2 snd _ (k, o)).
        apply elem_of_map_to_list. exact Ho.
      - rewrite bool_decide_eq_true_2 by exact Hn.
        rewrite bool_decide_eq_false_2; [reflexivity |].
        rewrite (Hk2 k o Ho), Hid. exact Hne. }
    rewrite Hex in Htaken. discriminate. }
  split; [split |]; simpl.
  - intros k o.
    destruct (decide (k = PurchaseOrder.id po)) as [-> | Hne].
    + rewrite lookup_insert_eq. intros [= <-]. reflexivity.
    + rewrite lookup_insert_ne by congruence. apply Hk1.
  - intros k o. destruct (decide (k = uuid env 0)) as [-> | Hne].
    + rewrite lookup_insert_eq. intros [= <-]. exact Hid.
    + rewrite lookup_insert_ne by congruence. apply Hk2.
  - intros k1 k2 o1 o2. simpl.
    destruct (decide (k1 = uuid env 0)) as [-> | Hne1];
      destruct (decide (k2 = uuid env 0)) as [-> | Hne2];
      rewrite ?lookup_insert_eq, ?lookup_insert_ne by congruence.
    + reflexivity.
    + intros [= <-] Ho2 Hn. symmetry. apply (Hother k2 o2 Ho2). congruence.
    + intros Ho1 [= <-] Hn. apply (Hother k1 o1 Ho1). congruence.
    + apply Hu.
Qed.

Lemma latest_None (prefix : string) (column : list string) :
  Forall (fun r => String.prefix prefix r = false) column ->
  Reference.latest prefix column = None.
Proof.
  induction 1 as [| r column Hr _ IH]; [reflexivity |].
  simpl. rewrite Hr. exact IH.
Qed.

(** X21: the first number of a day ends in 001.  When no stored PO number
    (payment reference) starts with today's prefix, [generatePoNumber]
    returns [PO-<date>-001] and [generatePaymentReference] returns
    [PAY-<date>-001], and neither touches the database. *)
Theorem first_reference_of_day (env : Env) (w : World) :
  (Forall (fun r => String.prefix ("PO-" +:+ isoDate env) r = false)
          (PurchaseOrdersService.poNumbers (db w)) ->
   PurchaseOrdersService.generatePoNumber env w
   = (w, inr ("PO-" +:+ isoDate env +:+ "-001")))
  /\ (Forall (fun r => String.prefix ("PAY-" +:+ isoDate env) r = false)
             (PaymentsService.paymentReferences (db w)) ->
      PaymentsService.generatePaymentReference env w
      = (w, inr ("PAY-" +:+ isoDate env +:+ "-001"))).
Proof.
  split; intros Hnone.
  - rewrite generatePoNumber_returns. unfold Reference.generate.
    change ("PO" +:+ "-" +:+ isoDate env) with ("PO-" +:+ isoDate env).
    rewrite (latest_None _ _ Hnone). reflexivity.
  - rewrite generatePaymentReference_returns. unfold Reference.generate.
    change ("PAY" +:+ "-" +:+ isoDate env) with ("PAY-" +:+ isoDate env).
    rewrite (latest_None _ _ Hnone). reflexivity.
Qed.

End CreateExtras.

(** ** The further properties on the concrete ledgers *)

Module ExtraInstances.

Import Num NumFacts Spec Ledger Scenario.

Local Open Scope Q_scope.

Ltac the_row H :=
  cbn [purchase_orders payments vendors] in H;
  apply lookup_singleton_Some in H; destruct H as [<- <-].

Lemma db_partially_paid_keyed : keyed_by_id db_partially_paid.
Proof.
  split; intros k x Hk; unfold db_partially_paid in Hk; the_row Hk; reflexivity.
Qed.

Lemma db_partially_paid_consistent : consistent db_partially_paid.
Proof.
  intros k po Hk. unfold db_partially_paid in Hk. the_row Hk.
  vm_compute; reflexivity.
Qed.

Lemma db_partially_paid_valid : valid_amounts db_partially_paid.
Proof.
  intros k p Hk. unfold db_partially_paid in Hk. the_row Hk.
  split; [vm_compute; discriminate | exists 500000%Z; vm_compute; reflexivity].
Qed.

Lemma po_approved_invariant : ledger_invariant po_approved.
Proof. split; vm_compute; discriminate. Qed.

Lemma po_partially_paid_invariant : ledger_invariant po_partially_paid.
Proof. split; vm_compute; discriminate. Qed.

Lemma create_keeps_paid_within_total_witness :
  exists po',
    purchase_orders db_fully_paid !! "po-0" = Some po'
    /\ PurchaseOrder.paidAmount po' <= PurchaseOrder.totalAmount po'
    /\ 0 <= PurchaseOrder.outstandingAmount po'
    /\ PurchaseOrder.totalAmount po' = 11800.
Proof.
  apply (PaymentExtras.create_keeps_paid_within_total env_pay2 db_partially_paid
           db_fully_paid pay6800 po_partially_paid payment6800).
  - vm_compute; reflexivity.
  - reflexivity.
  - vm_compute; reflexivity.
Defined.

Lemma create_leaves_the_rest_witness :
  vendors db_fully_paid = vendors db_partially_paid
  /\ payments db_fully_paid !! "pay-0" = Some payment5000
  /\ payments db_fully_paid !! "pay2-0" = Some payment6800.
Proof.
  destruct (PaymentExtras.create_leaves_the_rest env_pay2 db_partially_paid
              db_fully_paid pay6800 po_partially_paid payment6800)
    as (Hv & _ & Hold & Hnew & _).
  - vm_compute; reflexivity.
  - reflexivity.
  - vm_compute; reflexivity.
  - vm_compute; reflexivity.
  - split; [exact Hv |]. split; [| exact Hnew].
    apply Hold. vm_compute; reflexivity.
Defined.


Lemma create_keeps_consistent_witness : consistent db_fully_paid.
Proof.
  apply (LedgerFacts.create_keeps_consistent env_pay2 db_partially_paid
           db_fully_paid pay6800 po_partially_paid payment6800).
  - vm_compute; reflexivity.
  - reflexivity.
  - vm_compute; reflexivity.
  - exists 680000%Z. vm_compute; reflexivity.
  - exists 500000%Z. vm_compute; reflexivity.
  - exact db_partially_paid_consistent.
  - vm_compute; reflexivity.
Defined.

Lemma void_keeps_consistent_witness :
  consistent
    (run (PaymentsService.void env_pay "pay-0" duplicate) db_partially_paid).1.
Proof.
  apply (LedgerFacts.void_keeps_consistent env_pay db_partially_paid _
           "pay-0" duplicate payment5000
           (Payment.set_voided (day 20454) "Duplicate payment" payment5000)
           po_partially_paid).
  - vm_compute; reflexivity.
  - reflexivity.
  - vm_compute; reflexivity.
  - reflexivity.
  - exists 500000%Z. vm_compute; reflexivity.
  - exact db_partially_paid_valid.
  - exact db_partially_paid_consistent.
  - vm_compute; reflexivity.
Defined.

Lemma create_establishes_invariant_witness :
  exists po,
    purchase_orders
      (run (PurchaseOrdersService.create env_po createDto1) db_empty).1
      !! "po-0" = Some po
    /\ ledger_invariant po.
Proof.
  set (r := run (PurchaseOrdersService.create env_po createDto1) db_empty).
  exists (default po_pending (purchase_orders r.1 !! "po-0")).
  apply (InvariantFacts.create_establishes_invariant env_po db_empty r.1
           createDto1).
  vm_compute; reflexivity.
Defined.

Lemma payment_keeps_invariant_witness :
  ledger_invariant
    (default po_approved
       (purchase_orders
          (run (PaymentsService.create env_pay pay5000) db_approved).1
          !! "po-0")).
Proof.
  apply (InvariantFacts.payment_keeps_invariant env_pay db_approved
           (run (PaymentsService.create env_pay pay5000) db_approved).1
           pay5000 po_approved _ payment5000).
  - vm_compute; reflexivity.
  - reflexivity.
  - exists 1180000%Z. vm_compute; reflexivity.
  - exact po_approved_invariant.
  - vm_compute; reflexivity.
  - vm_compute; reflexivity.
Defined.

Lemma void_keeps_invariant_witness :
  ledger_invariant
    (default po_approved
       (purchase_orders
          (run (PaymentsService.void env_pay "pay-0" duplicate)
             db_partially_paid).1
          !! "po-0")).
Proof.
  apply (InvariantFacts.void_keeps_invariant env_pay db_partially_paid
           (run (PaymentsService.void env_pay "pay-0" duplicate)
              db_partially_paid).1
           "pay-0" duplicate payment5000
           (Payment.set_voided (day 20454) "Duplicate payment" payment5000)
           po_partially_paid).
  - vm_compute; reflexivity.
  - reflexivity.
  - vm_compute; reflexivity.
  - reflexivity.
  - exists 1180000%Z. vm_compute; reflexivity.
  - vm_compute; discriminate.
  - exact po_partially_paid_invariant.
  - vm_compute; reflexivity.
  - vm_compute; reflexivity.
Defined.

(** The order of scenario 1 after [addItem] with two chairs at 250. *)
Lemma item_mutations_keep_invariant_witness :
  let r := run (PurchaseOrdersService.addItem env_item "po-0" item_plain)
             db_pending in
  exists po', r.2 = inr po' /\ ledger_invariant po'.
Proof.
  intros r.
  set (po' := default po_pending (purchase_orders r.1 !! "po-0")).
  destruct (ItemExtras.item_mutations_keep_invariant env_item db_pending r.1
              "po-0" po') as (Hadd & _).
  - replace (PurchaseOrder.items po') with [item1; item_chairs]
      by (vm_compute; reflexivity).
    constructor; [exists 100000%Z; vm_compute; reflexivity |].
    constructor; [exists 25000%Z; vm_compute; reflexivity |].
    constructor.
  - exists po'. split; [vm_compute; reflexivity |].
    apply (Hadd item_plain). vm_compute; reflexivity.
Defined.

Lemma item_mutations_keep_amounts_nonnegative_witness :
  let r := run (PurchaseOrdersService.addItem env_item "po-0" item_plain)
             db_pending in
  exists po',
    r.2 = inr po'
    /\ 0 <= PurchaseOrder.totalAmount po'
    /\ 0 <= PurchaseOrder.outstandingAmount po'.
Proof.
  intros r.
  set (po' := default po_pending (purchase_orders r.1 !! "po-0")).
  destruct (ItemExtras.item_mutations_keep_amounts_nonnegative env_item
              db_pending r.1 "po-0" po') as (Hadd & _).
  - replace (PurchaseOrder.items po') with [item1; item_chairs]
      by (vm_compute; reflexivity).
    constructor; [repeat split; vm_compute; discriminate |].
    constructor; [repeat split; vm_compute; discriminate |].
    constructor.
  - destruct (Hadd item_plain) as (_ & _ & _ & Htot & Hout);
      [vm_compute; reflexivity |].
    exists po'. split; [vm_compute; reflexivity |].
    split; [exact Htot |]. apply Hout. vm_compute; discriminate.
Defined.

Lemma removeItem_keeps_an_item_witness :
  let r := run (PurchaseOrdersService.removeItem "po-b" "item-100")
             db_two_items in
  exists po',
    r.2 = inr po'
    /\ length (PurchaseOrder.items po') = 1%nat
    /\ PurchaseOrder.items po' <> [].
Proof.
  intros r.
  set (po' := default po_two_items (purchase_orders r.1 !! "po-b")).
  destruct (ItemExtras.removeItem_keeps_an_item db_two_items "po-b" "item-100"
              po_two_items) as (Hremoved & _).
  - vm_compute; reflexivity.
  - apply (bool_decide_unpack _). vm_compute. exact I.
  - destruct (Hremoved r.1 po') as (Hlen & Hne & _); [vm_compute; reflexivity |].
    exists po'. split; [vm_compute; reflexivity |].
    split; [apply eq_add_S; exact Hlen | exact Hne].
Defined.

(** A second order on the ledger of scenario 1, created on 2026-02-15. *)
Lemma create_keeps_poNumbers_unique_witness :
  let d' := (run (PurchaseOrdersService.create env_late createDto1) db_pending).1 in
  keyed_by_id d' /\ unique_poNumbers d'.
Proof.
  intros d'.
  apply (CreateExtras.create_keeps_poNumbers_unique env_late db_pending d'
           createDto1 (default po_pending (purchase_orders d' !! "late-0"))).
  - split; intros k x Hk; unfold db_pending in Hk.
    + the_row Hk. reflexivity.
    + cbn [payments] in Hk. rewrite lookup_empty in Hk. discriminate.
  - intros k1 k2 o1 o2 H1 H2 _. unfold db_pending in H1, H2.
    the_row H1. the_row H2. reflexivity.
  - vm_compute; reflexivity.
Defined.

Lemma create_keeps_paymentReferences_unique_witness :
  keyed_by_id db_fully_paid /\ unique_paymentReferences db_fully_paid.
Proof.
  apply (CreateExtras.create_keeps_paymentReferences_unique env_pay2
           db_partially_paid db_fully_paid pay6800 payment6800).
  - exact db_partially_paid_keyed.
  - intros k1 k2 p1 p2 H1 H2 _. unfold db_partially_paid in H1, H2.
    the_row H1. the_row H2. reflexivity.
  - vm_compute; reflexivity.
Defined.

(** Approving the order of scenario 1. *)
Lemma update_follows_transitions_witness :
  let r := run (PurchaseOrdersService.update "po-0" approve) db_pending in
  exists po',
    purchase_orders r.1 !! "po-0" = Some po'
    /\ PurchaseOrder.status po' = APPROVED.
Proof.
  intros r.
  set (po' := default po_pending (purchase_orders r.1 !! "po-0")).
  destruct (StatusFacts.update_follows_transitions db_pending r.1 "po-0" approve
              po_pending po') as (Hl & _).
  - vm_compute; reflexivity.
  - reflexivity.
  - vm_compute; reflexivity.
  - exists po'. split; [exact Hl | vm_compute; reflexivity].
Defined.

Lemma update_keeps_amounts_witness :
  let r := run (PurchaseOrdersService.update "po-0" updateDto_tax50) db_pending in
  exists po',
    r.2 = inr po'
    /\ PurchaseOrder.totalAmount po' = 11800
    /\ PurchaseOrder.outstandingAmount po' = 11800
    /\ PurchaseOrder.items po' = [item1].
Proof.
  intros r.
  set (po' := default po_pending (purchase_orders r.1 !! "po-0")).
  destruct (StatusFacts.update_keeps_amounts db_pending r.1 "po-0"
              updateDto_tax50 po_pending po')
    as (_ & Hout & Htot & _ & Hitems & _).
  - vm_compute; reflexivity.
  - reflexivity.
  - vm_compute; reflexivity.
  - exists po'. split; [vm_compute; reflexivity |].
    split; [exact Htot |]. split; [exact Hout | exact Hitems].
Defined.

Lemma update_on_closed_order_witness :
  run (PurchaseOrdersService.update "po-0" approve) db_paid
  = (db_paid, inl (BadRequestException InvalidStatusTransition))
  /\ run (PurchaseOrdersService.update "po-0" updateDto_tax50) db_paid
     = (db_paid, inl (BadRequestException ImmutableAfterTerminal)).
Proof.
  split.
  - destruct (StatusFacts.update_on_closed_order db_paid "po-0" approve po_paid)
      as (H & _).
    + vm_compute; reflexivity.
    + reflexivity.
    + left. reflexivity.
    + apply H. eexists. reflexivity.
  - destruct (StatusFacts.update_on_closed_order db_paid "po-0" updateDto_tax50
                po_paid) as (_ & H & _).
    + vm_compute; reflexivity.
    + reflexivity.
    + left. reflexivity.
    + apply H; reflexivity.
Defined.

Lemma update_cancels_with_payments_witness :
  exists d' po',
    run (PurchaseOrdersService.update "po-0" cancel_request) db_partially_paid
    = (d', inr po')
    /\ PurchaseOrder.status po' = CANCELLED
    /\ PurchaseOrder.paidAmount po' = 5000.
Proof.
  destruct (StatusFacts.update_cancels_with_payments db_partially_paid "po-0"
              po_partially_paid) as (po' & Hrun & -> & _).
  - vm_compute; reflexivity.
  - reflexivity.
  - apply list_elem_of_further, list_elem_of_further, list_elem_of_here.
  - eexists _, _. split; [exact Hrun |]. split; reflexivity.
Defined.

Lemma cancel_only_without_payments_witness :
  (Cancel.run "po-0" db_partially_paid).1 = db_partially_paid
  /\ 0 < PurchaseOrder.paidAmount po_partially_paid.
Proof.
  destruct (CancelFacts.cancel_only_without_payments db_partially_paid
              (Cancel.run "po-0" db_partially_paid).1 "po-0" po_partially_paid
              (inl Cancel.CannotCancelWithPayments))
    as (Hd & _ & Hpaid).
  - vm_compute; reflexivity.
  - reflexivity.
  - vm_compute; reflexivity.
  - split; [exact Hd | apply Hpaid; reflexivity].
Defined.

Lemma cancelled_order_is_closed_witness :
  let d' := (Cancel.run "po-0" db_approved).1 in
  run (PaymentsService.create env_pay pay5000) d'
  = (d', inl (BadRequestException InvalidPoStateForPayment))
  /\ run (PurchaseOrdersService.addItem env_item "po-0" item_plain) d'
     = (d', inl (BadRequestException InvalidStateForMutation)).
Proof.
  intros d'.
  destruct (CancelFacts.cancelled_order_is_closed db_approved d' "po-0"
              po_approved (PurchaseOrder.set_status CANCELLED po_approved))
    as (Hpay & Hadd & _).
  - vm_compute; reflexivity.
  - reflexivity.
  - vm_compute; reflexivity.
  - split; [apply Hpay; reflexivity | apply Hadd].
Defined.

(** A payment on an order the ledger does not hold. *)
Lemma missing_rows_refused_witness :
  run (PaymentsService.create env_pay pay5000) db_empty
  = (db_empty, inl (NotFoundException APurchaseOrder))
  /\ run (PaymentsService.void env_pay "pay-0" duplicate) db_approved
     = (db_approved, inl (NotFoundException APayment))
  /\ run (PurchaseOrdersService.removeItem "po-9" "po-1") db_approved
     = (db_approved, inl (NotFoundException APurchaseOrder)).
Proof.
  split; [| split].
  - destruct (PaymentExtras.missing_rows_refused env_pay db_empty) as (H & _).
    apply H. vm_compute; reflexivity.
  - destruct (PaymentExtras.missing_rows_refused env_pay db_approved)
      as (_ & H & _).
    apply H. vm_compute; reflexivity.
  - destruct (PaymentExtras.missing_rows_refused env_pay db_approved)
      as (_ & _ & H).
    destruct (H "po-9") as (_ & _ & _ & Hremove); [vm_compute; reflexivity |].
    apply Hremove.
Defined.

(** On 2026-02-15 the ledger holds an order of 2026-01-01 only. *)
Lemma first_reference_of_day_witness :
  PurchaseOrdersService.generatePoNumber env_late (mkWorld db_pending [])
  = (mkWorld db_pending [], inr "PO-20260215-001")
  /\ PaymentsService.generatePaymentReference env_late
       (mkWorld db_partially_paid [])
     = (mkWorld db_partially_paid [], inr "PAY-20260215-001").
Proof.
  split.
  - destruct (CreateExtras.first_reference_of_day env_late
                (mkWorld db_pending [])) as (H & _).
    apply H.
    replace (PurchaseOrdersService.poNumbers (db (mkWorld db_pending [])))
      with ["PO-20260101-001"] by (vm_compute; reflexivity).
    constructor; [vm_compute; reflexivity | constructor].
  - destruct (CreateExtras.first_reference_of_day env_late
                (mkWorld db_partially_paid [])) as (_ & H).
    apply H.
    replace (PaymentsService.paymentReferences
               (db (mkWorld db_partially_paid [])))
      with ["PAY-20260101-001"] by (vm_compute; reflexivity).
    constructor; [vm_compute; reflexivity | constructor].
Defined.

(** A rejected update of the order rolls the payment of 5000 back. *)
Lemma create_failure_before_commit_witness :
  (run (PaymentsService.create env_update_fails pay5000) db_approved).1
  = db_approved.
Proof.
  apply (PaymentFacts.create_failure_before_commit env_update_fails db_approved
           _ pay5000 (QueryFailedError UpdatingPurchaseOrder)).
  - vm_compute; reflexivity.
  - discriminate.
  - discriminate.
  - discriminate.
  - discriminate.
Defined.

(** A rejected update of the order leaves the payment of 5000 in place. *)
Lemma void_failure_before_commit_witness :
  (run (PaymentsService.void env_update_fails "pay-0" duplicate)
     db_partially_paid).1
  = db_partially_paid.
Proof.
  apply (PaymentExtras.void_failure_before_commit env_update_fails
           db_partially_paid _ "pay-0" duplicate
           (QueryFailedError UpdatingPurchaseOrder)).
  - vm_compute; reflexivity.
  - discriminate.
  - discriminate.
  - discriminate.
  - discriminate.
Defined.

(** The payment of 5000 is voided and the commit rejected: the payment is
    still COMPLETED and the order has nothing paid. *)
Lemma void_commit_rejected_witness :
  exists d' po',
    run (PaymentsService.void env_commit_fails "pay-0" duplicate)
      db_partially_paid
    = (d', inl (QueryFailedError Committing))
    /\ payments d' = payments db_partially_paid
    /\ purchase_orders d' !! "po-0" = Some po'
    /\ PurchaseOrder.paidAmount po' == 0.
Proof.
  destruct (PaymentExtras.void_commit_rejected env_commit_fails
              db_partially_paid "pay-0" duplicate payment5000
              po_partially_paid)
    as (po' & Hrun & _ & Hpaid).
  - vm_compute; reflexivity.
  - reflexivity.
  - reflexivity.
  - vm_compute; reflexivity.
  - reflexivity.
  - vm_compute; reflexivity.
  - reflexivity.
  - reflexivity.
  - reflexivity.
  - reflexivity.
  - reflexivity.
  - eexists _, po'. split; [exact Hrun |]. split; [reflexivity |].
    split; [apply lookup_insert_eq |].
    rewrite Hpaid.
    + vm_compute; reflexivity.
    + exists 500000%Z. vm_compute; reflexivity.
    + exists 500000%Z. vm_compute; reflexivity.
    + vm_compute; discriminate.
Defined.

(** Scenario 2, a payment of 5000 on the approved order: recorded where
    decimal columns arrive as numbers, a [TypeError] where they arrive as
    strings. *)
Lemma create_succeeds_witness :
  (exists d' p,
     run (PaymentsService.create env_pay pay5000) db_approved = (d', inr p)
     /\ payments d' !! Payment.id p = Some p)
  /\ run (PaymentsService.create env_mysql pay5000) db_approved
     = (db_approved, inl TypeError).
Proof.
  split.
  - destruct (PaymentFacts.create_succeeds env_pay db_approved pay5000
                po_approved) as (H & _).
    + vm_compute; reflexivity.
    + reflexivity.
    + reflexivity.
    + vm_compute; discriminate.
    + vm_compute; discriminate.
    + intros f. reflexivity.
    + replace (PaymentsService.paymentReferences db_approved)
        with (@nil string) by (vm_compute; reflexivity).
      apply not_elem_of_nil.
    + apply H. reflexivity.
  - destruct (PaymentFacts.create_succeeds env_mysql db_approved pay5000
                po_approved) as (_ & H).
    + vm_compute; reflexivity.
    + reflexivity.
    + reflexivity.
    + vm_compute; discriminate.
    + vm_compute; discriminate.
    + intros f. reflexivity.
    + replace (PaymentsService.paymentReferences db_approved)
        with (@nil string) by (vm_compute; reflexivity).
      apply not_elem_of_nil.
    + apply H. reflexivity.
Defined.


(** The item of scenario 1 is stored priced, and the items stay priced when
    two chairs are added, when the quantity of the first item is then set
    to 3, and when the chairs are then removed. *)
Lemma item_rows_stay_priced_witness :
  let r0 := run (PurchaseOrdersService.create env_po createDto1) db_empty in
  let r1 := run (PurchaseOrdersService.addItem env_item "po-0" item_plain)
              r0.1 in
  let r2 := run (PurchaseOrdersService.updateItem "po-0" "po-1" update_quantity3)
              r1.1 in
  let r3 := run (PurchaseOrdersService.removeItem "po-0" "item-0") r1.1 in
  let items r := PurchaseOrder.items
                   (default po_pending (purchase_orders r.1 !! "po-0")) in
  Forall item_priced (items r0)
  /\ Forall item_priced (items r1)
  /\ Forall item_priced (items r2)
  /\ Forall item_priced (items r3)
  /\ length (items r1) = 2%nat
  /\ (PurchaseOrderItem.quantity <$> items r2) = [3%Z; 2%Z]
  /\ length (items r3) = 1%nat.
Proof.
  intros r0 r1 r2 r3 items.
  assert (H0 : Forall item_priced (items r0)).
  { destruct (CreateExtras.item_rows_stay_priced env_po db_empty r0.1
                (default po_pending (purchase_orders r0.1 !! "po-0")))
      as (H & _).
    apply (H createDto1).
    - constructor; [exists 10%Z; vm_compute; reflexivity | constructor].
    - vm_compute; reflexivity. }
  assert (H1 : Forall item_priced (items r1)).
  { destruct (CreateExtras.item_rows_stay_priced env_item r0.1 r1.1
                (default po_pending (purchase_orders r1.1 !! "po-0")))
      as (_ & H).
    destruct (H "po-0" (default po_pending (purchase_orders r0.1 !! "po-0")))
      as (Hadd & _).
    - vm_compute; reflexivity.
    - exact H0.
    - apply (Hadd item_plain).
      + exists 2%Z. vm_compute; reflexivity.
      + vm_compute; reflexivity. }
  split; [exact H0 |]. split; [exact H1 |].
  split.
  { destruct (CreateExtras.item_rows_stay_priced env_item r1.1 r2.1
                (default po_pending (purchase_orders r2.1 !! "po-0")))
      as (_ & H).
    destruct (H "po-0" (default po_pending (purchase_orders r1.1 !! "po-0")))
      as (_ & Hupdate & _).
    - vm_compute; reflexivity.
    - exact H1.
    - apply (Hupdate "po-1" update_quantity3).
      + intros q [= <-]. exists 3%Z. vm_compute; reflexivity.
      + vm_compute; reflexivity. }
  split.
  { destruct (CreateExtras.item_rows_stay_priced env_item r1.1 r3.1
                (default po_pending (purchase_orders r3.1 !! "po-0")))
      as (_ & H).
    destruct (H "po-0" (default po_pending (purchase_orders r1.1 !! "po-0")))
      as (_ & _ & Hremove).
    - vm_compute; reflexivity.
    - exact H1.
    - apply (Hremove "item-0"). vm_compute; reflexivity. }
  split; [vm_compute; reflexivity |].
  split; vm_compute; reflexivity.
Defined.

End ExtraInstances.
